(** * Logical decoding coordination (src/backend/replication/logical/logical.c)

    A shallow embedding of the retention-advancement protocol
    ([LogicalIncreaseXminForSlot], [LogicalIncreaseRestartDecodingForSlot],
    [LogicalConfirmReceivedLocation]), of the output-plugin callback
    wrappers and of the start-position resolution of
    [CreateDecodingContext], with the properties the specification states
    about them.

    Conventions.
    - [XLogRecPtr] (uint64) and [TransactionId] (uint32) are [Z]; the code
      only assigns and compares positions, the one place where 32-bit
      wrap-around matters is the circular comparison of transaction ids.
    - Code that touches shared memory runs in a state monad over [Server];
      every externally visible action is appended to [history] in program
      order, together with whether the slot's spinlock was held.
    - [Assert(...)] is a debug-build check: it is the caller's obligation
      and appears as a hypothesis where a statement depends on it. *)

From Stdlib Require Import ZArith List Bool Lia String Ascii Sorted.
From ExtLib Require Import Structures.Monad Structures.MonadState.
From ExtLib Require Import Data.Monads.StateMonad.
Import ListNotations.
Import MonadNotation.
Local Open Scope Z_scope.
Local Open Scope monad_scope.

(** ** Positions and transaction ids *)

Definition XLogRecPtr := Z.
Definition TransactionId := Z.
Definition Oid := Z.

Definition InvalidXLogRecPtr : XLogRecPtr := 0.
Definition InvalidOid : Oid := 0.

(** Modelled from the spec: access/transam.h and access/transam.c are not
    part of the source tree at hand.  The spec asks for a reserved invalid
    id and for comparisons in modular order; this is the usual circular
    comparison on 32-bit ids, where the permanent ids below
    [FirstNormalTransactionId] compare as plain integers. *)
Module Transam.

Definition InvalidTransactionId : TransactionId := 0.
Definition FirstNormalTransactionId : TransactionId := 3.

Definition TransactionIdIsValid (xid : TransactionId) : bool :=
  negb (xid =? InvalidTransactionId).

Definition TransactionIdIsNormal (xid : TransactionId) : bool :=
  FirstNormalTransactionId <=? xid.

(** [(int32) (id1 - id2)]: the difference taken modulo 2^32 and read as
    a signed 32-bit integer. *)
Definition int32_diff (id1 id2 : TransactionId) : Z :=
  (id1 - id2 + 2 ^ 31) mod 2 ^ 32 - 2 ^ 31.

Definition TransactionIdPrecedes (id1 id2 : TransactionId) : bool :=
  if negb (TransactionIdIsNormal id1) || negb (TransactionIdIsNormal id2)
  then id1 <? id2
  else int32_diff id1 id2 <? 0.

Definition TransactionIdPrecedesOrEquals (id1 id2 : TransactionId) : bool :=
  if negb (TransactionIdIsNormal id1) || negb (TransactionIdIsNormal id2)
  then id1 <=? id2
  else int32_diff id1 id2 <=? 0.

Definition TransactionIdFollows (id1 id2 : TransactionId) : bool :=
  if negb (TransactionIdIsNormal id1) || negb (TransactionIdIsNormal id2)
  then id2 <? id1
  else 0 <? int32_diff id1 id2.

End Transam.
Export Transam.

(** ** The replication slot *)

(** The part of the slot that is written to disk
    ([ReplicationSlotPersistentData], fields used by logical.c). *)
Record ReplicationSlotPersistentData : Type := mkData {
  database : Oid;
  plugin : string;
  catalog_xmin : TransactionId;
  restart_lsn : XLogRecPtr;
  confirmed_flush : XLogRecPtr
}.

(** The shared-memory slot.  [slot->mutex] and the dirty flag are kept in
    [Server] below, so that equality of slots speaks of the data fields. *)
Record ReplicationSlot : Type := mkSlot {
  data : ReplicationSlotPersistentData;
  effective_catalog_xmin : TransactionId;
  candidate_catalog_xmin : TransactionId;
  candidate_xmin_lsn : XLogRecPtr;
  candidate_restart_valid : XLogRecPtr;
  candidate_restart_lsn : XLogRecPtr
}.

Definition set_data_catalog_xmin (v : TransactionId) (s : ReplicationSlot) :=
  let d := data s in
  mkSlot (mkData (database d) (plugin d) v (restart_lsn d) (confirmed_flush d))
         (effective_catalog_xmin s) (candidate_catalog_xmin s)
         (candidate_xmin_lsn s) (candidate_restart_valid s)
         (candidate_restart_lsn s).

Definition set_data_restart_lsn (v : XLogRecPtr) (s : ReplicationSlot) :=
  let d := data s in
  mkSlot (mkData (database d) (plugin d) (catalog_xmin d) v (confirmed_flush d))
         (effective_catalog_xmin s) (candidate_catalog_xmin s)
         (candidate_xmin_lsn s) (candidate_restart_valid s)
         (candidate_restart_lsn s).

Definition set_data_confirmed_flush (v : XLogRecPtr) (s : ReplicationSlot) :=
  let d := data s in
  mkSlot (mkData (database d) (plugin d) (catalog_xmin d) (restart_lsn d) v)
         (effective_catalog_xmin s) (candidate_catalog_xmin s)
         (candidate_xmin_lsn s) (candidate_restart_valid s)
         (candidate_restart_lsn s).

Definition set_effective_catalog_xmin (v : TransactionId) (s : ReplicationSlot) :=
  mkSlot (data s) v (candidate_catalog_xmin s) (candidate_xmin_lsn s)
         (candidate_restart_valid s) (candidate_restart_lsn s).

Definition set_candidate_catalog_xmin (v : TransactionId) (s : ReplicationSlot) :=
  mkSlot (data s) (effective_catalog_xmin s) v (candidate_xmin_lsn s)
         (candidate_restart_valid s) (candidate_restart_lsn s).

Definition set_candidate_xmin_lsn (v : XLogRecPtr) (s : ReplicationSlot) :=
  mkSlot (data s) (effective_catalog_xmin s) (candidate_catalog_xmin s) v
         (candidate_restart_valid s) (candidate_restart_lsn s).

Definition set_candidate_restart_valid (v : XLogRecPtr) (s : ReplicationSlot) :=
  mkSlot (data s) (effective_catalog_xmin s) (candidate_catalog_xmin s)
         (candidate_xmin_lsn s) v (candidate_restart_lsn s).

Definition set_candidate_restart_lsn (v : XLogRecPtr) (s : ReplicationSlot) :=
  mkSlot (data s) (effective_catalog_xmin s) (candidate_catalog_xmin s)
         (candidate_xmin_lsn s) (candidate_restart_valid s) v.

(** ** Shared state and its observable history *)

Inductive Event : Type :=
| EvSpinLockAcquire
| EvSpinLockRelease
| EvMarkDirty
| EvSave (persisted : ReplicationSlotPersistentData) (spinlock_held : bool)
| EvEffectiveCatalogXmin (xmin : TransactionId) (spinlock_held : bool)
| EvComputeRequiredXmin (already_locked : bool)
| EvComputeRequiredLSN
| EvElog (fmt : string).

Record Server : Type := mkServer {
  MyReplicationSlot : ReplicationSlot;
  mutex : bool;                              (* slot->mutex is held *)
  dirty : bool;                              (* slot->dirty *)
  on_disk : ReplicationSlotPersistentData;   (* the slot's state file *)
  history : list Event
}.

Definition Srv := state Server.

Definition emit (e : Event) : Srv unit :=
  w <- get ;;
  put (mkServer (MyReplicationSlot w) (mutex w) (dirty w) (on_disk w)
                (history w ++ [e])).

Definition slot_read {A : Type} (f : ReplicationSlot -> A) : Srv A :=
  w <- get ;; ret (f (MyReplicationSlot w)).

Definition slot_write (f : ReplicationSlot -> ReplicationSlot) : Srv unit :=
  w <- get ;;
  put (mkServer (f (MyReplicationSlot w)) (mutex w) (dirty w) (on_disk w)
                (history w)).

Definition SpinLockAcquire : Srv unit :=
  w <- get ;;
  put (mkServer (MyReplicationSlot w) true (dirty w) (on_disk w) (history w)) ;;
  emit EvSpinLockAcquire.

Definition SpinLockRelease : Srv unit :=
  w <- get ;;
  put (mkServer (MyReplicationSlot w) false (dirty w) (on_disk w) (history w)) ;;
  emit EvSpinLockRelease.

Definition elog_DEBUG1 (fmt : string) : Srv unit := emit (EvElog fmt).

(** Modelled from the spec: slot.c is not part of the source tree at hand.
    [ReplicationSlotMarkDirty] flags the slot as changed and
    [ReplicationSlotSave] durably persists the slot's current state when it
    is flagged; a failure to persist is fatal to the session and is not a
    behaviour of this model. *)
Definition ReplicationSlotMarkDirty : Srv unit :=
  w <- get ;;
  put (mkServer (MyReplicationSlot w) (mutex w) true (on_disk w) (history w)) ;;
  emit EvMarkDirty.

Definition ReplicationSlotSave : Srv unit :=
  w <- get ;;
  if dirty w
  then put (mkServer (MyReplicationSlot w) (mutex w) false
                     (data (MyReplicationSlot w)) (history w)) ;;
       emit (EvSave (data (MyReplicationSlot w)) (mutex w))
  else ret tt.

(** Modelled from the spec: the installation-wide recomputation of the
    retention thresholds (slot.c) is an external collaborator; only the
    fact that it is invoked is recorded. *)
Definition ReplicationSlotsComputeRequiredXmin (already_locked : bool) : Srv unit :=
  emit (EvComputeRequiredXmin already_locked).

Definition ReplicationSlotsComputeRequiredLSN : Srv unit :=
  emit EvComputeRequiredLSN.

(** Modelled from the spec: after a crash the slot is rebuilt from its
    state file, no candidate is pending and the enforced catalog xmin is
    reloaded from the durable one (slot.c; logical.c says so in
    [LogicalConfirmReceivedLocation]: after a crash the effective xmin is
    set to the persisted xmin). *)
Definition RestoreSlotFromDisk (d : ReplicationSlotPersistentData) : ReplicationSlot :=
  mkSlot d (catalog_xmin d) InvalidTransactionId InvalidXLogRecPtr
         InvalidXLogRecPtr InvalidXLogRecPtr.

(** ** The retention advancer *)

Definition xlog_valid (p : XLogRecPtr) : bool := negb (p =? InvalidXLogRecPtr).

(** [LogicalConfirmReceivedLocation], logical.c lines 901-983. *)
Definition LogicalConfirmReceivedLocation (lsn : XLogRecPtr) : Srv unit :=
  (* Do an unlocked check for candidate_lsn first. *)
  unlocked <- slot_read (fun s => xlog_valid (candidate_xmin_lsn s)
                                  || xlog_valid (candidate_restart_valid s)) ;;
  if (unlocked : bool) then
    SpinLockAcquire ;;
    slot_write (set_data_confirmed_flush lsn) ;;
    (* if we're past the location required for bumping xmin, do so *)
    s <- slot_read (fun s => s) ;;
    updated_xmin <-
      (if xlog_valid (candidate_xmin_lsn s) && (candidate_xmin_lsn s <=? lsn)
       then
         if TransactionIdIsValid (candidate_catalog_xmin s)
            && negb (catalog_xmin (data s) =? candidate_catalog_xmin s)
         then
           slot_write (set_data_catalog_xmin (candidate_catalog_xmin s)) ;;
           slot_write (set_candidate_catalog_xmin InvalidTransactionId) ;;
           slot_write (set_candidate_xmin_lsn InvalidXLogRecPtr) ;;
           ret true
         else ret false
       else ret false) ;;
    s <- slot_read (fun s => s) ;;
    updated_restart <-
      (if xlog_valid (candidate_restart_valid s)
          && (candidate_restart_valid s <=? lsn)
       then
         slot_write (set_data_restart_lsn (candidate_restart_lsn s)) ;;
         slot_write (set_candidate_restart_lsn InvalidXLogRecPtr) ;;
         slot_write (set_candidate_restart_valid InvalidXLogRecPtr) ;;
         ret true
       else ret false) ;;
    SpinLockRelease ;;
    (* first write new xmin to disk, so we know what's up after a crash *)
    (if (updated_xmin : bool) || (updated_restart : bool)
     then
       ReplicationSlotMarkDirty ;;
       ReplicationSlotSave ;;
       elog_DEBUG1 "updated xmin: %u restart: %u"
     else ret tt) ;;
    (* Now the new xmin is safely on disk, we can let the global value
       advance. *)
    (if (updated_xmin : bool)
     then
       SpinLockAcquire ;;
       slot_write (fun s => set_effective_catalog_xmin (catalog_xmin (data s)) s) ;;
       x <- slot_read effective_catalog_xmin ;;
       held <- gets mutex ;;
       emit (EvEffectiveCatalogXmin x held) ;;
       SpinLockRelease ;;
       ReplicationSlotsComputeRequiredXmin false ;;
       ReplicationSlotsComputeRequiredLSN
     else ret tt)
  else
    SpinLockAcquire ;;
    slot_write (set_data_confirmed_flush lsn) ;;
    SpinLockRelease.

(** [LogicalIncreaseXminForSlot], logical.c lines 775-823. *)
Definition LogicalIncreaseXminForSlot (current_lsn : XLogRecPtr)
    (xmin : TransactionId) : Srv unit :=
  SpinLockAcquire ;;
  s <- slot_read (fun s => s) ;;
  updated_xmin <-
    ((* don't overwrite if we already have a newer xmin *)
     if TransactionIdPrecedesOrEquals xmin (catalog_xmin (data s))
     then ret false
     (* the client has already confirmed up to this lsn *)
     else if current_lsn <=? confirmed_flush (data s)
     then
       slot_write (set_candidate_catalog_xmin xmin) ;;
       slot_write (set_candidate_xmin_lsn current_lsn) ;;
       (* our candidate can directly be used *)
       ret true
     (* only increase if the previous values have been applied *)
     else if candidate_xmin_lsn s =? InvalidXLogRecPtr
     then
       slot_write (set_candidate_catalog_xmin xmin) ;;
       slot_write (set_candidate_xmin_lsn current_lsn) ;;
       ret false
     else ret false) ;;
  SpinLockRelease ;;
  (* candidate already valid with the current flush position, apply *)
  if (updated_xmin : bool)
  then
    flushed <- slot_read (fun s => confirmed_flush (data s)) ;;
    LogicalConfirmReceivedLocation flushed
  else ret tt.

(** [LogicalIncreaseRestartDecodingForSlot], logical.c lines 832-896.
    The third test is a plain [if] in the source, not an [else if]: it is
    evaluated after the first two branches whichever of them was taken. *)
Definition LogicalIncreaseRestartDecodingForSlot (current_lsn : XLogRecPtr)
    (restart_lsn' : XLogRecPtr) : Srv unit :=
  SpinLockAcquire ;;
  s <- slot_read (fun s => s) ;;
  updated_lsn <-
    ((* don't overwrite if have a newer restart lsn *)
     if restart_lsn' <=? restart_lsn (data s)
     then ret false
     (* we might have already flushed far enough to directly accept this lsn *)
     else if current_lsn <=? confirmed_flush (data s)
     then
       slot_write (set_candidate_restart_valid current_lsn) ;;
       slot_write (set_candidate_restart_lsn restart_lsn') ;;
       (* our candidate can directly be used *)
       ret true
     else ret false) ;;
  s <- slot_read (fun s => s) ;;
  (if candidate_restart_valid s =? InvalidXLogRecPtr
   then
     slot_write (set_candidate_restart_valid current_lsn) ;;
     slot_write (set_candidate_restart_lsn restart_lsn') ;;
     elog_DEBUG1 "got new restart lsn %X/%X at %X/%X"
   else
     elog_DEBUG1 "failed to increase restart lsn: proposed %X/%X, after %X/%X, current candidate %X/%X, current after %X/%X, flushed up to %X/%X") ;;
  SpinLockRelease ;;
  (* candidates are already valid with the current flush position, apply *)
  if (updated_lsn : bool)
  then
    flushed <- slot_read (fun s => confirmed_flush (data s)) ;;
    LogicalConfirmReceivedLocation flushed
  else ret tt.

(** The slot fields set when a logical slot is first used
    ([CreateInitDecodingContext], logical.c lines 280-281); [oldest_safe]
    is the answer of [GetOldestSafeDecodingTransactionId]. *)
Definition publish_initial_catalog_xmin (oldest_safe : TransactionId)
    (s : ReplicationSlot) : ReplicationSlot :=
  let s := set_effective_catalog_xmin oldest_safe s in
  set_data_catalog_xmin (effective_catalog_xmin s) s.

(** Running a call: the slot it leaves, and the events it adds. *)
Definition slot_after {A : Type} (c : Srv A) (w : Server) : ReplicationSlot :=
  MyReplicationSlot (execState c w).

Definition events_of {A : Type} (c : Srv A) (w : Server) : list Event :=
  skipn (List.length (history w)) (history (execState c w)).


(** ** What a call does to the slot

    The guards under which [LogicalConfirmReceivedLocation] adopts a
    candidate, and the slot each call leaves, as functions of the slot it
    finds.  They are derived from the code above ([*_slot] lemmas). *)

Definition xmin_adopted (lsn : XLogRecPtr) (s : ReplicationSlot) : bool :=
  xlog_valid (candidate_xmin_lsn s) && (candidate_xmin_lsn s <=? lsn)
  && (TransactionIdIsValid (candidate_catalog_xmin s)
      && negb (catalog_xmin (data s) =? candidate_catalog_xmin s)).

Definition restart_adopted (lsn : XLogRecPtr) (s : ReplicationSlot) : bool :=
  xlog_valid (candidate_restart_valid s) && (candidate_restart_valid s <=? lsn).

Definition confirmed_slot (lsn : XLogRecPtr) (s : ReplicationSlot) : ReplicationSlot :=
  let d := data s in
  mkSlot
    (mkData (database d) (plugin d)
       (if xmin_adopted lsn s then candidate_catalog_xmin s else catalog_xmin d)
       (if restart_adopted lsn s then candidate_restart_lsn s else restart_lsn d)
       lsn)
    (if xmin_adopted lsn s then candidate_catalog_xmin s
     else effective_catalog_xmin s)
    (if xmin_adopted lsn s then InvalidTransactionId else candidate_catalog_xmin s)
    (if xmin_adopted lsn s then InvalidXLogRecPtr else candidate_xmin_lsn s)
    (if restart_adopted lsn s then InvalidXLogRecPtr else candidate_restart_valid s)
    (if restart_adopted lsn s then InvalidXLogRecPtr else candidate_restart_lsn s).

Definition with_xmin_candidate (current_lsn : XLogRecPtr) (xmin : TransactionId)
    (s : ReplicationSlot) : ReplicationSlot :=
  set_candidate_xmin_lsn current_lsn (set_candidate_catalog_xmin xmin s).

Definition with_restart_candidate (current_lsn restart_lsn' : XLogRecPtr)
    (s : ReplicationSlot) : ReplicationSlot :=
  set_candidate_restart_lsn restart_lsn'
    (set_candidate_restart_valid current_lsn s).

Definition xmin_proposed_slot (current_lsn : XLogRecPtr) (xmin : TransactionId)
    (s : ReplicationSlot) : ReplicationSlot :=
  if TransactionIdPrecedesOrEquals xmin (catalog_xmin (data s)) then s
  else if current_lsn <=? confirmed_flush (data s)
  then confirmed_slot (confirmed_flush (data s))
         (with_xmin_candidate current_lsn xmin s)
  else if candidate_xmin_lsn s =? InvalidXLogRecPtr
  then with_xmin_candidate current_lsn xmin s
  else s.

Definition restart_proposed_slot (current_lsn restart_lsn' : XLogRecPtr)
    (s : ReplicationSlot) : ReplicationSlot :=
  let updated_lsn :=
    negb (restart_lsn' <=? restart_lsn (data s))
    && (current_lsn <=? confirmed_flush (data s)) in
  let s1 :=
    if updated_lsn then with_restart_candidate current_lsn restart_lsn' s
    else s in
  let s2 :=
    if candidate_restart_valid s1 =? InvalidXLogRecPtr
    then with_restart_candidate current_lsn restart_lsn' s1
    else s1 in
  if updated_lsn then confirmed_slot (confirmed_flush (data s2)) s2 else s2.

(** The events one call of [LogicalConfirmReceivedLocation] adds to the
    history, as a function of the slot it finds. *)
Definition confirm_events (lsn : XLogRecPtr) (s : ReplicationSlot) : list Event :=
  [EvSpinLockAcquire; EvSpinLockRelease]
  ++ (if xmin_adopted lsn s || restart_adopted lsn s
      then [EvMarkDirty; EvSave (data (confirmed_slot lsn s)) false;
            EvElog "updated xmin: %u restart: %u"]
      else [])
  ++ (if xmin_adopted lsn s
      then [EvSpinLockAcquire;
            EvEffectiveCatalogXmin (candidate_catalog_xmin s) true;
            EvSpinLockRelease; EvComputeRequiredXmin false;
            EvComputeRequiredLSN]
      else []).

(** ** Sequences of calls *)

Inductive Call : Type :=
| Confirm (lsn : XLogRecPtr)
| IncreaseXmin (current_lsn : XLogRecPtr) (xmin : TransactionId)
| IncreaseRestart (current_lsn : XLogRecPtr) (restart_lsn' : XLogRecPtr).

Definition perform (c : Call) : Srv unit :=
  match c with
  | Confirm lsn => LogicalConfirmReceivedLocation lsn
  | IncreaseXmin current_lsn xmin => LogicalIncreaseXminForSlot current_lsn xmin
  | IncreaseRestart current_lsn restart_lsn' =>
      LogicalIncreaseRestartDecodingForSlot current_lsn restart_lsn'
  end.

(** Consecutive acknowledgements. *)
Fixpoint confirm_each (lsns : list XLogRecPtr) : Srv unit :=
  match lsns with
  | [] => ret tt
  | lsn :: rest => LogicalConfirmReceivedLocation lsn ;; confirm_each rest
  end.

(** The slot as observed after each call of a sequence. *)
Fixpoint observe (cs : list Call) (w : Server) : list ReplicationSlot :=
  match cs with
  | [] => []
  | c :: rest =>
      let w' := execState (perform c) w in
      MyReplicationSlot w' :: observe rest w'
  end.

(** The slot as observed after each acknowledgement of a sequence. *)
Fixpoint observe_confirms (cs : list Call) (w : Server) : list ReplicationSlot :=
  match cs with
  | [] => []
  | c :: rest =>
      let w' := execState (perform c) w in
      match c with
      | Confirm _ => MyReplicationSlot w' :: observe_confirms rest w'
      | _ => observe_confirms rest w'
      end
  end.

(** The positions acknowledged by a sequence, in order. *)
Fixpoint acknowledged (cs : list Call) : list XLogRecPtr :=
  match cs with
  | [] => []
  | Confirm lsn :: rest => lsn :: acknowledged rest
  | _ :: rest => acknowledged rest
  end.

(** What holds of a slot from its first use on: the enforced catalog xmin
    is the durable one, and a pending xmin candidate does not precede it. *)
Definition slot_consistent (s : ReplicationSlot) : Prop :=
  effective_catalog_xmin s = catalog_xmin (data s)
  /\ (xlog_valid (candidate_xmin_lsn s) = true ->
      TransactionIdPrecedesOrEquals (candidate_catalog_xmin s)
        (catalog_xmin (data s)) = false).

(** ** Crashes *)

(** The state file after the events [h], starting from [d0]. *)
Fixpoint durable_after (h : list Event) (d0 : ReplicationSlotPersistentData)
    : ReplicationSlotPersistentData :=
  match h with
  | [] => d0
  | EvSave d _ :: rest => durable_after rest d
  | _ :: rest => durable_after rest d0
  end.

(** The slot found at restart when the server crashes after the first [k]
    events of the call [c]. *)
Definition crash_after {A : Type} (k : nat) (c : Srv A) (w : Server)
    : ReplicationSlot :=
  RestoreSlotFromDisk (durable_after (firstn k (events_of c w)) (on_disk w)).

(** An event that persists the slot or updates the enforced catalog xmin
    happens outside the slot's spinlock. *)
Definition outside_spinlock (e : Event) : Prop :=
  match e with
  | EvSave _ held => held = false
  | EvEffectiveCatalogXmin _ held => held = false
  | _ => True
  end.

(** ** Sample states *)

Definition serve (s : ReplicationSlot) : Server :=
  mkServer s false false (data s) [].

(** Both tracks hold a candidate that waits for position 150. *)
Definition server_pending : Server :=
  serve (mkSlot (mkData 1 "test_decoding" 40 90 100) 40 50 150 150 95).

(** No candidate is pending; the slot retains WAL from position 100 and
    the consumer has confirmed position 120. *)
Definition server_idle : Server :=
  serve (mkSlot (mkData 1 "test_decoding" 40 100 120) 40 0 0 0 0).

(** ** Backend-local state and errors

    The callback wrappers and the creation of a decoding context run in a
    backend whose local state is [Backend].  [ereport(ERROR, ...)] leaves
    the running function by a non-local exit: the rest of every function
    on the call stack is skipped and the backend state stays as it is at
    the time of the report.  [Exec] is the corresponding state-and-error
    monad. *)

Inductive ErrCode : Type :=
| ERRCODE_INTERNAL_ERROR
| ERRCODE_OBJECT_NOT_IN_PREREQUISITE_STATE
| ERRCODE_OUT_OF_MEMORY
| ERRCODE_PLUGIN (code : Z).

Inductive Elevel : Type := DEBUG1 | LOG.

(** [LogicalErrorCallbackState], the argument of
    [output_plugin_error_callback]; the context pointer is left out, there
    is one decoding context. *)
Record LogicalErrorCallbackState : Type := mkFrame {
  callback_name : string;
  report_location : XLogRecPtr
}.

Record ErrorData : Type := mkError {
  sqlerrcode : ErrCode;
  message : string;
  context : list LogicalErrorCallbackState   (* errcontext lines, innermost first *)
}.

Record Backend : Type := mkBackend {
  accept_writes : bool;                      (* ctx->accept_writes *)
  prepared_write : bool;                     (* ctx->prepared_write *)
  write_xid : TransactionId;                 (* ctx->write_xid *)
  write_location : XLogRecPtr;               (* ctx->write_location *)
  error_context_stack : list LogicalErrorCallbackState;
  in_logical_decoding : bool;                (* PROC_IN_LOGICAL_DECODING *)
  server_log : list (Elevel * string)
}.

Inductive Outcome (A : Type) : Type :=
| Returned (a : A)
| Raised (e : ErrorData)
| Segfault.                                  (* call through a NULL pointer *)
Arguments Returned {A} a.
Arguments Raised {A} e.
Arguments Segfault {A}.

Record Exec (A : Type) : Type := mkExec {
  runExec : Backend -> Outcome A * Backend
}.
Arguments mkExec {A} _.
Arguments runExec {A} _ _.

#[global] Instance Monad_Exec : Monad Exec := {
  ret := fun _ a => mkExec (fun st => (Returned a, st));
  bind := fun _ _ c k =>
    mkExec (fun st =>
      match runExec c st with
      | (Returned a, st') => runExec (k a) st'
      | (Raised e, st') => (Raised e, st')
      | (Segfault, st') => (Segfault, st')
      end)
}.

#[global] Instance MonadState_Exec : MonadState Backend Exec := {
  get := mkExec (fun st => (Returned st, st));
  put := fun st => mkExec (fun _ => (Returned tt, st))
}.

(** [ereport(ERROR, ...)]: the error context callbacks on the stack add
    their lines to the error, then control leaves by the non-local exit. *)
Definition ereport_ERROR {A : Type} (code : ErrCode) (msg : string) : Exec A :=
  mkExec (fun st => (Raised (mkError code msg (error_context_stack st)), st)).

Definition elog_ERROR {A : Type} (msg : string) : Exec A :=
  ereport_ERROR ERRCODE_INTERNAL_ERROR msg.

Definition elog (level : Elevel) (msg : string) : Exec unit :=
  st <- get ;;
  put (mkBackend (accept_writes st) (prepared_write st) (write_xid st)
         (write_location st) (error_context_stack st)
         (in_logical_decoding st) (server_log st ++ [(level, msg)])).

Definition set_accept_writes (b : bool) : Exec unit :=
  st <- get ;;
  put (mkBackend b (prepared_write st) (write_xid st) (write_location st)
         (error_context_stack st) (in_logical_decoding st) (server_log st)).

Definition set_write_xid (x : TransactionId) : Exec unit :=
  st <- get ;;
  put (mkBackend (accept_writes st) (prepared_write st) x (write_location st)
         (error_context_stack st) (in_logical_decoding st) (server_log st)).

Definition set_write_location (p : XLogRecPtr) : Exec unit :=
  st <- get ;;
  put (mkBackend (accept_writes st) (prepared_write st) (write_xid st) p
         (error_context_stack st) (in_logical_decoding st) (server_log st)).

Definition set_error_context_stack (l : list LogicalErrorCallbackState)
    : Exec unit :=
  st <- get ;;
  put (mkBackend (accept_writes st) (prepared_write st) (write_xid st)
         (write_location st) l (in_logical_decoding st) (server_log st)).

Definition set_in_logical_decoding (b : bool) : Exec unit :=
  st <- get ;;
  put (mkBackend (accept_writes st) (prepared_write st) (write_xid st)
         (write_location st) (error_context_stack st) b (server_log st)).

(** ** Output plugin callbacks *)

Record ReorderBufferTXN : Type := mkTXN {
  xid : TransactionId;
  first_lsn : XLogRecPtr;
  final_lsn : XLogRecPtr;
  end_lsn : XLogRecPtr
}.

Record ReorderBufferChange : Type := mkChange {
  change_lsn : XLogRecPtr                    (* change->lsn *)
}.

Definition Relation := Oid.
Definition RepOriginId := Z.
Definition OutputPluginOptions := Z.

(** [OutputPluginCallbacks]: a function pointer that may be NULL is an
    [option]. *)
Record OutputPluginCallbacks : Type := mkCallbacks {
  startup_cb : option (OutputPluginOptions -> bool -> Exec unit);
  begin_cb : option (ReorderBufferTXN -> Exec unit);
  change_cb : option (ReorderBufferTXN -> Relation -> ReorderBufferChange
                      -> Exec unit);
  commit_cb : option (ReorderBufferTXN -> XLogRecPtr -> Exec unit);
  message_cb : option (option ReorderBufferTXN -> XLogRecPtr -> bool -> string
                       -> Z -> string -> Exec unit);
  filter_by_origin_cb : option (RepOriginId -> Exec bool);
  shutdown_cb : option (Exec unit)
}.

(** A call through a function pointer. *)
Definition call {F A : Type} (pointer : option F) (apply : F -> Exec A) : Exec A :=
  match pointer with
  | Some f => apply f
  | None => mkExec (fun st => (Segfault, st))
  end.

(** "Push callback + info on the error context stack": the frame is
    linked in front of the current stack, which is kept in
    [errcallback.previous] and returned here. *)
Definition push_error_context (name : string) (location : XLogRecPtr)
    : Exec (list LogicalErrorCallbackState) :=
  previous <- gets error_context_stack ;;
  set_error_context_stack (mkFrame name location :: previous) ;;
  ret previous.

Definition startup_cb_wrapper (callbacks : OutputPluginCallbacks)
    (opt : OutputPluginOptions) (is_init : bool) : Exec unit :=
  previous <- push_error_context "startup" InvalidXLogRecPtr ;;
  (* set output state *)
  set_accept_writes false ;;
  (* do the actual work: call callback *)
  call (startup_cb callbacks) (fun f => f opt is_init) ;;
  (* Pop the error context stack *)
  set_error_context_stack previous.

Definition shutdown_cb_wrapper (callbacks : OutputPluginCallbacks) : Exec unit :=
  previous <- push_error_context "shutdown" InvalidXLogRecPtr ;;
  set_accept_writes false ;;
  call (shutdown_cb callbacks) (fun f => f) ;;
  set_error_context_stack previous.

Definition begin_cb_wrapper (callbacks : OutputPluginCallbacks)
    (txn : ReorderBufferTXN) : Exec unit :=
  previous <- push_error_context "begin" (first_lsn txn) ;;
  set_accept_writes true ;;
  set_write_xid (xid txn) ;;
  set_write_location (first_lsn txn) ;;
  call (begin_cb callbacks) (fun f => f txn) ;;
  set_error_context_stack previous.

Definition commit_cb_wrapper (callbacks : OutputPluginCallbacks)
    (txn : ReorderBufferTXN) (commit_lsn : XLogRecPtr) : Exec unit :=
  previous <- push_error_context "commit" (final_lsn txn) ;;
  set_accept_writes true ;;
  set_write_xid (xid txn) ;;
  set_write_location (end_lsn txn) ;;
  call (commit_cb callbacks) (fun f => f txn commit_lsn) ;;
  set_error_context_stack previous.

Definition change_cb_wrapper (callbacks : OutputPluginCallbacks)
    (txn : ReorderBufferTXN) (relation : Relation)
    (change : ReorderBufferChange) : Exec unit :=
  previous <- push_error_context "change" (change_lsn change) ;;
  set_accept_writes true ;;
  set_write_xid (xid txn) ;;
  set_write_location (change_lsn change) ;;
  call (change_cb callbacks) (fun f => f txn relation change) ;;
  set_error_context_stack previous.

Definition filter_by_origin_cb_wrapper (callbacks : OutputPluginCallbacks)
    (origin_id : RepOriginId) : Exec bool :=
  previous <- push_error_context "filter_by_origin" InvalidXLogRecPtr ;;
  set_accept_writes false ;;
  r <- call (filter_by_origin_cb callbacks) (fun f => f origin_id) ;;
  set_error_context_stack previous ;;
  ret r.

Definition message_cb_wrapper (callbacks : OutputPluginCallbacks)
    (txn : option ReorderBufferTXN) (message_lsn : XLogRecPtr)
    (transactional : bool) (prefix : string) (message_size : Z)
    (msg : string) : Exec unit :=
  match message_cb callbacks with
  | None => ret tt
  | Some f =>
      previous <- push_error_context "message" message_lsn ;;
      set_accept_writes true ;;
      set_write_xid (match txn with
                     | Some t => xid t
                     | None => InvalidTransactionId
                     end) ;;
      set_write_location message_lsn ;;
      f txn message_lsn transactional prefix message_size msg ;;
      set_error_context_stack previous
  end.

(** ** Loading the plugin and creating a decoding context *)

Definition LogicalOutputPluginInit := OutputPluginCallbacks -> OutputPluginCallbacks.

(** What the code reads from the rest of the installation. *)
Record Installation : Type := mkInstallation {
  MyDatabaseId : Oid;
  (* ShmemVariableCache->oldestCatalogXmin *)
  oldestCatalogXmin : TransactionId;
  (* load_external_function(plugin, "_PG_output_plugin_init", false, NULL):
     the init function of the library, NULL when it declares none *)
  load_external_function : string -> option LogicalOutputPluginInit;
  (* XLogReaderAllocate returned a reader *)
  reader_allocated : bool;
  IsTransactionOrTransactionBlock : bool
}.

Definition is_null {F : Type} (pointer : option F) : bool :=
  match pointer with
  | None => true
  | Some _ => false
  end.

(** The callback table of a freshly allocated context ([palloc0]). *)
Definition no_callbacks : OutputPluginCallbacks :=
  mkCallbacks None None None None None None None.

(** [LoadOutputPlugin], logical.c lines 516-536. *)
Definition LoadOutputPlugin (inst : Installation)
    (callbacks : OutputPluginCallbacks) (plugin_name : string)
    : Exec OutputPluginCallbacks :=
  match load_external_function inst plugin_name with
  | None =>
      elog_ERROR "output plugins have to declare the _PG_output_plugin_init symbol"
  | Some plugin_init =>
      (* ask the output plugin to fill the callback struct *)
      let callbacks := plugin_init callbacks in
      if is_null (begin_cb callbacks)
      then elog_ERROR "output plugins have to register a begin callback"
      else if is_null (change_cb callbacks)
      then elog_ERROR "output plugins have to register a change callback"
      else if is_null (commit_cb callbacks)
      then elog_ERROR "output plugins have to register a commit callback"
      else ret callbacks
  end.

(** Modelled from the spec: snapbuild.c is not part of the source tree at
    hand; the snapshot builder is represented by the horizon and the start
    position it is allocated with. *)
Record SnapBuild : Type := AllocateSnapshotBuilder {
  builder_xmin_horizon : TransactionId;
  builder_start_lsn : XLogRecPtr
}.

Record LogicalDecodingContext : Type := mkContext {
  ctx_slot : ReplicationSlot;
  ctx_callbacks : OutputPluginCallbacks;
  ctx_snapshot_builder : SnapBuild;
  ctx_output_plugin_options : list string;
  ctx_options : OutputPluginOptions
}.

(** Modelled from the spec: slot.h is not part of the source tree at hand;
    a physical slot is one that belongs to no database. *)
Definition SlotIsPhysical (slot : ReplicationSlot) : bool :=
  database (data slot) =? InvalidOid.

(** [ctx = palloc0(sizeof(LogicalDecodingContext))], logical.c line 139:
    the context is allocated zeroed, so the write state of the new context
    ([accept_writes], [prepared_write], [write_xid], [write_location]) starts
    out as false, false, 0 and 0.  The backend decodes through one context at
    a time; its write state is the one held in [Backend]. *)
Definition palloc0_LogicalDecodingContext : Exec unit :=
  st <- get ;;
  put (mkBackend false false InvalidTransactionId InvalidXLogRecPtr
         (error_context_stack st) (in_logical_decoding st) (server_log st)).

(** [StartupDecodingContext], logical.c lines 119-199. *)
Definition StartupDecodingContext (inst : Installation) (slot : ReplicationSlot)
    (output_plugin_options : list string) (start_lsn : XLogRecPtr)
    (xmin_horizon : TransactionId) : Exec LogicalDecodingContext :=
  palloc0_LogicalDecodingContext ;;
  (* (re-)load output plugins, so we detect a bad output plugin now *)
  callbacks <- LoadOutputPlugin inst no_callbacks (plugin (data slot)) ;;
  (if negb (IsTransactionOrTransactionBlock inst)
   then set_in_logical_decoding true
   else ret tt) ;;
  (if reader_allocated inst
   then ret tt
   else ereport_ERROR ERRCODE_OUT_OF_MEMORY "out of memory") ;;
  ret (mkContext slot callbacks
         (AllocateSnapshotBuilder xmin_horizon start_lsn)
         output_plugin_options 0).

(** [EnsureActiveLogicalSlotValid], logical.c lines 988-1015. *)
Definition EnsureActiveLogicalSlotValid (inst : Installation)
    (slot : ReplicationSlot) : Exec unit :=
  let shmem_catalog_xmin := oldestCatalogXmin inst in
  if negb (TransactionIdIsValid shmem_catalog_xmin)
     || TransactionIdFollows shmem_catalog_xmin (catalog_xmin (data slot))
  then ereport_ERROR ERRCODE_OBJECT_NOT_IN_PREREQUISITE_STATE
         "replication slot '%s' requires catalogs removed by master"
  else ret tt.

(** The character that encloses the slot name in two of the messages. *)
Definition double_quote : string := String "034"%char EmptyString.

(** [errmsg] of logical.c lines 247 and 369: the slot name is quoted. *)
Definition slot_not_created_in_this_database : string :=
  Eval cbv in
    ("replication slot " ++ double_quote ++ "%s" ++ double_quote
       ++ " was not created in this database")%string.

(** [errmsg] of logical.c line 408: the slot name is quoted. *)
Definition starting_logical_decoding_for_slot : string :=
  Eval cbv in
    ("starting logical decoding for slot " ++ double_quote ++ "%s"
       ++ double_quote)%string.

(** [CreateDecodingContext], logical.c lines 342-417; [my_slot] is the
    backend's [MyReplicationSlot], NULL when no slot is acquired. *)
Definition CreateDecodingContext (inst : Installation)
    (my_slot : option ReplicationSlot) (start_lsn : XLogRecPtr)
    (output_plugin_options : list string) : Exec LogicalDecodingContext :=
  match my_slot with
  | None =>
      elog_ERROR "cannot perform logical decoding without an acquired slot"
  | Some slot =>
      (* make sure the passed slot is suitable, these are user facing errors *)
      (if SlotIsPhysical slot
       then ereport_ERROR ERRCODE_OBJECT_NOT_IN_PREREQUISITE_STATE
              "cannot use physical replication slot for logical decoding"
       else ret tt) ;;
      (if negb (database (data slot) =? MyDatabaseId inst)
       then ereport_ERROR ERRCODE_OBJECT_NOT_IN_PREREQUISITE_STATE
              slot_not_created_in_this_database
       else ret tt) ;;
      start_lsn <-
        (if start_lsn =? InvalidXLogRecPtr
         then
           (* continue from last position *)
           ret (confirmed_flush (data slot))
         else if start_lsn <? confirmed_flush (data slot)
         then
           elog DEBUG1 "cannot stream from %X/%X, minimum is %X/%X, forwarding" ;;
           ret (confirmed_flush (data slot))
         else ret start_lsn) ;;
      EnsureActiveLogicalSlotValid inst slot ;;
      ctx <- StartupDecodingContext inst slot output_plugin_options start_lsn
               InvalidTransactionId ;;
      (* call output plugin initialization callback *)
      (if negb (is_null (startup_cb (ctx_callbacks ctx)))
       then startup_cb_wrapper (ctx_callbacks ctx) (ctx_options ctx) false
       else ret tt) ;;
      elog LOG starting_logical_decoding_for_slot ;;
      ret ctx
  end.

(** ** Properties of a dispatch *)

(** Whenever the wrapper returns, [error_context_stack] is what it was
    before the call: the frame pushed by the wrapper has been popped. *)
Definition pops_frame {A : Type} (wrapper : Exec A) : Prop :=
  forall st r st',
    runExec wrapper st = (Returned r, st') ->
    error_context_stack st' = error_context_stack st.

(** Whenever an error leaves the wrapper, the frame pushed by the wrapper
    is still on top of [error_context_stack]. *)
Definition leaves_frame {A : Type} (wrapper : Exec A)
    (frame : LogicalErrorCallbackState) : Prop :=
  forall st e st',
    runExec wrapper st = (Raised e, st') ->
    error_context_stack st' = frame :: error_context_stack st.

(** A callback that does not touch [error_context_stack] itself. *)
Definition keeps_stack {A : Type} (callback : Exec A) : Prop :=
  forall st, error_context_stack (snd (runExec callback st))
             = error_context_stack st.

(** A callback that returns normally whenever it is called. *)
Definition always_returns {A : Type} (callback : Exec A) : Prop :=
  forall st, exists r st', runExec callback st = (Returned r, st').

(** ** Sample plugins *)

(** A plugin whose begin callback reports an error. *)
Definition failing_plugin : OutputPluginCallbacks :=
  mkCallbacks None
    (Some (fun _ => ereport_ERROR (ERRCODE_PLUGIN 1) "begin failed"))
    (Some (fun _ _ _ => ret tt))
    (Some (fun _ _ => ret tt))
    None None None.

(** A plugin with the three mandatory callbacks and nothing else. *)
Definition minimal_plugin : OutputPluginCallbacks :=
  mkCallbacks None
    (Some (fun _ => ret tt))
    (Some (fun _ _ _ => ret tt))
    (Some (fun _ _ => ret tt))
    None None None.

Definition idle_backend : Backend :=
  mkBackend false false InvalidTransactionId InvalidXLogRecPtr [] false [].

Definition sample_installation : Installation :=
  mkInstallation 1 30 (fun _ => Some (fun _ => minimal_plugin)) true false.

Definition sample_txn : ReorderBufferTXN := mkTXN 700 1000 1200 1250.

(** The callbacks whose absence [LoadOutputPlugin] does not accept. *)
Definition mandatory_callbacks_present (callbacks : OutputPluginCallbacks) : bool :=
  negb (is_null (begin_cb callbacks))
  && negb (is_null (change_cb callbacks))
  && negb (is_null (commit_cb callbacks)).

(** No callback of the plugin touches [error_context_stack] itself. *)
Definition callbacks_keep_stack (callbacks : OutputPluginCallbacks) : Prop :=
  (forall f, startup_cb callbacks = Some f ->
             forall opt is_init, keeps_stack (f opt is_init))
  /\ (forall f, shutdown_cb callbacks = Some f -> keeps_stack f)
  /\ (forall f, begin_cb callbacks = Some f -> forall txn, keeps_stack (f txn))
  /\ (forall f, change_cb callbacks = Some f ->
                forall txn relation change, keeps_stack (f txn relation change))
  /\ (forall f, commit_cb callbacks = Some f ->
                forall txn commit_lsn, keeps_stack (f txn commit_lsn))
  /\ (forall f, message_cb callbacks = Some f ->
                forall txn message_lsn transactional prefix size msg,
                  keeps_stack (f txn message_lsn transactional prefix size msg))
  /\ (forall f, filter_by_origin_cb callbacks = Some f ->
                forall origin_id, keeps_stack (f origin_id)).

(** The start position [CreateDecodingContext] resolves a request to. *)
Definition resolved_start (start_lsn : XLogRecPtr) (slot : ReplicationSlot)
    : XLogRecPtr :=
  if start_lsn =? InvalidXLogRecPtr then confirmed_flush (data slot)
  else if start_lsn <? confirmed_flush (data slot)
  then confirmed_flush (data slot)
  else start_lsn.

(** What [CreateDecodingContext] asks of the slot and of the installation
    apart from the start position: a logical slot of the current database
    whose catalog rows are still there, a plugin that loads, a reader, and
    a startup callback (if any) that returns. *)
Definition decodable (inst : Installation) (slot : ReplicationSlot) : Prop :=
  SlotIsPhysical slot = false
  /\ database (data slot) = MyDatabaseId inst
  /\ TransactionIdIsValid (oldestCatalogXmin inst) = true
  /\ TransactionIdFollows (oldestCatalogXmin inst) (catalog_xmin (data slot))
     = false
  /\ reader_allocated inst = true
  /\ exists plugin_init,
       load_external_function inst (plugin (data slot)) = Some plugin_init
       /\ mandatory_callbacks_present (plugin_init no_callbacks) = true
       /\ (forall f, startup_cb (plugin_init no_callbacks) = Some f ->
                     forall opt is_init, always_returns (f opt is_init)).

(** * Further definitions

    The rest of logical.c and what is needed to state its properties. *)

(** ** Sequences of calls and what survives a crash *)

Fixpoint perform_all (cs : list Call) : Srv unit :=
  match cs with
  | [] => ret tt
  | c :: rest => perform c ;; perform_all rest
  end.

(** The slot after the locked section of [LogicalIncreaseXminForSlot],
    and whether the call goes on to acknowledge at once. *)
Definition xmin_recorded_slot (current_lsn : XLogRecPtr) (xmin : TransactionId)
    (s : ReplicationSlot) : ReplicationSlot :=
  if TransactionIdPrecedesOrEquals xmin (catalog_xmin (data s)) then s
  else if current_lsn <=? confirmed_flush (data s)
  then with_xmin_candidate current_lsn xmin s
  else if candidate_xmin_lsn s =? InvalidXLogRecPtr
  then with_xmin_candidate current_lsn xmin s
  else s.

Definition xmin_immediate (current_lsn : XLogRecPtr) (xmin : TransactionId)
    (s : ReplicationSlot) : bool :=
  negb (TransactionIdPrecedesOrEquals xmin (catalog_xmin (data s)))
  && (current_lsn <=? confirmed_flush (data s)).

(** The same for [LogicalIncreaseRestartDecodingForSlot]. *)
Definition restart_immediate (current_lsn restart_lsn' : XLogRecPtr)
    (s : ReplicationSlot) : bool :=
  negb (restart_lsn' <=? restart_lsn (data s))
  && (current_lsn <=? confirmed_flush (data s)).

Definition restart_recorded_slot (current_lsn restart_lsn' : XLogRecPtr)
    (s : ReplicationSlot) : ReplicationSlot :=
  let s1 :=
    if restart_immediate current_lsn restart_lsn' s
    then with_restart_candidate current_lsn restart_lsn' s
    else s in
  if candidate_restart_valid s1 =? InvalidXLogRecPtr
  then with_restart_candidate current_lsn restart_lsn' s1
  else s1.

Definition restart_recorded_events (current_lsn restart_lsn' : XLogRecPtr)
    (s : ReplicationSlot) : list Event :=
  let s1 :=
    if restart_immediate current_lsn restart_lsn' s
    then with_restart_candidate current_lsn restart_lsn' s
    else s in
  [EvSpinLockAcquire;
   EvElog (if candidate_restart_valid s1 =? InvalidXLogRecPtr
           then "got new restart lsn %X/%X at %X/%X"
           else "failed to increase restart lsn: proposed %X/%X, after %X/%X, current candidate %X/%X, current after %X/%X, flushed up to %X/%X");
   EvSpinLockRelease].

(** What the state file guarantees: the enforced catalog xmin, the
    catalog xmin and the restart position in memory are the durable
    ones. *)
Definition enforced_is_durable (w : Server) : Prop :=
  effective_catalog_xmin (MyReplicationSlot w) = catalog_xmin (on_disk w)
  /\ catalog_xmin (data (MyReplicationSlot w)) = catalog_xmin (on_disk w)
  /\ restart_lsn (data (MyReplicationSlot w)) = restart_lsn (on_disk w).

(** The locking discipline read off a history, starting with the spinlock
    held or not: the spinlock is not acquired while held nor released
    while free, the slot is saved only with the spinlock free, and
    [effective_catalog_xmin] is written only with the spinlock held.  The
    result is whether the spinlock is held at the end, [None] when the
    discipline is broken. *)
Fixpoint spinlock_discipline (held : bool) (h : list Event) : option bool :=
  match h with
  | [] => Some held
  | EvSpinLockAcquire :: rest =>
      if held then None else spinlock_discipline true rest
  | EvSpinLockRelease :: rest =>
      if held then spinlock_discipline false rest else None
  | EvSave _ flag :: rest =>
      if held || flag then None else spinlock_discipline held rest
  | EvEffectiveCatalogXmin _ flag :: rest =>
      if held && flag then spinlock_discipline held rest else None
  | _ :: rest => spinlock_discipline held rest
  end.

(** A pending restart candidate lies above the slot's [restart_lsn]. *)
Definition restart_candidate_ahead (s : ReplicationSlot) : Prop :=
  candidate_restart_valid s <> InvalidXLogRecPtr ->
  restart_lsn (data s) < candidate_restart_lsn s.

(** No restart proposal of the sequence is at or below the slot's
    [restart_lsn] at a moment when no restart candidate is pending. *)
Fixpoint no_stale_restart_proposal (cs : list Call) (w : Server) : Prop :=
  match cs with
  | [] => True
  | c :: rest =>
      match c with
      | IncreaseRestart _ restart_lsn' =>
          restart_lsn (data (MyReplicationSlot w)) < restart_lsn'
          \/ candidate_restart_valid (MyReplicationSlot w) <> InvalidXLogRecPtr
      | _ => True
      end
      /\ no_stale_restart_proposal rest (execState (perform c) w)
  end.

(** ** Writing from a callback *)

Definition set_prepared_write (b : bool) : Exec unit :=
  st <- get ;;
  put (mkBackend (accept_writes st) b (write_xid st) (write_location st)
         (error_context_stack st) (in_logical_decoding st) (server_log st)).

(** [LogicalOutputPluginWriterPrepareWrite] and
    [LogicalOutputPluginWriterWrite]: the consumer's routines behind
    [ctx->prepare_write] and [ctx->write], called with the write location,
    the xid and [last_write]. *)
Definition LogicalOutputPluginWriter : Type :=
  XLogRecPtr -> TransactionId -> bool -> Exec unit.

(** [OutputPluginPrepareWrite], logical.c lines 489-497. *)
Definition OutputPluginPrepareWrite (prepare_write : LogicalOutputPluginWriter)
    (last_write : bool) : Exec unit :=
  accepting <- gets accept_writes ;;
  (if negb accepting
   then elog_ERROR "writes are only accepted in commit, begin and change callbacks"
   else ret tt) ;;
  location <- gets write_location ;;
  x <- gets write_xid ;;
  prepare_write location x last_write ;;
  set_prepared_write true.

(** [OutputPluginWrite], logical.c lines 502-510. *)
Definition OutputPluginWrite (write : LogicalOutputPluginWriter)
    (last_write : bool) : Exec unit :=
  prepared <- gets prepared_write ;;
  (if negb prepared
   then elog_ERROR "OutputPluginPrepareWrite needs to be called before OutputPluginWrite"
   else ret tt) ;;
  location <- gets write_location ;;
  x <- gets write_xid ;;
  write location x last_write ;;
  set_prepared_write false.

(** A writer that returns whenever it is called. *)
Definition writer_returns (writer : LogicalOutputPluginWriter) : Prop :=
  forall location x last_write, always_returns (writer location x last_write).

(** A callback that does not change [accept_writes] itself. *)
Definition keeps_accept_writes {A : Type} (callback : Exec A) : Prop :=
  forall st, accept_writes (snd (runExec callback st)) = accept_writes st.

(** The backend state in which a wrapper invokes the plugin's callback:
    the frame is pushed and the output state is set.  [None] stands for
    the wrappers that set neither [write_xid] nor [write_location]. *)
Definition at_callback (frame : LogicalErrorCallbackState)
    (window : option (TransactionId * XLogRecPtr)) (st : Backend) : Backend :=
  match window with
  | Some (x, location) =>
      mkBackend true (prepared_write st) x location
        (frame :: error_context_stack st) (in_logical_decoding st)
        (server_log st)
  | None =>
      mkBackend false (prepared_write st) (write_xid st) (write_location st)
        (frame :: error_context_stack st) (in_logical_decoding st)
        (server_log st)
  end.

(** The backend state a wrapper returns in when the callback has left
    [st2]: [error_context_stack = errcallback.previous] puts back the stack
    the wrapper found in [st]; everything else is as the callback left
    it. *)
Definition popped (st st2 : Backend) : Backend :=
  mkBackend (accept_writes st2) (prepared_write st2) (write_xid st2)
    (write_location st2) (error_context_stack st) (in_logical_decoding st2)
    (server_log st2).

(** [wrapper] dispatches [callback] under [frame]: the callback runs in the
    state [at_callback frame window st].  If the callback returns, the
    wrapper returns its result with the frame popped; if the callback
    raises an error, the error leaves the wrapper in the very state the
    callback left, nothing popped. *)
Definition dispatches {A : Type} (wrapper callback : Exec A)
    (frame : LogicalErrorCallbackState)
    (window : option (TransactionId * XLogRecPtr)) : Prop :=
  forall st,
    (forall r st2,
        runExec callback (at_callback frame window st) = (Returned r, st2) ->
        runExec wrapper st = (Returned r, popped st st2))
    /\ (forall e st2,
           runExec callback (at_callback frame window st) = (Raised e, st2) ->
           runExec wrapper st = (Raised e, st2)).

(** A writer that does nothing. *)
Definition null_writer : LogicalOutputPluginWriter := fun _ _ _ => ret tt.

(** No callback of the plugin changes [accept_writes] itself. *)
Definition callbacks_keep_accept_writes (callbacks : OutputPluginCallbacks)
    : Prop :=
  (forall f, startup_cb callbacks = Some f ->
             forall opt is_init, keeps_accept_writes (f opt is_init))
  /\ (forall f, shutdown_cb callbacks = Some f -> keeps_accept_writes f)
  /\ (forall f, begin_cb callbacks = Some f ->
                forall txn, keeps_accept_writes (f txn))
  /\ (forall f, change_cb callbacks = Some f ->
                forall txn relation change,
                  keeps_accept_writes (f txn relation change))
  /\ (forall f, commit_cb callbacks = Some f ->
                forall txn commit_lsn, keeps_accept_writes (f txn commit_lsn))
  /\ (forall f, message_cb callbacks = Some f ->
                forall txn message_lsn transactional prefix size msg,
                  keeps_accept_writes
                    (f txn message_lsn transactional prefix size msg))
  /\ (forall f, filter_by_origin_cb callbacks = Some f ->
                forall origin_id, keeps_accept_writes (f origin_id)).

(** After a dispatch that returned, [accept_writes] is [flag]. *)
Definition leaves_accept_writes {A : Type} (wrapper : Exec A) (flag : bool)
    : Prop :=
  forall st r st',
    runExec wrapper st = (Returned r, st') -> accept_writes st' = flag.

(** The xid a message is written under. *)
Definition message_xid (txn : option ReorderBufferTXN) : TransactionId :=
  match txn with
  | Some t => xid t
  | None => InvalidTransactionId
  end.

(** A plugin that writes from each of its callbacks. *)
Definition writing_plugin (prepare_write write : LogicalOutputPluginWriter)
    : OutputPluginCallbacks :=
  let emit := OutputPluginPrepareWrite prepare_write true ;;
              OutputPluginWrite write true in
  mkCallbacks (Some (fun _ _ => emit))
    (Some (fun _ => emit))
    (Some (fun _ _ _ => emit))
    (Some (fun _ _ => emit))
    (Some (fun _ _ _ _ _ _ => emit))
    (Some (fun _ => emit ;; ret true))
    (Some emit).

(** The result of a dispatch whose callback was refused a write. *)
Definition write_refused {A : Type} (frame : LogicalErrorCallbackState)
    (st : Backend) : Outcome A * Backend :=
  (Raised (mkError ERRCODE_INTERNAL_ERROR
             "writes are only accepted in commit, begin and change callbacks"
             (frame :: error_context_stack st)),
   at_callback frame None st).

(** ** Recovery conflicts *)

(** The guard of the wait loop of
    [ResolveRecoveryConflictWithLogicalDecoding], logical.c lines
    1059-1062, for a slot with the given [in_use] flag and [active_pid]:
    the session that owns the slot still needs catalog rows that the
    threshold [new_catalog_xmin] allows to remove. *)
Definition recovery_conflict (in_use : bool) (active_pid : Z)
    (slot : ReplicationSlot) (new_catalog_xmin : TransactionId) : bool :=
  in_use && negb (active_pid =? 0)
  && TransactionIdIsValid (effective_catalog_xmin slot)
  && (negb (TransactionIdIsValid new_catalog_xmin)
      || TransactionIdPrecedes (effective_catalog_xmin slot) new_catalog_xmin).

(** A slot whose catalog rows the installation has already removed
    rows for: its [catalog_xmin] is 200, the installation's threshold 210. *)
Definition exhausted_slot : ReplicationSlot :=
  mkSlot (mkData 1 "test_decoding" 200 90 100) 200 0 0 0 0.

Definition advanced_installation : Installation :=
  mkInstallation 1 210 (fun _ => Some (fun _ => minimal_plugin)) true false.

(** ** A backend at work on the shared slot

    [CreateInitDecodingContext] and [DecodingContextFindStartpoint] change
    the shared slot and can raise errors: [Run] threads the shared state,
    the backend state and the calls made to the rest of the server. *)

Inductive ExternalCall : Type :=
| CallReplicationSlotReserveWal
| CallUpdateOldestCatalogXmin
| CallXLogReadRecord (startptr : XLogRecPtr)
| CallLogicalDecodingProcessRecord (EndRecPtr : XLogRecPtr)
| CallReorderBufferFree
| CallFreeSnapshotBuilder
| CallXLogReaderFree
| CallMemoryContextDelete.

Record Process : Type := mkProcess {
  shared : Server;
  backend : Backend;
  external_calls : list ExternalCall
}.

(** The errors of [ErrorData], and the two reports of these functions
    whose SQLSTATE [ErrCode] does not list. *)
Inductive Report : Type :=
| Reported (e : ErrorData)
| ReportedActiveSqlTransaction (text : string)   (* ERRCODE_ACTIVE_SQL_TRANSACTION *)
| ReportedInterrupt.                             (* raised by CHECK_FOR_INTERRUPTS *)

Inductive Result (A : Type) : Type :=
| Done (a : A)
| Failed (r : Report)
| Crashed.
Arguments Done {A} a.
Arguments Failed {A} r.
Arguments Crashed {A}.

Record Run (A : Type) : Type := mkRun {
  runRun : Process -> Result A * Process
}.
Arguments mkRun {A} _.
Arguments runRun {A} _ _.

#[global] Instance Monad_Run : Monad Run := {
  ret := fun _ a => mkRun (fun p => (Done a, p));
  bind := fun _ _ c k =>
    mkRun (fun p =>
      match runRun c p with
      | (Done a, p') => runRun (k a) p'
      | (Failed r, p') => (Failed r, p')
      | (Crashed, p') => (Crashed, p')
      end)
}.

Definition on_shared {A : Type} (c : Srv A) : Run A :=
  mkRun (fun p =>
    let (a, w) := runState c (shared p) in
    (Done a, mkProcess w (backend p) (external_calls p))).

Definition on_backend {A : Type} (c : Exec A) : Run A :=
  mkRun (fun p =>
    match runExec c (backend p) with
    | (Returned a, st) => (Done a, mkProcess (shared p) st (external_calls p))
    | (Raised e, st) =>
        (Failed (Reported e), mkProcess (shared p) st (external_calls p))
    | (Segfault, st) => (Crashed, mkProcess (shared p) st (external_calls p))
    end).

Definition external (c : ExternalCall) : Run unit :=
  mkRun (fun p =>
    (Done tt, mkProcess (shared p) (backend p) (external_calls p ++ [c]))).

Definition fail {A : Type} (r : Report) : Run A :=
  mkRun (fun p => (Failed r, p)).

(** What [CreateInitDecodingContext] reads from the rest of the server. *)
Record InitEnvironment : Type := mkInitEnvironment {
  IsTransactionState : bool;
  GetTopTransactionIdIfAny : TransactionId;
  (* what ReplicationSlotReserveWal() does to the slot *)
  reserved : ReplicationSlot -> ReplicationSlot;
  GetOldestSafeDecodingTransactionId : TransactionId;
  RecoveryInProgress : bool
}.

(** Modelled from the spec: pg_config_manual.h is not part of the source
    tree at hand; names are stored in [NAMEDATALEN] bytes, the terminating
    zero included. *)
Definition NAMEDATALEN : nat := 64.

(** [StrNCpy(dst, src, len)]: at most [len - 1] characters are copied. *)
Definition StrNCpy (src : string) (len : nat) : string :=
  substring 0 (len - 1) src.

Definition set_data_plugin (v : string) (s : ReplicationSlot) :=
  let d := data s in
  mkSlot (mkData (database d) v (catalog_xmin d) (restart_lsn d)
            (confirmed_flush d))
         (effective_catalog_xmin s) (candidate_catalog_xmin s)
         (candidate_xmin_lsn s) (candidate_restart_valid s)
         (candidate_restart_lsn s).

(** [CreateInitDecodingContext], logical.c lines 216-316.  [acquired]
    tells whether [MyReplicationSlot] is set, [plugin_name] is NULL or the
    name of the output plugin. *)
Definition CreateInitDecodingContext (inst : Installation)
    (env : InitEnvironment) (acquired : bool) (plugin_name : option string)
    : Run LogicalDecodingContext :=
  (* first some sanity checks that are unlikely to be violated *)
  if negb acquired
  then on_backend
         (elog_ERROR "cannot perform logical decoding without an acquired slot")
  else
  match plugin_name with
  | None =>
      on_backend
        (elog_ERROR "cannot initialize logical decoding without a specified plugin")
  | Some plugin_name =>
      slot <- on_shared (slot_read (fun s => s)) ;;
      (* Make sure the passed slot is suitable. These are user facing errors. *)
      (if SlotIsPhysical slot
       then on_backend
              (ereport_ERROR ERRCODE_OBJECT_NOT_IN_PREREQUISITE_STATE
                 "cannot use physical replication slot for logical decoding")
       else ret tt) ;;
      (if negb (database (data slot) =? MyDatabaseId inst)
       then on_backend
              (ereport_ERROR ERRCODE_OBJECT_NOT_IN_PREREQUISITE_STATE
                 slot_not_created_in_this_database)
       else ret tt) ;;
      (if IsTransactionState env
          && negb (GetTopTransactionIdIfAny env =? InvalidTransactionId)
       then fail (ReportedActiveSqlTransaction
                    "cannot create logical replication slot in transaction that has performed writes")
       else ret tt) ;;
      (* register output plugin name with slot *)
      on_shared (SpinLockAcquire ;;
                 slot_write (set_data_plugin (StrNCpy plugin_name NAMEDATALEN)) ;;
                 SpinLockRelease) ;;
      external CallReplicationSlotReserveWal ;;
      on_shared (slot_write (reserved env)) ;;
      (* publish the safe xmin horizon to the slot machinery *)
      on_shared
        (slot_write (publish_initial_catalog_xmin
                       (GetOldestSafeDecodingTransactionId env)) ;;
         ReplicationSlotsComputeRequiredXmin true) ;;
      (* force a persistent record of the oldest safe xid *)
      (if negb (RecoveryInProgress env)
          && negb (TransactionIdIsValid (oldestCatalogXmin inst))
       then external CallUpdateOldestCatalogXmin
       else ret tt) ;;
      xmin_horizon <- on_shared (slot_read (fun s => catalog_xmin (data s))) ;;
      on_shared (ReplicationSlotMarkDirty ;; ReplicationSlotSave) ;;
      slot <- on_shared (slot_read (fun s => s)) ;;
      ctx <- on_backend
               (StartupDecodingContext inst slot [] InvalidXLogRecPtr
                  xmin_horizon) ;;
      (* call output plugin initialization callback *)
      (if negb (is_null (startup_cb (ctx_callbacks ctx)))
       then on_backend
              (startup_cb_wrapper (ctx_callbacks ctx) (ctx_options ctx) true)
       else ret tt) ;;
      ret ctx
  end.


Definition idle_process (w : Server) : Process := mkProcess w idle_backend [].

Definition sample_environment : InitEnvironment :=
  mkInitEnvironment false InvalidTransactionId (set_data_restart_lsn 500) 45
    false.

(** ** Finding the start point *)

(** A record as [DecodingContextFindStartpoint] meets it: where the reader
    stands after it, what [LogicalDecodingProcessRecord] does to the
    shared slot, whether [DecodingContextReady] holds afterwards, and
    whether [CHECK_FOR_INTERRUPTS] raises after it. *)
Record WalRecord : Type := mkWalRecord {
  EndRecPtr : XLogRecPtr;
  processing : Srv unit;
  consistent_after : bool;
  interrupt_pending : bool
}.

(** The answer of one [XLogReadRecord]: the error message and the
    record, either of which may be NULL. *)
Record ReadResult : Type := mkRead {
  read_err : option string;
  read_record : option WalRecord
}.

Definition read_ok (r : WalRecord) : ReadResult := mkRead None (Some r).

Inductive Progress : Type :=
| ReachedConsistency
| WaitingForWAL.              (* the read_page callback waits for new WAL *)

(** The loop of [DecodingContextFindStartpoint], logical.c lines 444-465,
    over the answers the reader gives; it yields the reader's [EndRecPtr]
    once the snapshot builder is consistent. *)
Fixpoint find_startpoint_loop (reads : list ReadResult) (startptr : XLogRecPtr)
    : Run (option XLogRecPtr) :=
  match reads with
  | [] => ret None
  | r :: rest =>
      external (CallXLogReadRecord startptr) ;;
      match read_err r with
      | Some err => on_backend (elog_ERROR err)
      | None =>
          match read_record r with
          | None => on_backend (elog_ERROR "no record found")
          | Some record =>
              external (CallLogicalDecodingProcessRecord (EndRecPtr record)) ;;
              on_shared (processing record) ;;
              (* only continue till we found a consistent spot *)
              if consistent_after record
              then ret (Some (EndRecPtr record))
              else
                (if interrupt_pending record
                 then fail ReportedInterrupt
                 else ret tt) ;;
                find_startpoint_loop rest InvalidXLogRecPtr
          end
      end
  end.

(** [DecodingContextFindStartpoint], logical.c lines 431-468. *)
Definition DecodingContextFindStartpoint (reads : list ReadResult)
    : Run Progress :=
  (* Initialize from where to start reading WAL. *)
  startptr <- on_shared (slot_read (fun s => restart_lsn (data s))) ;;
  on_backend
    (elog DEBUG1
       "searching for logical decoding starting point, starting at %X/%X") ;;
  found <- find_startpoint_loop reads startptr ;;
  match found with
  | Some end_rec_ptr =>
      on_shared (slot_write (set_data_confirmed_flush end_rec_ptr)) ;;
      ret ReachedConsistency
  | None => ret WaitingForWAL
  end.

(** The calls made to read and process [records], the first read being
    asked at [startptr]. *)
Fixpoint reading (startptr : XLogRecPtr) (records : list WalRecord)
    : list ExternalCall :=
  match records with
  | [] => []
  | r :: rest =>
      CallXLogReadRecord startptr
      :: CallLogicalDecodingProcessRecord (EndRecPtr r)
      :: reading InvalidXLogRecPtr rest
  end.

(** What processing [records] in order does to the shared state. *)
Fixpoint processed (records : list WalRecord) : Srv unit :=
  match records with
  | [] => ret tt
  | r :: rest => processing r ;; processed rest
  end.

(** A record that neither completes the snapshot nor meets an
    interrupt. *)
Definition passes (r : WalRecord) : Prop :=
  consistent_after r = false /\ interrupt_pending r = false.

Definition searching (st : Backend) : Backend :=
  mkBackend (accept_writes st) (prepared_write st) (write_xid st)
    (write_location st) (error_context_stack st) (in_logical_decoding st)
    (server_log st
     ++ [(DEBUG1,
          "searching for logical decoding starting point, starting at %X/%X"%string)]).

(** The position the next read is asked at, after [records] were read. *)
Definition next_startptr (startptr : XLogRecPtr) (records : list WalRecord)
    : XLogRecPtr :=
  match records with
  | [] => startptr
  | _ :: _ => InvalidXLogRecPtr
  end.

Definition quiet_record (end_rec_ptr : XLogRecPtr) (consistent : bool)
    : WalRecord :=
  mkWalRecord end_rec_ptr (ret tt) consistent false.

(** ** Freeing a decoding context *)

(** [FreeDecodingContext], logical.c lines 474-484. *)
Definition FreeDecodingContext (ctx : LogicalDecodingContext) : Run unit :=
  (if negb (is_null (shutdown_cb (ctx_callbacks ctx)))
   then on_backend (shutdown_cb_wrapper (ctx_callbacks ctx))
   else ret tt) ;;
  external CallReorderBufferFree ;;
  external CallFreeSnapshotBuilder ;;
  external CallXLogReaderFree ;;
  external CallMemoryContextDelete.

Definition released : list ExternalCall :=
  [CallReorderBufferFree; CallFreeSnapshotBuilder; CallXLogReaderFree;
   CallMemoryContextDelete].

Definition context_of (callbacks : OutputPluginCallbacks)
    : LogicalDecodingContext :=
  mkContext (MyReplicationSlot server_idle) callbacks
    (AllocateSnapshotBuilder InvalidTransactionId InvalidXLogRecPtr) [] 0.

(** Whether [LoadOutputPlugin] accepts the plugin [name]. *)
Definition plugin_loads (inst : Installation) (name : string) : bool :=
  match load_external_function inst name with
  | None => false
  | Some plugin_init => mandatory_callbacks_present (plugin_init no_callbacks)
  end.

(** * Properties

    First the effect of each call on the slot, derived from the code;
    then the properties of the protocol, of the callback wrappers and of
    the start position. *)

#[local] Arguments xlog_valid : simpl never.
#[local] Arguments TransactionIdIsValid : simpl never.
#[local] Arguments TransactionIdPrecedesOrEquals : simpl never.

Ltac run_srv :=
  unfold slot_after, events_of, execState,
    SpinLockAcquire, SpinLockRelease, ReplicationSlotMarkDirty,
    ReplicationSlotSave, ReplicationSlotsComputeRequiredXmin,
    ReplicationSlotsComputeRequiredLSN, elog_DEBUG1, emit, slot_read,
    slot_write, gets;
  cbn.

Lemma LogicalConfirmReceivedLocation_slot (lsn : XLogRecPtr) (w : Server) :
  slot_after (LogicalConfirmReceivedLocation lsn) w
  = confirmed_slot lsn (MyReplicationSlot w).
Proof.
  destruct w as [[[db pl cx rl cf] ecx ccx cxl crv crl] mx dt dk h].
  unfold LogicalConfirmReceivedLocation, confirmed_slot, xmin_adopted,
    restart_adopted.
  destruct (xlog_valid cxl) eqn:E1, (xlog_valid crv) eqn:E2,
    (cxl <=? lsn) eqn:E3, (crv <=? lsn) eqn:E4,
    (TransactionIdIsValid ccx) eqn:E5, (cx =? ccx) eqn:E6;
    run_srv; repeat (rewrite ?E1, ?E2, ?E3, ?E4, ?E5, ?E6; cbn);
    reflexivity.
Qed.

#[local] Arguments LogicalConfirmReceivedLocation : simpl never.

Lemma LogicalIncreaseXminForSlot_slot (current_lsn : XLogRecPtr)
    (xmin : TransactionId) (w : Server) :
  slot_after (LogicalIncreaseXminForSlot current_lsn xmin) w
  = xmin_proposed_slot current_lsn xmin (MyReplicationSlot w).
Proof.
  destruct w as [[[db pl cx rl cf] ecx ccx cxl crv crl] mx dt dk h].
  unfold LogicalIncreaseXminForSlot, xmin_proposed_slot.
  destruct (TransactionIdPrecedesOrEquals xmin cx) eqn:E1,
    (current_lsn <=? cf) eqn:E2, (cxl =? InvalidXLogRecPtr) eqn:E3;
    run_srv; repeat (rewrite ?E1, ?E2, ?E3; cbn); try reflexivity.
  all: match goal with
       | |- MyReplicationSlot (snd (runState ?c ?w)) = _ =>
           change (slot_after c w = confirmed_slot cf
                     (with_xmin_candidate current_lsn xmin
                        (mkSlot (mkData db pl cx rl cf) ecx ccx cxl crv crl)))
       end;
       rewrite LogicalConfirmReceivedLocation_slot; reflexivity.
Qed.

Lemma LogicalIncreaseRestartDecodingForSlot_slot (current_lsn : XLogRecPtr)
    (restart_lsn' : XLogRecPtr) (w : Server) :
  slot_after (LogicalIncreaseRestartDecodingForSlot current_lsn restart_lsn') w
  = restart_proposed_slot current_lsn restart_lsn' (MyReplicationSlot w).
Proof.
  destruct w as [[[db pl cx rl cf] ecx ccx cxl crv crl] mx dt dk h].
  unfold LogicalIncreaseRestartDecodingForSlot, restart_proposed_slot.
  destruct (restart_lsn' <=? rl) eqn:E1, (current_lsn <=? cf) eqn:E2,
    (crv =? InvalidXLogRecPtr) eqn:E3,
    (current_lsn =? InvalidXLogRecPtr) eqn:E4;
    run_srv; repeat (rewrite ?E1, ?E2, ?E3, ?E4; cbn); try reflexivity.
  all: match goal with
       | |- MyReplicationSlot (snd (runState ?c ?w)) = confirmed_slot _ ?s =>
           change (slot_after c w = confirmed_slot cf s)
       end;
       rewrite LogicalConfirmReceivedLocation_slot; reflexivity.
Qed.

Lemma skipn_app_exact {A : Type} (h t : list A) :
  skipn (List.length h) (h ++ t) = t.
Proof. induction h; simpl; auto. Qed.

(** The whole effect of an acknowledgement on the shared state. *)
Lemma LogicalConfirmReceivedLocation_server (lsn : XLogRecPtr) (w : Server) :
  let s := MyReplicationSlot w in
  let saved := xmin_adopted lsn s || restart_adopted lsn s in
  execState (LogicalConfirmReceivedLocation lsn) w
  = mkServer (confirmed_slot lsn s) false
      (if saved then false else dirty w)
      (if saved then data (confirmed_slot lsn s) else on_disk w)
      (history w ++ confirm_events lsn s).
Proof.
  destruct w as [[[db pl cx rl cf] ecx ccx cxl crv crl] mx dt dk h].
  unfold LogicalConfirmReceivedLocation, confirm_events, confirmed_slot,
    xmin_adopted, restart_adopted.
  destruct (xlog_valid cxl) eqn:E1, (xlog_valid crv) eqn:E2,
    (cxl <=? lsn) eqn:E3, (crv <=? lsn) eqn:E4,
    (TransactionIdIsValid ccx) eqn:E5, (cx =? ccx) eqn:E6;
    run_srv; repeat (rewrite ?E1, ?E2, ?E3, ?E4, ?E5, ?E6; cbn);
    rewrite <- ?app_assoc; reflexivity.
Qed.

Lemma LogicalConfirmReceivedLocation_events (lsn : XLogRecPtr) (w : Server) :
  events_of (LogicalConfirmReceivedLocation lsn) w
  = confirm_events lsn (MyReplicationSlot w).
Proof.
  unfold events_of. rewrite LogicalConfirmReceivedLocation_server. cbn.
  apply skipn_app_exact.
Qed.

(** ** Transaction id order *)

Lemma TransactionIdPrecedesOrEquals_refl (a : TransactionId) :
  TransactionIdPrecedesOrEquals a a = true.
Proof.
  unfold TransactionIdPrecedesOrEquals, int32_diff.
  destruct (negb (TransactionIdIsNormal a) || negb (TransactionIdIsNormal a)).
  - apply Z.leb_refl.
  - replace (a - a + 2 ^ 31) with (2 ^ 31) by lia. reflexivity.
Qed.

Lemma int32_diff_antisym (a b : TransactionId) :
  0 < int32_diff a b -> int32_diff b a < 0.
Proof.
  unfold int32_diff. intros H.
  assert (P : 0 < 2 ^ 32) by reflexivity.
  assert (P2 : 2 ^ 32 = 2 * 2 ^ 31) by reflexivity.
  pose proof (Z.div_mod (a - b + 2 ^ 31) (2 ^ 32) ltac:(lia)) as D.
  pose proof (Z.mod_pos_bound (a - b + 2 ^ 31) (2 ^ 32) P) as B.
  set (q := (a - b + 2 ^ 31) / 2 ^ 32) in *.
  set (r := (a - b + 2 ^ 31) mod 2 ^ 32) in *.
  assert (M : (b - a + 2 ^ 31) mod 2 ^ 32 = 2 ^ 32 - r).
  { symmetry. apply (Z.mod_unique _ _ (- q)); lia. }
  rewrite M. lia.
Qed.

(** Of two ids, one precedes or equals the other. *)
Lemma TransactionIdPrecedesOrEquals_total (a b : TransactionId) :
  TransactionIdPrecedesOrEquals a b = false ->
  TransactionIdPrecedesOrEquals b a = true.
Proof.
  unfold TransactionIdPrecedesOrEquals.
  rewrite (orb_comm (negb (TransactionIdIsNormal b))).
  destruct (negb (TransactionIdIsNormal a) || negb (TransactionIdIsNormal b)).
  - rewrite Z.leb_gt, Z.leb_le. lia.
  - rewrite Z.leb_gt, Z.leb_le. intros H.
    apply int32_diff_antisym in H. lia.
Qed.

(** ** Acknowledgements *)

Lemma confirm_each_cons (lsn : XLogRecPtr) (rest : list XLogRecPtr) (w : Server) :
  execState (confirm_each (lsn :: rest)) w
  = execState (confirm_each rest)
      (execState (LogicalConfirmReceivedLocation lsn) w).
Proof.
  unfold execState. cbn.
  destruct (runState (LogicalConfirmReceivedLocation lsn) w). reflexivity.
Qed.

Lemma xmin_adopted_trigger (lsn : XLogRecPtr) (s : ReplicationSlot) :
  xmin_adopted lsn s = true ->
  candidate_xmin_lsn s <> InvalidXLogRecPtr /\ candidate_xmin_lsn s <= lsn.
Proof.
  unfold xmin_adopted, xlog_valid. intros H.
  apply andb_prop in H as [H _]. apply andb_prop in H as [V L].
  apply negb_true_iff, Z.eqb_neq in V. apply Z.leb_le in L. auto.
Qed.

Lemma restart_adopted_trigger (lsn : XLogRecPtr) (s : ReplicationSlot) :
  restart_adopted lsn s = true ->
  candidate_restart_valid s <> InvalidXLogRecPtr
  /\ candidate_restart_valid s <= lsn.
Proof.
  unfold restart_adopted, xlog_valid. intros H.
  apply andb_prop in H as [V L].
  apply negb_true_iff, Z.eqb_neq in V. apply Z.leb_le in L. auto.
Qed.

Lemma xmin_not_adopted_below (lsn : XLogRecPtr) (s : ReplicationSlot) :
  lsn < candidate_xmin_lsn s -> xmin_adopted lsn s = false.
Proof.
  intros H. destruct (xmin_adopted lsn s) eqn:E; [|reflexivity].
  apply xmin_adopted_trigger in E. lia.
Qed.

Lemma restart_not_adopted_below (lsn : XLogRecPtr) (s : ReplicationSlot) :
  lsn < candidate_restart_valid s -> restart_adopted lsn s = false.
Proof.
  intros H. destruct (restart_adopted lsn s) eqn:E; [|reflexivity].
  apply restart_adopted_trigger in E. lia.
Qed.

(** One acknowledgement adopts a candidate only at or past its trigger
    position: a changed enforced value is the candidate's, and the
    position confirmed by the call has reached the trigger. *)
Lemma adoption_needs_trigger (lsn : XLogRecPtr) (w : Server) :
  let s := MyReplicationSlot w in
  let s' := slot_after (LogicalConfirmReceivedLocation lsn) w in
  ((catalog_xmin (data s') <> catalog_xmin (data s)
    \/ effective_catalog_xmin s' <> effective_catalog_xmin s) ->
   candidate_xmin_lsn s <> InvalidXLogRecPtr
   /\ candidate_xmin_lsn s <= confirmed_flush (data s')
   /\ catalog_xmin (data s') = candidate_catalog_xmin s
   /\ effective_catalog_xmin s' = candidate_catalog_xmin s)
  /\ (restart_lsn (data s') <> restart_lsn (data s) ->
      candidate_restart_valid s <> InvalidXLogRecPtr
      /\ candidate_restart_valid s <= confirmed_flush (data s')
      /\ restart_lsn (data s') = candidate_restart_lsn s).
Proof.
  cbn. rewrite LogicalConfirmReceivedLocation_slot. cbn. split.
  - destruct (xmin_adopted lsn (MyReplicationSlot w)) eqn:E.
    + intros _. apply xmin_adopted_trigger in E. tauto.
    + intros [H | H]; congruence.
  - destruct (restart_adopted lsn (MyReplicationSlot w)) eqn:E.
    + intros _. apply restart_adopted_trigger in E. tauto.
    + congruence.
Qed.

(** C1. No premature adoption: while every acknowledged position stays
    below the trigger position of the candidate a track holds, no sequence
    of [LogicalConfirmReceivedLocation] calls turns the candidate into the
    enforced value.  On the xmin track [catalog_xmin] and
    [effective_catalog_xmin] keep their values and the candidate stays
    pending; on the restart track [restart_lsn] keeps its value and the
    candidate stays pending. *)
Theorem no_premature_adoption (lsns : list XLogRecPtr) (w : Server) :
  let s := MyReplicationSlot w in
  let s' := slot_after (confirm_each lsns) w in
  (Forall (fun lsn => lsn < candidate_xmin_lsn s) lsns ->
   catalog_xmin (data s') = catalog_xmin (data s)
   /\ effective_catalog_xmin s' = effective_catalog_xmin s
   /\ candidate_catalog_xmin s' = candidate_catalog_xmin s
   /\ candidate_xmin_lsn s' = candidate_xmin_lsn s)
  /\ (Forall (fun lsn => lsn < candidate_restart_valid s) lsns ->
      restart_lsn (data s') = restart_lsn (data s)
      /\ candidate_restart_lsn s' = candidate_restart_lsn s
      /\ candidate_restart_valid s' = candidate_restart_valid s).
Proof.
  cbn. unfold slot_after. revert w.
  induction lsns as [|lsn rest IH]; intros w.
  - cbn. tauto.
  - rewrite confirm_each_cons.
    set (w1 := execState (LogicalConfirmReceivedLocation lsn) w).
    assert (S1 : MyReplicationSlot w1
                 = confirmed_slot lsn (MyReplicationSlot w))
      by apply LogicalConfirmReceivedLocation_slot.
    destruct (IH w1) as [IX IR]. rewrite S1 in IX, IR. split.
    + intros F. inversion F as [|? ? Hlt Frest]; subst.
      pose proof (xmin_not_adopted_below _ _ Hlt) as N.
      cbn in IX. rewrite N in IX. apply IX. exact Frest.
    + intros F. inversion F as [|? ? Hlt Frest]; subst.
      pose proof (restart_not_adopted_below _ _ Hlt) as N.
      cbn in IR. rewrite N in IR. apply IR. exact Frest.
Qed.

Lemma no_premature_adoption_witness :
  let s' := slot_after (confirm_each [120; 149]) server_pending in
  (catalog_xmin (data s') = 40 /\ effective_catalog_xmin s' = 40
   /\ candidate_catalog_xmin s' = 50 /\ candidate_xmin_lsn s' = 150)
  /\ (restart_lsn (data s') = 90 /\ candidate_restart_lsn s' = 95
      /\ candidate_restart_valid s' = 150).
Proof.
  split.
  - apply (proj1 (no_premature_adoption [120; 149] server_pending)).
    repeat constructor.
  - apply (proj2 (no_premature_adoption [120; 149] server_pending)).
    repeat constructor.
Defined.

Lemma confirmed_flush_is_acknowledged (lsn : XLogRecPtr) (w : Server) :
  confirmed_flush
    (data (slot_after (LogicalConfirmReceivedLocation lsn) w)) = lsn.
Proof. rewrite LogicalConfirmReceivedLocation_slot. reflexivity. Qed.

(** C6 (as the code has it).  [LogicalConfirmReceivedLocation] stores the
    acknowledged position in [confirmed_flush] whatever the position is:
    there is no clamping, an acknowledgement below the current
    [confirmed_flush] lowers it. *)
Theorem acknowledged_position_is_stored (lsn : XLogRecPtr) (w : Server) :
  confirmed_flush
    (data (slot_after (LogicalConfirmReceivedLocation lsn) w)) = lsn.
Proof. apply confirmed_flush_is_acknowledged. Qed.

(** C6, counterexample: with [confirmed_flush] at 100, acknowledging the
    stale position 60 moves [confirmed_flush] back to 60. *)
Lemma stale_acknowledgement_lowers_confirmed_flush :
  60 < confirmed_flush (data (MyReplicationSlot server_pending))
  /\ confirmed_flush
       (data (slot_after (LogicalConfirmReceivedLocation 60) server_pending))
     <> confirmed_flush (data (MyReplicationSlot server_pending)).
Proof. split; [reflexivity | discriminate]. Qed.

Lemma confirmed_slot_idempotent (lsn : XLogRecPtr) (s : ReplicationSlot) :
  confirmed_slot lsn (confirmed_slot lsn s) = confirmed_slot lsn s
  /\ xmin_adopted lsn (confirmed_slot lsn s) = false
  /\ restart_adopted lsn (confirmed_slot lsn s) = false.
Proof.
  destruct s as [[db pl cx rl cf] ecx ccx cxl crv crl].
  unfold confirmed_slot, xmin_adopted, restart_adopted. cbn.
  destruct (xlog_valid cxl) eqn:E1, (xlog_valid crv) eqn:E2,
    (cxl <=? lsn) eqn:E3, (crv <=? lsn) eqn:E4,
    (TransactionIdIsValid ccx) eqn:E5, (cx =? ccx) eqn:E6;
    cbn; rewrite ?E1, ?E2, ?E3, ?E4, ?E5, ?E6; cbn;
    rewrite ?E1, ?E2, ?E3, ?E4, ?E5, ?E6; cbn; auto.
Qed.

Lemma execState_seq {A B : Type} (c1 : Srv A) (c2 : Srv B) (w : Server) :
  execState (c1 ;; c2) w = execState c2 (execState c1 w).
Proof.
  unfold execState. cbn. destruct (runState c1 w). reflexivity.
Qed.

(** C7. Idempotence of acknowledgement: acknowledging the same position
    twice in succession leaves the slot (confirmed_flush, catalog_xmin,
    effective_catalog_xmin, restart_lsn and the candidate fields) and its
    state file exactly as acknowledging it once. *)
Theorem acknowledge_twice (p : XLogRecPtr) (w : Server) :
  let once := execState (LogicalConfirmReceivedLocation p) w in
  let twice := execState (LogicalConfirmReceivedLocation p ;;
                          LogicalConfirmReceivedLocation p) w in
  MyReplicationSlot twice = MyReplicationSlot once
  /\ on_disk twice = on_disk once.
Proof.
  intros once twice. subst once twice. rewrite execState_seq.
  rewrite (LogicalConfirmReceivedLocation_server p
             (execState (LogicalConfirmReceivedLocation p) w)).
  rewrite (LogicalConfirmReceivedLocation_server p w). cbn.
  destruct (confirmed_slot_idempotent p (MyReplicationSlot w)) as (I & X & R).
  rewrite I, X, R. cbn. auto.
Qed.

(** ** Proposals *)



(** C4, the call on which the code departs from the claim.  The slot
    retains WAL from position 100 and holds no candidate.  Proposing the
    older restart position 80 (to take effect at 200) is not a no-op: the
    test for a free candidate slot is a plain [if] that also runs after
    the "don't overwrite" branch, so the stale proposal is recorded as the
    candidate, and the acknowledgement of 200 then moves [restart_lsn]
    back from 100 to 80. *)
Theorem stale_restart_proposal_is_recorded :
  let s := MyReplicationSlot server_idle in
  let s' := slot_after (LogicalIncreaseRestartDecodingForSlot 200 80)
              server_idle in
  let s'' := slot_after (LogicalIncreaseRestartDecodingForSlot 200 80 ;;
                         LogicalConfirmReceivedLocation 200) server_idle in
  80 <= restart_lsn (data s)
  /\ s' <> s
  /\ candidate_restart_valid s' = 200
  /\ candidate_restart_lsn s' = 80
  /\ restart_lsn (data s'') = 80.
Proof. vm_compute. repeat split; try reflexivity; discriminate. Qed.

(** A proposal that advances the bound, is valid and whose position has
    been confirmed is adopted by the acknowledgement of that position. *)
Lemma xmin_adopted_candidate (lsn current_lsn : XLogRecPtr)
    (xmin : TransactionId) (s : ReplicationSlot) :
  TransactionIdPrecedesOrEquals xmin (catalog_xmin (data s)) = false ->
  TransactionIdIsValid xmin = true ->
  current_lsn <> InvalidXLogRecPtr ->
  current_lsn <= lsn ->
  xmin_adopted lsn (with_xmin_candidate current_lsn xmin s) = true.
Proof.
  intros P V N L. unfold xmin_adopted, xlog_valid. cbn.
  apply Z.eqb_neq in N. apply Z.leb_le in L. rewrite N, L, V. cbn.
  destruct (Z.eqb_spec (catalog_xmin (data s)) xmin) as [E|]; [|reflexivity].
  rewrite <- E, TransactionIdPrecedesOrEquals_refl in P. discriminate P.
Qed.

Lemma restart_adopted_candidate (lsn current_lsn restart_lsn' : XLogRecPtr)
    (s : ReplicationSlot) :
  current_lsn <> InvalidXLogRecPtr ->
  current_lsn <= lsn ->
  restart_adopted lsn (with_restart_candidate current_lsn restart_lsn' s) = true.
Proof.
  intros N L. unfold restart_adopted, xlog_valid. cbn.
  apply Z.eqb_neq in N. apply Z.leb_le in L. rewrite N, L. reflexivity.
Qed.





(** ** Monotonicity *)

Lemma slot_consistent_confirmed (lsn : XLogRecPtr) (s : ReplicationSlot) :
  slot_consistent s -> slot_consistent (confirmed_slot lsn s).
Proof.
  unfold slot_consistent, confirmed_slot. cbn. intros [E P].
  destruct (xmin_adopted lsn s).
  - split; [reflexivity | discriminate].
  - auto.
Qed.

Lemma slot_consistent_xmin_candidate (current_lsn : XLogRecPtr)
    (xmin : TransactionId) (s : ReplicationSlot) :
  slot_consistent s ->
  TransactionIdPrecedesOrEquals xmin (catalog_xmin (data s)) = false ->
  slot_consistent (with_xmin_candidate current_lsn xmin s).
Proof. unfold slot_consistent. cbn. intros [E _] H. auto. Qed.

Lemma slot_consistent_restart_candidate (current_lsn restart_lsn' : XLogRecPtr)
    (s : ReplicationSlot) :
  slot_consistent s ->
  slot_consistent (with_restart_candidate current_lsn restart_lsn' s).
Proof. unfold slot_consistent. cbn. auto. Qed.

Lemma slot_consistent_xmin_proposed (current_lsn : XLogRecPtr)
    (xmin : TransactionId) (s : ReplicationSlot) :
  slot_consistent s -> slot_consistent (xmin_proposed_slot current_lsn xmin s).
Proof.
  intros C. unfold xmin_proposed_slot.
  destruct (TransactionIdPrecedesOrEquals xmin (catalog_xmin (data s))) eqn:P;
    [assumption|].
  destruct (current_lsn <=? confirmed_flush (data s)).
  - apply slot_consistent_confirmed, slot_consistent_xmin_candidate; assumption.
  - destruct (candidate_xmin_lsn s =? InvalidXLogRecPtr); [|assumption].
    apply slot_consistent_xmin_candidate; assumption.
Qed.

Lemma slot_consistent_restart_proposed (current_lsn restart_lsn' : XLogRecPtr)
    (s : ReplicationSlot) :
  slot_consistent s ->
  slot_consistent (restart_proposed_slot current_lsn restart_lsn' s).
Proof.
  intros C. unfold restart_proposed_slot. cbv zeta.
  destruct (negb (restart_lsn' <=? restart_lsn (data s))
            && (current_lsn <=? confirmed_flush (data s)));
    repeat match goal with
           | |- context [if ?b then _ else _] => destruct b
           end;
    repeat (apply slot_consistent_confirmed
            || apply slot_consistent_restart_candidate);
    assumption.
Qed.

(** The invariant is kept by every call. *)
Lemma slot_consistent_perform (c : Call) (w : Server) :
  slot_consistent (MyReplicationSlot w) ->
  slot_consistent (slot_after (perform c) w).
Proof.
  intros C. destruct c; cbn [perform].
  - rewrite LogicalConfirmReceivedLocation_slot.
    apply slot_consistent_confirmed, C.
  - rewrite LogicalIncreaseXminForSlot_slot.
    apply slot_consistent_xmin_proposed, C.
  - rewrite LogicalIncreaseRestartDecodingForSlot_slot.
    apply slot_consistent_restart_proposed, C.
Qed.

(** The invariant holds when a slot is first used and after a restart. *)
Lemma slot_consistent_initial (oldest_safe : TransactionId) (s : ReplicationSlot) :
  candidate_xmin_lsn s = InvalidXLogRecPtr ->
  slot_consistent (publish_initial_catalog_xmin oldest_safe s).
Proof.
  intros H. unfold slot_consistent, publish_initial_catalog_xmin. cbn.
  rewrite H. split; [reflexivity | discriminate].
Qed.

Lemma slot_consistent_restored (d : ReplicationSlotPersistentData) :
  slot_consistent (RestoreSlotFromDisk d).
Proof. split; [reflexivity | discriminate]. Qed.

Lemma effective_advances_confirmed (lsn : XLogRecPtr) (s : ReplicationSlot) :
  slot_consistent s ->
  TransactionIdPrecedesOrEquals (effective_catalog_xmin s)
    (effective_catalog_xmin (confirmed_slot lsn s)) = true.
Proof.
  intros [E P]. unfold confirmed_slot. cbn.
  destruct (xmin_adopted lsn s) eqn:A.
  - rewrite E. apply TransactionIdPrecedesOrEquals_total, P.
    unfold xmin_adopted in A. apply andb_prop in A as [A _].
    apply andb_prop in A as [A _]. exact A.
  - apply TransactionIdPrecedesOrEquals_refl.
Qed.

(** No call makes the enforced catalog xmin retreat. *)
Lemma effective_advances_perform (c : Call) (w : Server) :
  slot_consistent (MyReplicationSlot w) ->
  TransactionIdPrecedesOrEquals
    (effective_catalog_xmin (MyReplicationSlot w))
    (effective_catalog_xmin (slot_after (perform c) w)) = true.
Proof.
  intros C. destruct c; cbn [perform].
  - rewrite LogicalConfirmReceivedLocation_slot.
    apply effective_advances_confirmed, C.
  - rewrite LogicalIncreaseXminForSlot_slot. unfold xmin_proposed_slot.
    destruct (TransactionIdPrecedesOrEquals xmin
                (catalog_xmin (data (MyReplicationSlot w)))) eqn:P;
      [apply TransactionIdPrecedesOrEquals_refl|].
    destruct (current_lsn <=? confirmed_flush (data (MyReplicationSlot w))).
    + apply (effective_advances_confirmed _
               (with_xmin_candidate current_lsn xmin (MyReplicationSlot w))).
      apply slot_consistent_xmin_candidate; assumption.
    + destruct (candidate_xmin_lsn (MyReplicationSlot w) =? InvalidXLogRecPtr);
        apply TransactionIdPrecedesOrEquals_refl.
  - rewrite LogicalIncreaseRestartDecodingForSlot_slot.
    unfold restart_proposed_slot. cbv zeta.
    destruct (negb (restart_lsn' <=? restart_lsn (data (MyReplicationSlot w)))
              && (current_lsn <=? confirmed_flush (data (MyReplicationSlot w)))).
    + match goal with
      | |- context [confirmed_slot _ ?s] => set (s2 := s)
      end.
      assert (E2 : effective_catalog_xmin s2
                   = effective_catalog_xmin (MyReplicationSlot w))
        by (subst s2; destruct (candidate_restart_valid _ =? _); reflexivity).
      assert (C2 : slot_consistent s2)
        by (subst s2; destruct (candidate_restart_valid _ =? _);
            repeat apply slot_consistent_restart_candidate; assumption).
      rewrite <- E2. apply effective_advances_confirmed, C2.
    + destruct (candidate_restart_valid _ =? _);
        apply TransactionIdPrecedesOrEquals_refl.
Qed.

(** A proposal leaves [confirmed_flush] as it is. *)
Lemma proposals_keep_confirmed_flush (c : Call) (w : Server) :
  (forall lsn, c <> Confirm lsn) ->
  confirmed_flush (data (slot_after (perform c) w))
  = confirmed_flush (data (MyReplicationSlot w)).
Proof.
  intros N. destruct c; cbn [perform].
  - exfalso. apply (N lsn). reflexivity.
  - rewrite LogicalIncreaseXminForSlot_slot. unfold xmin_proposed_slot.
    repeat match goal with
           | |- context [if ?b then _ else _] => destruct b
           end; reflexivity.
  - rewrite LogicalIncreaseRestartDecodingForSlot_slot.
    unfold restart_proposed_slot. cbv zeta.
    repeat match goal with
           | |- context [if ?b then _ else _] => destruct b
           end; reflexivity.
Qed.

Lemma observed_confirmed_flush (cs : list Call) (w : Server) :
  map (fun s => confirmed_flush (data s)) (observe_confirms cs w)
  = acknowledged cs.
Proof.
  revert w. induction cs as [|c rest IH]; intros w; [reflexivity|].
  destruct c; cbn [observe_confirms acknowledged map]; rewrite ?IH; auto.
  f_equal. apply (confirmed_flush_is_acknowledged lsn w).
Qed.

Lemma confirmed_flush_sorted_from (cs : list Call) (w : Server) :
  Sorted Z.le (acknowledged cs) ->
  Forall (fun p => confirmed_flush (data (MyReplicationSlot w)) <= p)
    (acknowledged cs) ->
  Sorted Z.le
    (map (fun s => confirmed_flush (data s)) (MyReplicationSlot w :: observe cs w)).
Proof.
  revert w. induction cs as [|c rest IH]; intros w S F.
  - repeat constructor.
  - cbn [observe map].
    set (w1 := execState (perform c) w).
    assert (N : (exists lsn, c = Confirm lsn) \/ (forall lsn, c <> Confirm lsn))
      by (destruct c; [left; eexists; reflexivity | right; discriminate
                      | right; discriminate]).
    destruct N as [[lsn ->] | N].
    + cbn [acknowledged] in S, F.
      assert (E : confirmed_flush (data (MyReplicationSlot w1)) = lsn)
        by apply (confirmed_flush_is_acknowledged lsn w).
      constructor.
      * apply (IH w1).
        -- inversion S; assumption.
        -- rewrite E. apply Sorted_extends in S; [exact S|].
           intros x y z. apply Z.le_trans.
      * constructor. rewrite E. inversion F; assumption.
    + assert (E : confirmed_flush (data (MyReplicationSlot w1))
                  = confirmed_flush (data (MyReplicationSlot w)))
        by apply (proposals_keep_confirmed_flush c w N).
      assert (A : acknowledged (c :: rest) = acknowledged rest)
        by (destruct c; [exfalso; apply (N lsn); reflexivity
                        | reflexivity | reflexivity]).
      rewrite A in S, F.
      constructor.
      * apply (IH w1); [exact S | rewrite E; exact F].
      * constructor. rewrite E. apply Z.le_refl.
Qed.

(** C3. Monotonicity: along any sequence of calls in which the
    acknowledged positions are non-decreasing, with proposals on either
    track interleaved at will, the [confirmed_flush] observed after each
    acknowledgement is non-decreasing, and [effective_catalog_xmin] never
    retreats from one call to the next: each observed value is preceded or
    equalled, in the circular order of transaction ids, by the next.  When
    moreover no acknowledged position is below the [confirmed_flush] the
    sequence starts with, [confirmed_flush] is non-decreasing over the
    observations after all calls, proposals included.  The sequence starts
    from a slot as it is from its first use on ([slot_consistent]). *)
Theorem retention_is_monotone (cs : list Call) (w : Server) :
  slot_consistent (MyReplicationSlot w) ->
  Sorted Z.le (acknowledged cs) ->
  Sorted Z.le
    (map (fun s => confirmed_flush (data s)) (observe_confirms cs w))
  /\ Sorted (fun a b => TransactionIdPrecedesOrEquals a b = true)
       (map effective_catalog_xmin (MyReplicationSlot w :: observe cs w))
  /\ (Forall (fun p => confirmed_flush (data (MyReplicationSlot w)) <= p)
        (acknowledged cs) ->
      Sorted Z.le
        (map (fun s => confirmed_flush (data s))
           (MyReplicationSlot w :: observe cs w))).
Proof.
  intros C S. split; [|split].
  - rewrite observed_confirmed_flush. exact S.
  - clear S. revert w C.
    induction cs as [|c rest IH]; intros w C.
    + repeat constructor.
    + cbn [observe map].
      set (w1 := execState (perform c) w).
      constructor.
      * apply (IH w1). apply (slot_consistent_perform c w C).
      * constructor. apply (effective_advances_perform c w C).
  - apply confirmed_flush_sorted_from, S.
Qed.

Lemma retention_is_monotone_witness :
  let cs := [IncreaseXmin 150 50; Confirm 130; IncreaseRestart 140 110;
             Confirm 150; IncreaseXmin 150 70; Confirm 150] in
  Sorted Z.le
    (map (fun s => confirmed_flush (data s)) (observe_confirms cs server_idle))
  /\ Sorted (fun a b => TransactionIdPrecedesOrEquals a b = true)
       (map effective_catalog_xmin
          (MyReplicationSlot server_idle :: observe cs server_idle))
  /\ Sorted Z.le
       (map (fun s => confirmed_flush (data s))
          (MyReplicationSlot server_idle :: observe cs server_idle)).
Proof.
  intros cs.
  assert (C : slot_consistent (MyReplicationSlot server_idle))
    by (split; [reflexivity | discriminate]).
  assert (S : Sorted Z.le (acknowledged cs))
    by (repeat constructor; discriminate).
  destruct (retention_is_monotone cs server_idle C S) as (A & B & D).
  repeat split; [exact A | exact B |].
  apply D. repeat constructor; discriminate.
Defined.

(** ** Durability before enforcement *)

(** In every acknowledgement, adopting or not: an update of
    [effective_catalog_xmin] is made with the spinlock held, and an earlier
    event of the same call saved, with the spinlock not held, a slot state
    whose [catalog_xmin] is the value now enforced. *)
Lemma effective_update_follows_save (lsn : XLogRecPtr) (w : Server)
    (j : nat) (x : TransactionId) (held : bool) :
  nth_error (events_of (LogicalConfirmReceivedLocation lsn) w) j
  = Some (EvEffectiveCatalogXmin x held) ->
  held = true
  /\ exists i d,
       (i < j)%nat
       /\ nth_error (events_of (LogicalConfirmReceivedLocation lsn) w) i
          = Some (EvSave d false)
       /\ catalog_xmin d = x.
Proof.
  rewrite LogicalConfirmReceivedLocation_events. unfold confirm_events.
  destruct (xmin_adopted lsn (MyReplicationSlot w)) eqn:A.
  - cbn. intros H.
    destruct j as [|[|[|[|[|[|[|[|[|[|j]]]]]]]]]]; cbn in H;
      try discriminate H.
    + inversion H; subst. split; [reflexivity|].
      exists 3%nat. eexists. split; [lia|]. split; [reflexivity|].
      cbn. rewrite A. reflexivity.
    + destruct j; discriminate H.
  - destruct (restart_adopted lsn (MyReplicationSlot w)); cbn; intros H;
      destruct j as [|[|[|[|[|j]]]]]; cbn in H; try discriminate H;
      destruct j; discriminate H.
Qed.

(** C2 (as the code has it).  Whenever [LogicalConfirmReceivedLocation]
    adopts a catalog xmin candidate, the call first leaves its critical
    section, then marks the slot dirty and saves it with the spinlock not
    held, the saved state carrying the candidate as [catalog_xmin], and
    only afterwards re-acquires the spinlock and, holding it, copies the
    saved [catalog_xmin] into [effective_catalog_xmin].  A crash after the
    save and before that copy loses nothing: the restart reloads the same
    enforced value from the state file.  A crash before the save restarts
    from the earlier state file. *)
Theorem durable_before_enforced (lsn : XLogRecPtr) (w : Server) :
  let s := MyReplicationSlot w in
  let call := LogicalConfirmReceivedLocation lsn in
  xmin_adopted lsn s = true ->
  events_of call w
  = [EvSpinLockAcquire; EvSpinLockRelease;
     EvMarkDirty; EvSave (data (slot_after call w)) false;
     EvElog "updated xmin: %u restart: %u";
     EvSpinLockAcquire;
     EvEffectiveCatalogXmin (candidate_catalog_xmin s) true;
     EvSpinLockRelease;
     EvComputeRequiredXmin false; EvComputeRequiredLSN]
  /\ catalog_xmin (data (slot_after call w)) = candidate_catalog_xmin s
  /\ effective_catalog_xmin (slot_after call w) = candidate_catalog_xmin s
  /\ on_disk (execState call w) = data (slot_after call w)
  /\ (forall k : nat, (4 <= k <= 6)%nat ->
      effective_catalog_xmin (crash_after k call w)
      = effective_catalog_xmin (slot_after call w))
  /\ (forall k : nat, (k <= 3)%nat ->
      crash_after k call w = RestoreSlotFromDisk (on_disk w)).
Proof.
  intros s call A. subst call.
  unfold crash_after.
  rewrite LogicalConfirmReceivedLocation_events,
    LogicalConfirmReceivedLocation_slot.
  unfold slot_after. rewrite LogicalConfirmReceivedLocation_server.
  fold s. unfold confirm_events. rewrite A. cbn.
  rewrite A. repeat split.
  - intros k K.
    destruct k as [|[|[|[|[|[|[|k]]]]]]]; try lia; reflexivity.
  - intros k K.
    destruct k as [|[|[|[|k]]]]; try lia; reflexivity.
Qed.

Lemma durable_before_enforced_witness :
  let call := LogicalConfirmReceivedLocation 150 in
  catalog_xmin (data (slot_after call server_pending)) = 50
  /\ effective_catalog_xmin (crash_after 5 call server_pending) = 50.
Proof.
  destruct (durable_before_enforced 150 server_pending eq_refl)
    as (_ & D & E & _ & K & _).
  split.
  - exact D.
  - rewrite (K 5%nat); [exact E | lia].
Defined.

(** C2, counterexample: the candidate 50 is adopted by the acknowledgement
    of position 150, and the update of [effective_catalog_xmin] is made
    while the slot's spinlock is held, not outside it. *)
Lemma effective_update_holds_spinlock :
  xmin_adopted 150 (MyReplicationSlot server_pending) = true
  /\ In (EvEffectiveCatalogXmin 50 true)
       (events_of (LogicalConfirmReceivedLocation 150) server_pending)
  /\ ~ Forall outside_spinlock
         (events_of (LogicalConfirmReceivedLocation 150) server_pending).
Proof.
  assert (I : In (EvEffectiveCatalogXmin 50 true)
                (events_of (LogicalConfirmReceivedLocation 150) server_pending))
    by (vm_compute; auto 10).
  split; [vm_compute; reflexivity|]. split; [exact I|].
  intros F. rewrite Forall_forall in F. apply F in I. discriminate I.
Qed.

(** ** Callback wrappers *)

Ltac run_exec :=
  unfold startup_cb_wrapper, shutdown_cb_wrapper, begin_cb_wrapper,
    commit_cb_wrapper, change_cb_wrapper, filter_by_origin_cb_wrapper,
    message_cb_wrapper, push_error_context, call, set_accept_writes,
    set_write_xid, set_write_location, set_error_context_stack,
    set_in_logical_decoding, palloc0_LogicalDecodingContext, elog,
    elog_ERROR, ereport_ERROR, gets in *;
  cbn in *.

(** A wrapper that returns has popped its frame. *)
Ltac solve_pops :=
  intros st r st' H; run_exec;
  match goal with
  | H : context [match ?p with Some _ => _ | None => _ end] |- _ =>
      destruct p as [f|]; cbn in H; [|try discriminate H]
  | _ => idtac
  end;
  try match goal with
      | H : context [runExec ?c ?s] |- _ =>
          destruct (runExec c s) as [[a|e|] st2] eqn:E; cbn in H
      end;
  try discriminate H;
  inversion H; subst; reflexivity.

Lemma startup_cb_wrapper_pops callbacks opt is_init :
  pops_frame (startup_cb_wrapper callbacks opt is_init).
Proof. solve_pops. Qed.

Lemma shutdown_cb_wrapper_pops callbacks :
  pops_frame (shutdown_cb_wrapper callbacks).
Proof. solve_pops. Qed.

Lemma begin_cb_wrapper_pops callbacks txn :
  pops_frame (begin_cb_wrapper callbacks txn).
Proof. solve_pops. Qed.

Lemma commit_cb_wrapper_pops callbacks txn commit_lsn :
  pops_frame (commit_cb_wrapper callbacks txn commit_lsn).
Proof. solve_pops. Qed.

Lemma change_cb_wrapper_pops callbacks txn relation change :
  pops_frame (change_cb_wrapper callbacks txn relation change).
Proof. solve_pops. Qed.

Lemma filter_by_origin_cb_wrapper_pops callbacks origin_id :
  pops_frame (filter_by_origin_cb_wrapper callbacks origin_id).
Proof. solve_pops. Qed.

Lemma message_cb_wrapper_pops callbacks txn message_lsn transactional prefix
    size msg :
  pops_frame (message_cb_wrapper callbacks txn message_lsn transactional
                prefix size msg).
Proof. solve_pops. Qed.

(** An error that leaves a wrapper finds the wrapper's frame on the stack:
    the wrappers have no handler, the statement that pops the frame is
    skipped by the non-local exit. *)
Ltac solve_leaves K :=
  let st := fresh "st" in
  let e := fresh "e" in
  let st' := fresh "st'" in
  let H := fresh "H" in
  intros st e st' H; run_exec;
  match type of H with
  | context [match ?p with Some _ => _ | None => _ end] =>
      let f := fresh "f" in
      let C := fresh "C" in
      destruct p as [f|] eqn:C; cbn in H; [|discriminate H];
      specialize (K f eq_refl)
  end;
  match type of H with
  | context [runExec ?c ?s] =>
      let E := fresh "E" in
      let a := fresh "a" in
      let st2 := fresh "st2" in
      pose proof (K s) as KS;
      destruct (runExec c s) as [[a|?|] st2] eqn:E; cbn in H, KS;
      try discriminate H; inversion H; subst; exact KS
  end.

Lemma startup_cb_wrapper_leaves callbacks opt is_init :
  (forall f, startup_cb callbacks = Some f -> keeps_stack (f opt is_init)) ->
  leaves_frame (startup_cb_wrapper callbacks opt is_init)
    (mkFrame "startup" InvalidXLogRecPtr).
Proof. intros K. solve_leaves K. Qed.

Lemma shutdown_cb_wrapper_leaves callbacks :
  (forall f, shutdown_cb callbacks = Some f -> keeps_stack f) ->
  leaves_frame (shutdown_cb_wrapper callbacks)
    (mkFrame "shutdown" InvalidXLogRecPtr).
Proof. intros K. solve_leaves K. Qed.

Lemma begin_cb_wrapper_leaves callbacks txn :
  (forall f, begin_cb callbacks = Some f -> keeps_stack (f txn)) ->
  leaves_frame (begin_cb_wrapper callbacks txn)
    (mkFrame "begin" (first_lsn txn)).
Proof. intros K. solve_leaves K. Qed.

Lemma commit_cb_wrapper_leaves callbacks txn commit_lsn :
  (forall f, commit_cb callbacks = Some f -> keeps_stack (f txn commit_lsn)) ->
  leaves_frame (commit_cb_wrapper callbacks txn commit_lsn)
    (mkFrame "commit" (final_lsn txn)).
Proof. intros K. solve_leaves K. Qed.

Lemma change_cb_wrapper_leaves callbacks txn relation change :
  (forall f, change_cb callbacks = Some f ->
             keeps_stack (f txn relation change)) ->
  leaves_frame (change_cb_wrapper callbacks txn relation change)
    (mkFrame "change" (change_lsn change)).
Proof. intros K. solve_leaves K. Qed.

Lemma filter_by_origin_cb_wrapper_leaves callbacks origin_id :
  (forall f, filter_by_origin_cb callbacks = Some f ->
             keeps_stack (f origin_id)) ->
  leaves_frame (filter_by_origin_cb_wrapper callbacks origin_id)
    (mkFrame "filter_by_origin" InvalidXLogRecPtr).
Proof. intros K. solve_leaves K. Qed.

Lemma message_cb_wrapper_leaves callbacks txn message_lsn transactional prefix
    size msg :
  (forall f, message_cb callbacks = Some f ->
             keeps_stack (f txn message_lsn transactional prefix size msg)) ->
  leaves_frame (message_cb_wrapper callbacks txn message_lsn transactional
                  prefix size msg)
    (mkFrame "message" message_lsn).
Proof. intros K. solve_leaves K. Qed.

(** A wrapper runs the registered callback in the state [at_callback],
    pops the frame when the callback returns and pops nothing when the
    callback raises an error. *)
Ltac solve_dispatches :=
  intros f C [aw pw wx wl ecs ild sl];
  unfold startup_cb_wrapper, shutdown_cb_wrapper, begin_cb_wrapper,
    commit_cb_wrapper, change_cb_wrapper, filter_by_origin_cb_wrapper,
    message_cb_wrapper;
  rewrite C; run_exec; unfold at_callback, popped, message_xid; cbn;
  split; intros r st2 H; rewrite H; destruct r; reflexivity.

Lemma startup_cb_wrapper_dispatches callbacks opt is_init :
  forall f, startup_cb callbacks = Some f ->
    dispatches (startup_cb_wrapper callbacks opt is_init) (f opt is_init)
      (mkFrame "startup" InvalidXLogRecPtr) None.
Proof. solve_dispatches. Qed.

Lemma shutdown_cb_wrapper_dispatches callbacks :
  forall f, shutdown_cb callbacks = Some f ->
    dispatches (shutdown_cb_wrapper callbacks) f
      (mkFrame "shutdown" InvalidXLogRecPtr) None.
Proof. solve_dispatches. Qed.

Lemma begin_cb_wrapper_dispatches callbacks txn :
  forall f, begin_cb callbacks = Some f ->
    dispatches (begin_cb_wrapper callbacks txn) (f txn)
      (mkFrame "begin" (first_lsn txn)) (Some (xid txn, first_lsn txn)).
Proof. solve_dispatches. Qed.

Lemma change_cb_wrapper_dispatches callbacks txn relation change :
  forall f, change_cb callbacks = Some f ->
    dispatches (change_cb_wrapper callbacks txn relation change)
      (f txn relation change)
      (mkFrame "change" (change_lsn change))
      (Some (xid txn, change_lsn change)).
Proof. solve_dispatches. Qed.

Lemma commit_cb_wrapper_dispatches callbacks txn commit_lsn :
  forall f, commit_cb callbacks = Some f ->
    dispatches (commit_cb_wrapper callbacks txn commit_lsn) (f txn commit_lsn)
      (mkFrame "commit" (final_lsn txn)) (Some (xid txn, end_lsn txn)).
Proof. solve_dispatches. Qed.

Lemma message_cb_wrapper_dispatches callbacks txn message_lsn transactional
    prefix size msg :
  forall f, message_cb callbacks = Some f ->
    dispatches (message_cb_wrapper callbacks txn message_lsn transactional
                  prefix size msg)
      (f txn message_lsn transactional prefix size msg)
      (mkFrame "message" message_lsn)
      (Some (message_xid txn, message_lsn)).
Proof. solve_dispatches. Qed.

Lemma filter_by_origin_cb_wrapper_dispatches callbacks origin_id :
  forall f, filter_by_origin_cb callbacks = Some f ->
    dispatches (filter_by_origin_cb_wrapper callbacks origin_id) (f origin_id)
      (mkFrame "filter_by_origin" InvalidXLogRecPtr) None.
Proof. solve_dispatches. Qed.

(** C9 (as the code has it).  For every callback dispatch (startup,
    shutdown, begin, change, commit, message and filter-by-origin
    wrappers), the wrapper pushes its frame and runs the plugin's callback
    with the frame on top of [error_context_stack].  When the callback
    returns, the wrapper returns the callback's result with the frame
    popped: [error_context_stack] is what it was before the dispatch.
    When the callback raises an error, the wrapper pops nothing: the error
    leaves the wrapper in the state the callback left, with the frame
    still on top of [error_context_stack] (for a plugin whose callbacks do
    not change the stack themselves).  Hence a wrapper that returns has
    popped its frame, and a wrapper that an error leaves has not. *)
Theorem error_context_frame (callbacks : OutputPluginCallbacks)
    (opt : OutputPluginOptions) (is_init : bool) (txn : ReorderBufferTXN)
    (relation : Relation) (change : ReorderBufferChange)
    (commit_lsn : XLogRecPtr) (mtxn : option ReorderBufferTXN)
    (message_lsn : XLogRecPtr) (transactional : bool) (prefix : string)
    (size : Z) (msg : string) (origin_id : RepOriginId) :
  ((forall f, startup_cb callbacks = Some f ->
      dispatches (startup_cb_wrapper callbacks opt is_init) (f opt is_init)
        (mkFrame "startup" InvalidXLogRecPtr) None)
   /\ (forall f, shutdown_cb callbacks = Some f ->
         dispatches (shutdown_cb_wrapper callbacks) f
           (mkFrame "shutdown" InvalidXLogRecPtr) None)
   /\ (forall f, begin_cb callbacks = Some f ->
         dispatches (begin_cb_wrapper callbacks txn) (f txn)
           (mkFrame "begin" (first_lsn txn)) (Some (xid txn, first_lsn txn)))
   /\ (forall f, change_cb callbacks = Some f ->
         dispatches (change_cb_wrapper callbacks txn relation change)
           (f txn relation change)
           (mkFrame "change" (change_lsn change))
           (Some (xid txn, change_lsn change)))
   /\ (forall f, commit_cb callbacks = Some f ->
         dispatches (commit_cb_wrapper callbacks txn commit_lsn)
           (f txn commit_lsn)
           (mkFrame "commit" (final_lsn txn)) (Some (xid txn, end_lsn txn)))
   /\ (forall f, message_cb callbacks = Some f ->
         dispatches (message_cb_wrapper callbacks mtxn message_lsn
                       transactional prefix size msg)
           (f mtxn message_lsn transactional prefix size msg)
           (mkFrame "message" message_lsn)
           (Some (message_xid mtxn, message_lsn)))
   /\ (forall f, filter_by_origin_cb callbacks = Some f ->
         dispatches (filter_by_origin_cb_wrapper callbacks origin_id)
           (f origin_id)
           (mkFrame "filter_by_origin" InvalidXLogRecPtr) None))
  /\ (pops_frame (startup_cb_wrapper callbacks opt is_init)
      /\ pops_frame (shutdown_cb_wrapper callbacks)
      /\ pops_frame (begin_cb_wrapper callbacks txn)
      /\ pops_frame (change_cb_wrapper callbacks txn relation change)
      /\ pops_frame (commit_cb_wrapper callbacks txn commit_lsn)
      /\ pops_frame (message_cb_wrapper callbacks mtxn message_lsn
                       transactional prefix size msg)
      /\ pops_frame (filter_by_origin_cb_wrapper callbacks origin_id))
  /\ (callbacks_keep_stack callbacks ->
      leaves_frame (startup_cb_wrapper callbacks opt is_init)
        (mkFrame "startup" InvalidXLogRecPtr)
      /\ leaves_frame (shutdown_cb_wrapper callbacks)
           (mkFrame "shutdown" InvalidXLogRecPtr)
      /\ leaves_frame (begin_cb_wrapper callbacks txn)
           (mkFrame "begin" (first_lsn txn))
      /\ leaves_frame (change_cb_wrapper callbacks txn relation change)
           (mkFrame "change" (change_lsn change))
      /\ leaves_frame (commit_cb_wrapper callbacks txn commit_lsn)
           (mkFrame "commit" (final_lsn txn))
      /\ leaves_frame (message_cb_wrapper callbacks mtxn message_lsn
                         transactional prefix size msg)
           (mkFrame "message" message_lsn)
      /\ leaves_frame (filter_by_origin_cb_wrapper callbacks origin_id)
           (mkFrame "filter_by_origin" InvalidXLogRecPtr)).
Proof.
  split; [|split].
  - repeat apply conj.
    + apply startup_cb_wrapper_dispatches.
    + apply shutdown_cb_wrapper_dispatches.
    + apply begin_cb_wrapper_dispatches.
    + apply change_cb_wrapper_dispatches.
    + apply commit_cb_wrapper_dispatches.
    + apply message_cb_wrapper_dispatches.
    + apply filter_by_origin_cb_wrapper_dispatches.
  - repeat apply conj.
    + apply startup_cb_wrapper_pops.
    + apply shutdown_cb_wrapper_pops.
    + apply begin_cb_wrapper_pops.
    + apply change_cb_wrapper_pops.
    + apply commit_cb_wrapper_pops.
    + apply message_cb_wrapper_pops.
    + apply filter_by_origin_cb_wrapper_pops.
  - intros (K1 & K2 & K3 & K4 & K5 & K6 & K7). repeat apply conj.
    + apply startup_cb_wrapper_leaves. intros f C. apply (K1 f C).
    + apply shutdown_cb_wrapper_leaves. exact K2.
    + apply begin_cb_wrapper_leaves. intros f C. apply (K3 f C).
    + apply change_cb_wrapper_leaves. intros f C. apply (K4 f C).
    + apply commit_cb_wrapper_leaves. intros f C. apply (K5 f C).
    + apply message_cb_wrapper_leaves. intros f C. apply (K6 f C).
    + apply filter_by_origin_cb_wrapper_leaves. intros f C. apply (K7 f C).
Qed.

Lemma failing_plugin_keeps_stack : callbacks_keep_stack failing_plugin.
Proof.
  unfold callbacks_keep_stack, failing_plugin. cbn.
  repeat split; intros f C; inversion C; subst; intros; intro st; reflexivity.
Qed.

Lemma minimal_plugin_keeps_stack : callbacks_keep_stack minimal_plugin.
Proof.
  unfold callbacks_keep_stack, minimal_plugin. cbn.
  repeat split; intros f C; inversion C; subst; intros; intro st; reflexivity.
Qed.

Lemma error_context_frame_witness :
  (runExec (begin_cb_wrapper minimal_plugin sample_txn) idle_backend
   = (Returned tt, mkBackend true false 700 1000 [] false [])
   /\ runExec (begin_cb_wrapper failing_plugin sample_txn) idle_backend
      = (Raised (mkError (ERRCODE_PLUGIN 1) "begin failed"
                   [mkFrame "begin" 1000]),
         mkBackend true false 700 1000 [mkFrame "begin" 1000] false []))
  /\ leaves_frame (begin_cb_wrapper failing_plugin sample_txn)
       (mkFrame "begin" (first_lsn sample_txn)).
Proof.
  split; [split|].
  - apply (proj1 (proj1 (proj2 (proj2 (proj1
             (error_context_frame minimal_plugin 0 false sample_txn 0
                (mkChange 0) 0 None 0 false EmptyString 0 EmptyString 0))))
             (fun _ => ret tt) eq_refl idle_backend) tt
            (mkBackend true false 700 1000 [mkFrame "begin" 1000] false [])).
    reflexivity.
  - apply (proj2 (proj1 (proj2 (proj2 (proj1
             (error_context_frame failing_plugin 0 false sample_txn 0
                (mkChange 0) 0 None 0 false EmptyString 0 EmptyString 0))))
             (fun _ => ereport_ERROR (ERRCODE_PLUGIN 1) "begin failed")
             eq_refl idle_backend)).
    reflexivity.
  - apply (proj2 (proj2
             (error_context_frame failing_plugin 0 false sample_txn 0
                (mkChange 0) 0 None 0 false EmptyString 0 EmptyString 0))).
    exact failing_plugin_keeps_stack.
Defined.

(** C9, counterexample: the begin callback of the plugin reports an
    error.  The error leaves [begin_cb_wrapper] with the frame of the
    dispatch still on [error_context_stack]; the wrapper has not popped
    it. *)
Lemma frame_not_popped_on_error :
  let run := runExec (begin_cb_wrapper failing_plugin sample_txn) idle_backend in
  fst run = Raised (mkError (ERRCODE_PLUGIN 1) "begin failed"
                      [mkFrame "begin" 1000])
  /\ error_context_stack (snd run) = [mkFrame "begin" 1000]
  /\ error_context_stack (snd run) <> error_context_stack idle_backend.
Proof. vm_compute. repeat split; discriminate. Qed.

(** ** Optional and mandatory callbacks *)

(** C10. A context whose plugin registered no message callback: a message
    dispatched through [message_cb_wrapper] returns at once, without error
    and with the backend state (the write state [accept_writes],
    [write_xid], [write_location] and [error_context_stack] included)
    untouched; and loading such a plugin succeeds, whereas a plugin that
    misses the begin, change or commit callback is refused with an error
    by [LoadOutputPlugin]. *)
Theorem absent_message_callback (callbacks : OutputPluginCallbacks)
    (txn : option ReorderBufferTXN) (message_lsn : XLogRecPtr)
    (transactional : bool) (prefix : string) (size : Z) (msg : string)
    (st : Backend) :
  message_cb callbacks = None ->
  runExec (message_cb_wrapper callbacks txn message_lsn transactional prefix
             size msg) st = (Returned tt, st)
  /\ (forall inst name plugin_init,
        load_external_function inst name = Some plugin_init ->
        plugin_init no_callbacks = callbacks ->
        (mandatory_callbacks_present callbacks = true ->
         runExec (LoadOutputPlugin inst no_callbacks name) st
         = (Returned callbacks, st))
        /\ (mandatory_callbacks_present callbacks = false ->
            exists e, runExec (LoadOutputPlugin inst no_callbacks name) st
                      = (Raised e, st))).
Proof.
  intros M. split.
  - unfold message_cb_wrapper. rewrite M. reflexivity.
  - intros inst name plugin_init L I.
    unfold LoadOutputPlugin, mandatory_callbacks_present. rewrite L, I.
    destruct (is_null (begin_cb callbacks)), (is_null (change_cb callbacks)),
      (is_null (commit_cb callbacks)); cbn; split; intros P;
      try discriminate P; try reflexivity; eexists; reflexivity.
Qed.

Lemma absent_message_callback_witness :
  runExec (message_cb_wrapper minimal_plugin (Some sample_txn) 1100 true
             "prefix" 7 "payload") idle_backend
  = (Returned tt, idle_backend)
  /\ runExec (LoadOutputPlugin sample_installation no_callbacks "test_decoding")
       idle_backend
     = (Returned minimal_plugin, idle_backend).
Proof.
  destruct (absent_message_callback minimal_plugin (Some sample_txn) 1100 true
              "prefix" 7 "payload" idle_backend eq_refl) as [W L].
  split.
  - exact W.
  - apply (L sample_installation "test_decoding"%string
             (fun _ => minimal_plugin));
      reflexivity.
Defined.

(** ** Start position of a resumed session *)

Lemma mandatory_callbacks_present_inv (callbacks : OutputPluginCallbacks) :
  mandatory_callbacks_present callbacks = true ->
  is_null (begin_cb callbacks) = false
  /\ is_null (change_cb callbacks) = false
  /\ is_null (commit_cb callbacks) = false.
Proof.
  unfold mandatory_callbacks_present.
  destruct (is_null (begin_cb callbacks)), (is_null (change_cb callbacks)),
    (is_null (commit_cb callbacks)); cbn; intros H;
    try discriminate H; auto.
Qed.

(** For a decodable slot the call returns a context, and the context
    starts at the resolved position. *)
Lemma CreateDecodingContext_returns (inst : Installation)
    (slot : ReplicationSlot) (start_lsn : XLogRecPtr)
    (output_plugin_options : list string) (st : Backend) :
  decodable inst slot ->
  exists ctx st',
    runExec (CreateDecodingContext inst (Some slot) start_lsn
               output_plugin_options) st = (Returned ctx, st')
    /\ builder_start_lsn (ctx_snapshot_builder ctx)
       = resolved_start start_lsn slot.
Proof.
  intros (P & D & V & F & R & plugin_init & L & M & S).
  apply mandatory_callbacks_present_inv in M as (Mb & Mc & Mm).
  unfold CreateDecodingContext, EnsureActiveLogicalSlotValid,
    StartupDecodingContext, LoadOutputPlugin, resolved_start.
  rewrite P, D, Z.eqb_refl, V, F, L, R, Mb, Mc, Mm.
  assert (G : forall st1,
    exists st2,
      runExec (if negb (is_null (startup_cb (plugin_init no_callbacks)))
               then startup_cb_wrapper (plugin_init no_callbacks) 0 false
               else ret tt) st1 = (Returned tt, st2)).
  { intros st1. destruct (startup_cb (plugin_init no_callbacks)) as [f|] eqn:C.
    - cbn [is_null negb]. unfold startup_cb_wrapper. rewrite C. run_exec.
      match goal with
      | |- context [runExec (f 0 false) ?s] =>
          destruct (S f eq_refl 0 false s) as ([] & st2 & E); rewrite E
      end.
      cbn. eexists. reflexivity.
    - cbn. eexists. reflexivity. }
  destruct (start_lsn =? InvalidXLogRecPtr);
    [|destruct (start_lsn <? confirmed_flush (data slot))];
    destruct (IsTransactionOrTransactionBlock inst);
    run_exec;
    match goal with
    | |- context [runExec (if negb _ then _ else _) ?s] =>
        destruct (G s) as (st2 & E); rewrite E
    end;
    cbn; do 2 eexists; split; reflexivity.
Qed.

(** Whenever the call returns a context, for whatever slot and
    installation, the context starts at the resolved position. *)
Lemma CreateDecodingContext_start (inst : Installation)
    (my_slot : option ReplicationSlot) (start_lsn : XLogRecPtr)
    (output_plugin_options : list string) (st : Backend)
    (ctx : LogicalDecodingContext) (st' : Backend) :
  runExec (CreateDecodingContext inst my_slot start_lsn output_plugin_options)
    st = (Returned ctx, st') ->
  exists slot,
    my_slot = Some slot
    /\ builder_start_lsn (ctx_snapshot_builder ctx)
       = resolved_start start_lsn slot.
Proof.
  destruct my_slot as [slot|]; [|discriminate].
  intros H. exists slot. split; [reflexivity|]. revert H.
  unfold CreateDecodingContext, EnsureActiveLogicalSlotValid,
    StartupDecodingContext, LoadOutputPlugin, resolved_start.
  destruct (SlotIsPhysical slot); [discriminate|].
  destruct (database (data slot) =? MyDatabaseId inst); [|discriminate].
  destruct (negb (TransactionIdIsValid (oldestCatalogXmin inst))
            || TransactionIdFollows (oldestCatalogXmin inst)
                 (catalog_xmin (data slot)));
    [destruct (start_lsn =? InvalidXLogRecPtr);
     [|destruct (start_lsn <? confirmed_flush (data slot))]; discriminate|].
  destruct (load_external_function inst (plugin (data slot))) as [init|];
    [|destruct (start_lsn =? InvalidXLogRecPtr);
      [|destruct (start_lsn <? confirmed_flush (data slot))]; discriminate].
  destruct (is_null (begin_cb (init no_callbacks)));
    [destruct (start_lsn =? InvalidXLogRecPtr);
     [|destruct (start_lsn <? confirmed_flush (data slot))]; discriminate|].
  destruct (is_null (change_cb (init no_callbacks)));
    [destruct (start_lsn =? InvalidXLogRecPtr);
     [|destruct (start_lsn <? confirmed_flush (data slot))]; discriminate|].
  destruct (is_null (commit_cb (init no_callbacks)));
    [destruct (start_lsn =? InvalidXLogRecPtr);
     [|destruct (start_lsn <? confirmed_flush (data slot))]; discriminate|].
  destruct (reader_allocated inst);
    [|destruct (start_lsn =? InvalidXLogRecPtr);
      [|destruct (start_lsn <? confirmed_flush (data slot))];
      destruct (IsTransactionOrTransactionBlock inst); discriminate].
  destruct (start_lsn =? InvalidXLogRecPtr);
    [|destruct (start_lsn <? confirmed_flush (data slot))];
    destruct (IsTransactionOrTransactionBlock inst);
    run_exec;
    match goal with
    | |- context [runExec ?c ?s] =>
        destruct (runExec c s) as [[[]|?|] ?]; cbn
    end;
    intros H; inversion H; reflexivity.
Qed.

(** C8. Start-position resolution of [CreateDecodingContext].  Whenever
    the call returns a decoding context: requested with the invalid
    position, decoding starts from the slot's [confirmed_flush]; requested
    with a position strictly below [confirmed_flush], the start is moved
    forward to [confirmed_flush]; a position at or above [confirmed_flush]
    is used as given.  And the call does return, without raising an error,
    for every decodable slot, whatever the requested position is: an older
    position is no reason for an error. *)
Theorem start_position_resolution (inst : Installation)
    (slot : ReplicationSlot) (start_lsn : XLogRecPtr)
    (output_plugin_options : list string) (st : Backend) :
  let call := CreateDecodingContext inst (Some slot) start_lsn
                output_plugin_options in
  (forall ctx st',
     runExec call st = (Returned ctx, st') ->
     let start := builder_start_lsn (ctx_snapshot_builder ctx) in
     (start_lsn = InvalidXLogRecPtr -> start = confirmed_flush (data slot))
     /\ (start_lsn <> InvalidXLogRecPtr ->
         start_lsn < confirmed_flush (data slot) ->
         start = confirmed_flush (data slot))
     /\ (start_lsn <> InvalidXLogRecPtr ->
         confirmed_flush (data slot) <= start_lsn ->
         start = start_lsn))
  /\ (decodable inst slot ->
      exists ctx st', runExec call st = (Returned ctx, st')).
Proof.
  intros call. subst call. split.
  - intros ctx st' E start. subst start.
    destruct (CreateDecodingContext_start _ _ _ _ _ _ _ E) as (slot' & I & B).
    inversion I; subst slot'. rewrite B. unfold resolved_start.
    repeat split.
    + intros Z0. apply Z.eqb_eq in Z0. rewrite Z0. reflexivity.
    + intros Z0 L. apply Z.eqb_neq in Z0. apply Z.ltb_lt in L.
      rewrite Z0, L. reflexivity.
    + intros Z0 L. apply Z.eqb_neq in Z0. apply Z.ltb_ge in L.
      rewrite Z0, L. reflexivity.
  - intros D.
    destruct (CreateDecodingContext_returns inst slot start_lsn
                output_plugin_options st D) as (ctx & st' & E & _).
    exists ctx, st'. exact E.
Qed.

Lemma sample_slot_decodable :
  decodable sample_installation (MyReplicationSlot server_pending).
Proof.
  repeat split.
  exists (fun _ => minimal_plugin).
  repeat split. intros f C. discriminate C.
Qed.

Lemma start_position_resolution_witness :
  exists ctx st',
    runExec (CreateDecodingContext sample_installation
               (Some (MyReplicationSlot server_pending)) 60 []) idle_backend
    = (Returned ctx, st')
    /\ builder_start_lsn (ctx_snapshot_builder ctx) = 100.
Proof.
  destruct (start_position_resolution sample_installation
              (MyReplicationSlot server_pending) 60 [] idle_backend)
    as (S & R).
  destruct (R sample_slot_decodable) as (ctx & st' & E).
  exists ctx, st'. split.
  - exact E.
  - apply (S ctx st' E); [discriminate | reflexivity].
Defined.

(** ** Worked scenarios *)

(** A candidate catalog xmin 50 waits for position 150: acknowledging 120
    adopts nothing, acknowledging 150 adopts it. *)
Example scenario_candidate_then_acknowledge :
  let proposed := execState (LogicalIncreaseXminForSlot 150 50) server_idle in
  let at_120 := execState (LogicalConfirmReceivedLocation 120) proposed in
  let at_150 := execState (LogicalConfirmReceivedLocation 150) at_120 in
  candidate_xmin_lsn (MyReplicationSlot proposed) = 150
  /\ effective_catalog_xmin (MyReplicationSlot at_120) = 40
  /\ candidate_catalog_xmin (MyReplicationSlot at_120) = 50
  /\ effective_catalog_xmin (MyReplicationSlot at_150) = 50
  /\ catalog_xmin (on_disk at_150) = 50
  /\ candidate_xmin_lsn (MyReplicationSlot at_150) = InvalidXLogRecPtr.
Proof. vm_compute. repeat split. Qed.

(** Resuming with an invalid, an older and a newer start position. *)
Example scenario_resume_positions :
  map (fun start_lsn =>
         match fst (runExec (CreateDecodingContext sample_installation
                               (Some (MyReplicationSlot server_pending))
                               start_lsn []) idle_backend) with
         | Returned ctx => Some (builder_start_lsn (ctx_snapshot_builder ctx))
         | _ => None
         end) [0; 60; 100; 170]
  = [Some 100; Some 100; Some 100; Some 170].
Proof. reflexivity. Qed.

(** The circular order of transaction ids across the wrap-around. *)
Example scenario_xid_wraparound :
  TransactionIdPrecedesOrEquals 4294967290 5 = true
  /\ TransactionIdPrecedesOrEquals 5 4294967290 = false
  /\ TransactionIdPrecedesOrEquals 2 4294967290 = true.
Proof. vm_compute. repeat split. Qed.

(** * Further properties *)

(** ** The whole effect of a proposal *)

Lemma LogicalIncreaseXminForSlot_server (current_lsn : XLogRecPtr)
    (xmin : TransactionId) (w : Server) :
  let s := MyReplicationSlot w in
  let w1 := mkServer (xmin_recorded_slot current_lsn xmin s) false (dirty w)
              (on_disk w)
              (history w ++ [EvSpinLockAcquire; EvSpinLockRelease]) in
  execState (LogicalIncreaseXminForSlot current_lsn xmin) w
  = if xmin_immediate current_lsn xmin s
    then execState (LogicalConfirmReceivedLocation (confirmed_flush (data s))) w1
    else w1.
Proof.
  destruct w as [[[db pl cx rl cf] ecx ccx cxl crv crl] mx dt dk h].
  unfold LogicalIncreaseXminForSlot, xmin_recorded_slot, xmin_immediate.
  destruct (TransactionIdPrecedesOrEquals xmin cx) eqn:E1,
    (current_lsn <=? cf) eqn:E2, (cxl =? InvalidXLogRecPtr) eqn:E3;
    run_srv; repeat (rewrite ?E1, ?E2, ?E3; cbn);
    rewrite <- ?app_assoc; reflexivity.
Qed.

Lemma LogicalIncreaseRestartDecodingForSlot_server
    (current_lsn restart_lsn' : XLogRecPtr) (w : Server) :
  let s := MyReplicationSlot w in
  let w1 := mkServer (restart_recorded_slot current_lsn restart_lsn' s) false
              (dirty w) (on_disk w)
              (history w ++ restart_recorded_events current_lsn restart_lsn' s) in
  execState (LogicalIncreaseRestartDecodingForSlot current_lsn restart_lsn') w
  = if restart_immediate current_lsn restart_lsn' s
    then execState (LogicalConfirmReceivedLocation (confirmed_flush (data s))) w1
    else w1.
Proof.
  destruct w as [[[db pl cx rl cf] ecx ccx cxl crv crl] mx dt dk h].
  unfold LogicalIncreaseRestartDecodingForSlot, restart_recorded_slot,
    restart_recorded_events, restart_immediate.
  destruct (restart_lsn' <=? rl) eqn:E1, (current_lsn <=? cf) eqn:E2,
    (crv =? InvalidXLogRecPtr) eqn:E3,
    (current_lsn =? InvalidXLogRecPtr) eqn:E4;
    run_srv; repeat (rewrite ?E1, ?E2, ?E3, ?E4; cbn);
    rewrite <- ?app_assoc; reflexivity.
Qed.

Lemma perform_all_cons (c : Call) (rest : list Call) (w : Server) :
  execState (perform_all (c :: rest)) w
  = execState (perform_all rest) (execState (perform c) w).
Proof. cbn [perform_all]. apply execState_seq. Qed.

(** ** The enforced values are durable *)

Lemma enforced_is_durable_confirm (lsn : XLogRecPtr) (w : Server) :
  enforced_is_durable w ->
  enforced_is_durable (execState (LogicalConfirmReceivedLocation lsn) w).
Proof.
  intros (E & C & R). rewrite LogicalConfirmReceivedLocation_server.
  unfold enforced_is_durable, confirmed_slot. cbn.
  destruct (xmin_adopted lsn (MyReplicationSlot w)),
    (restart_adopted lsn (MyReplicationSlot w)); cbn; auto.
  repeat split; congruence.
Qed.

Lemma enforced_is_durable_candidates (w : Server) (s : ReplicationSlot)
    (m d : bool) (h : list Event) :
  enforced_is_durable w ->
  data s = data (MyReplicationSlot w) ->
  effective_catalog_xmin s = effective_catalog_xmin (MyReplicationSlot w) ->
  enforced_is_durable (mkServer s m d (on_disk w) h).
Proof.
  intros (E & C & R) D F. unfold enforced_is_durable. cbn.
  rewrite D, F. auto.
Qed.

Lemma xmin_recorded_slot_data (current_lsn : XLogRecPtr) (xmin : TransactionId)
    (s : ReplicationSlot) :
  data (xmin_recorded_slot current_lsn xmin s) = data s
  /\ effective_catalog_xmin (xmin_recorded_slot current_lsn xmin s)
     = effective_catalog_xmin s.
Proof.
  unfold xmin_recorded_slot.
  repeat match goal with
         | |- context [if ?b then _ else _] => destruct b
         end; auto.
Qed.

Lemma restart_recorded_slot_data (current_lsn restart_lsn' : XLogRecPtr)
    (s : ReplicationSlot) :
  data (restart_recorded_slot current_lsn restart_lsn' s) = data s
  /\ effective_catalog_xmin (restart_recorded_slot current_lsn restart_lsn' s)
     = effective_catalog_xmin s.
Proof.
  unfold restart_recorded_slot. cbv zeta.
  repeat match goal with
         | |- context [if ?b then _ else _] => destruct b
         end; auto.
Qed.

Lemma enforced_is_durable_perform (c : Call) (w : Server) :
  enforced_is_durable w -> enforced_is_durable (execState (perform c) w).
Proof.
  intros D. destruct c; cbn [perform].
  - apply enforced_is_durable_confirm, D.
  - rewrite LogicalIncreaseXminForSlot_server. cbv zeta.
    destruct (xmin_recorded_slot_data current_lsn xmin (MyReplicationSlot w)).
    destruct (xmin_immediate _ _ _);
      [apply enforced_is_durable_confirm|];
      apply (enforced_is_durable_candidates w); assumption.
  - rewrite LogicalIncreaseRestartDecodingForSlot_server. cbv zeta.
    destruct (restart_recorded_slot_data current_lsn restart_lsn'
                (MyReplicationSlot w)).
    destruct (restart_immediate _ _ _);
      [apply enforced_is_durable_confirm|];
      apply (enforced_is_durable_candidates w); assumption.
Qed.

(** X1. Along any sequence of acknowledgements and proposals, the values
    the slot enforces are the durable ones at every call boundary: a crash
    after the sequence restarts with the same [effective_catalog_xmin],
    [catalog_xmin] and [restart_lsn] as the slot had in memory.  The
    sequence starts from a state where this holds, as after a save or a
    restart. *)
Theorem enforced_values_survive_crash (cs : list Call) (w : Server) :
  enforced_is_durable w ->
  let w' := execState (perform_all cs) w in
  let restarted := RestoreSlotFromDisk (on_disk w') in
  effective_catalog_xmin restarted = effective_catalog_xmin (MyReplicationSlot w')
  /\ catalog_xmin (data restarted) = catalog_xmin (data (MyReplicationSlot w'))
  /\ restart_lsn (data restarted) = restart_lsn (data (MyReplicationSlot w')).
Proof.
  intros D w' restarted. subst restarted w'.
  assert (D' : enforced_is_durable (execState (perform_all cs) w)).
  { revert w D. induction cs as [|c rest IH]; intros w D; [exact D|].
    rewrite perform_all_cons. apply IH, enforced_is_durable_perform, D. }
  destruct D' as (E & C & R). cbn. auto.
Qed.

Lemma enforced_values_survive_crash_witness :
  let w' := execState (perform_all [IncreaseXmin 150 50; Confirm 130;
                                    IncreaseRestart 140 110; Confirm 150])
              server_idle in
  effective_catalog_xmin (RestoreSlotFromDisk (on_disk w')) = 50
  /\ restart_lsn (data (RestoreSlotFromDisk (on_disk w'))) = 110.
Proof.
  assert (D : enforced_is_durable server_idle) by (repeat split).
  destruct (enforced_values_survive_crash
              [IncreaseXmin 150 50; Confirm 130; IncreaseRestart 140 110;
               Confirm 150] server_idle D) as (E & _ & R).
  split; [rewrite E | rewrite R]; reflexivity.
Defined.

(** ** Locking discipline *)

Lemma spinlock_discipline_app (h1 h2 : list Event) (held mid : bool) :
  spinlock_discipline held h1 = Some mid ->
  spinlock_discipline held (h1 ++ h2) = spinlock_discipline mid h2.
Proof.
  revert held. induction h1 as [|e h1 IH]; intros held H.
  - cbn in H. inversion H. reflexivity.
  - destruct e; cbn in *;
      try (destruct held; try discriminate H; apply IH, H);
      try (apply IH, H).
    + destruct (held || spinlock_held); [discriminate H | apply IH, H].
    + destruct (held && spinlock_held); [apply IH, H | discriminate H].
Qed.

Lemma confirm_events_discipline (lsn : XLogRecPtr) (s : ReplicationSlot) :
  spinlock_discipline false (confirm_events lsn s) = Some false.
Proof.
  unfold confirm_events.
  destruct (xmin_adopted lsn s), (restart_adopted lsn s); reflexivity.
Qed.

(** Every call appends to the history, and what it appends keeps the
    discipline. *)
Lemma perform_history (c : Call) (w : Server) :
  exists events,
    history (execState (perform c) w) = history w ++ events
    /\ spinlock_discipline false events = Some false.
Proof.
  destruct c; cbn [perform].
  - rewrite LogicalConfirmReceivedLocation_server. cbn.
    eexists. split; [reflexivity | apply confirm_events_discipline].
  - rewrite LogicalIncreaseXminForSlot_server. cbv zeta.
    destruct (xmin_immediate _ _ _).
    + rewrite LogicalConfirmReceivedLocation_server. cbn.
      rewrite <- app_assoc. eexists. split; [reflexivity|].
      cbn. apply confirm_events_discipline.
    + cbn. eexists. split; reflexivity.
  - rewrite LogicalIncreaseRestartDecodingForSlot_server. cbv zeta.
    destruct (restart_immediate _ _ _).
    + rewrite LogicalConfirmReceivedLocation_server. cbn.
      rewrite <- app_assoc. eexists. split; [reflexivity|].
      rewrite (spinlock_discipline_app _ _ false false);
        [apply confirm_events_discipline | reflexivity].
    + cbn. eexists. split; reflexivity.
Qed.

Lemma perform_all_history (cs : list Call) (w : Server) :
  exists events,
    history (execState (perform_all cs) w) = history w ++ events
    /\ spinlock_discipline false events = Some false.
Proof.
  revert w. induction cs as [|c rest IH]; intros w.
  - exists []. cbn. rewrite app_nil_r. auto.
  - rewrite perform_all_cons.
    destruct (perform_history c w) as (e1 & H1 & D1).
    destruct (IH (execState (perform c) w)) as (e2 & H2 & D2).
    exists (e1 ++ e2). split.
    + rewrite H2, H1, app_assoc. reflexivity.
    + rewrite (spinlock_discipline_app _ _ false false D1). exact D2.
Qed.

Lemma perform_releases (c : Call) (w : Server) :
  mutex (execState (perform c) w) = false.
Proof.
  destruct c; cbn [perform].
  - rewrite LogicalConfirmReceivedLocation_server. reflexivity.
  - rewrite LogicalIncreaseXminForSlot_server. cbv zeta.
    destruct (xmin_immediate _ _ _);
      [rewrite LogicalConfirmReceivedLocation_server|]; reflexivity.
  - rewrite LogicalIncreaseRestartDecodingForSlot_server. cbv zeta.
    destruct (restart_immediate _ _ _);
      [rewrite LogicalConfirmReceivedLocation_server|]; reflexivity.
Qed.

Lemma perform_all_releases (cs : list Call) (w : Server) :
  cs <> [] -> mutex (execState (perform_all cs) w) = false.
Proof.
  revert w. induction cs as [|c rest IH]; intros w N; [congruence|].
  rewrite perform_all_cons. destruct rest as [|c' rest'].
  - cbn. apply perform_releases.
  - apply IH. discriminate.
Qed.

(** X2. Locking discipline of the retention advancer: in any sequence of
    acknowledgements and proposals the slot's spinlock is never acquired
    while held nor released while free, the slot is never saved to disk
    with the spinlock held, [effective_catalog_xmin] is never written
    without it, and the spinlock is free when the sequence ends. *)
Theorem spinlock_discipline_kept (cs : list Call) (w : Server) :
  spinlock_discipline false (events_of (perform_all cs) w) = Some false
  /\ (cs <> [] -> mutex (execState (perform_all cs) w) = false).
Proof.
  split.
  - unfold events_of.
    destruct (perform_all_history cs w) as (events & H & D).
    rewrite H, skipn_app_exact. exact D.
  - apply perform_all_releases.
Qed.

Lemma spinlock_discipline_kept_witness :
  mutex (execState (perform_all [IncreaseXmin 100 60; Confirm 150])
           server_pending) = false.
Proof.
  apply (proj2 (spinlock_discipline_kept [IncreaseXmin 100 60; Confirm 150]
                  server_pending)).
  discriminate.
Defined.

(** ** What an acknowledgement persists *)

Lemma not_adopted_xmin (lsn : XLogRecPtr) (s : ReplicationSlot) :
  candidate_xmin_lsn s = InvalidXLogRecPtr \/ lsn < candidate_xmin_lsn s ->
  xmin_adopted lsn s = false.
Proof.
  intros [H | H].
  - unfold xmin_adopted, xlog_valid. rewrite H. reflexivity.
  - apply xmin_not_adopted_below, H.
Qed.

Lemma not_adopted_restart (lsn : XLogRecPtr) (s : ReplicationSlot) :
  candidate_restart_valid s = InvalidXLogRecPtr
  \/ lsn < candidate_restart_valid s ->
  restart_adopted lsn s = false.
Proof.
  intros [H | H].
  - unfold restart_adopted, xlog_valid. rewrite H. reflexivity.
  - apply restart_not_adopted_below, H.
Qed.

(** X3. An acknowledgement that reaches no candidate's trigger position
    only moves [confirmed_flush] in memory: the slot is neither marked
    dirty nor saved, so after a crash the slot restarts with the
    [confirmed_flush] of the state file, not with the acknowledged
    position. *)
Theorem acknowledgement_alone_is_not_persisted (lsn : XLogRecPtr) (w : Server) :
  let s := MyReplicationSlot w in
  let w' := execState (LogicalConfirmReceivedLocation lsn) w in
  candidate_xmin_lsn s = InvalidXLogRecPtr \/ lsn < candidate_xmin_lsn s ->
  candidate_restart_valid s = InvalidXLogRecPtr
  \/ lsn < candidate_restart_valid s ->
  MyReplicationSlot w' = set_data_confirmed_flush lsn s
  /\ on_disk w' = on_disk w
  /\ dirty w' = dirty w
  /\ events_of (LogicalConfirmReceivedLocation lsn) w
     = [EvSpinLockAcquire; EvSpinLockRelease]
  /\ confirmed_flush (data (RestoreSlotFromDisk (on_disk w')))
     = confirmed_flush (on_disk w).
Proof.
  intros s w' X R. subst w'.
  apply not_adopted_xmin in X. apply not_adopted_restart in R.
  rewrite LogicalConfirmReceivedLocation_events.
  rewrite LogicalConfirmReceivedLocation_server.
  fold s. unfold confirm_events, confirmed_slot. rewrite X, R. cbn.
  repeat split.
Qed.

Lemma acknowledgement_alone_is_not_persisted_witness :
  let w' := execState (LogicalConfirmReceivedLocation 140) server_pending in
  confirmed_flush (data (MyReplicationSlot w')) = 140
  /\ confirmed_flush (data (RestoreSlotFromDisk (on_disk w'))) = 100.
Proof.
  destruct (acknowledgement_alone_is_not_persisted 140 server_pending)
    as (S & _ & _ & _ & C).
  - right. reflexivity.
  - right. reflexivity.
  - split; [rewrite S | rewrite C]; reflexivity.
Defined.

(** ** Adoption *)

(** X4. Immediate adoption on the xmin track: a proposal that advances
    [catalog_xmin] and whose position the consumer has already confirmed
    ([current_lsn <= confirmed_flush], the equal case included) is adopted
    by the call itself, whatever candidate was pending: on return
    [catalog_xmin] and [effective_catalog_xmin] are the proposed xmin, the
    state file carries it, no xmin candidate is pending and
    [confirmed_flush] is as before. *)
Theorem xmin_proposal_adopted_at_once (current_lsn : XLogRecPtr)
    (xmin : TransactionId) (w : Server) :
  let s := MyReplicationSlot w in
  let w' := execState (LogicalIncreaseXminForSlot current_lsn xmin) w in
  TransactionIdPrecedesOrEquals xmin (catalog_xmin (data s)) = false ->
  TransactionIdIsValid xmin = true ->
  current_lsn <> InvalidXLogRecPtr ->
  current_lsn <= confirmed_flush (data s) ->
  catalog_xmin (data (MyReplicationSlot w')) = xmin
  /\ effective_catalog_xmin (MyReplicationSlot w') = xmin
  /\ catalog_xmin (on_disk w') = xmin
  /\ candidate_xmin_lsn (MyReplicationSlot w') = InvalidXLogRecPtr
  /\ candidate_catalog_xmin (MyReplicationSlot w') = InvalidTransactionId
  /\ confirmed_flush (data (MyReplicationSlot w')) = confirmed_flush (data s).
Proof.
  intros s w' P V N L. subst w'.
  rewrite LogicalIncreaseXminForSlot_server. fold s. cbv zeta.
  unfold xmin_immediate, xmin_recorded_slot. rewrite P.
  pose proof L as L'. apply Z.leb_le in L'. rewrite L'. cbn [negb andb].
  rewrite LogicalConfirmReceivedLocation_server.
  cbn [MyReplicationSlot on_disk].
  rewrite (xmin_adopted_candidate _ _ _ _ P V N L). cbn.
  rewrite (xmin_adopted_candidate _ _ _ _ P V N L). repeat split.
Qed.

Lemma xmin_proposal_adopted_at_once_witness :
  let w' := execState (LogicalIncreaseXminForSlot 100 60) server_pending in
  catalog_xmin (data (MyReplicationSlot w')) = 60
  /\ catalog_xmin (on_disk w') = 60.
Proof.
  destruct (xmin_proposal_adopted_at_once 100 60 server_pending)
    as (C & _ & D & _).
  - vm_compute. reflexivity.
  - vm_compute. reflexivity.
  - discriminate.
  - vm_compute. discriminate.
  - split; assumption.
Defined.

(** X5. Immediate adoption on the restart track: a proposal above the
    slot's [restart_lsn] whose position the consumer has already confirmed
    is adopted by the call itself, whatever candidate was pending: on
    return [restart_lsn] is the proposed position, in memory and in the
    state file, and no restart candidate is pending. *)
Theorem restart_proposal_adopted_at_once (current_lsn restart_lsn' : XLogRecPtr)
    (w : Server) :
  let s := MyReplicationSlot w in
  let w' := execState
              (LogicalIncreaseRestartDecodingForSlot current_lsn restart_lsn') w in
  restart_lsn (data s) < restart_lsn' ->
  current_lsn <> InvalidXLogRecPtr ->
  current_lsn <= confirmed_flush (data s) ->
  restart_lsn (data (MyReplicationSlot w')) = restart_lsn'
  /\ restart_lsn (on_disk w') = restart_lsn'
  /\ candidate_restart_valid (MyReplicationSlot w') = InvalidXLogRecPtr
  /\ candidate_restart_lsn (MyReplicationSlot w') = InvalidXLogRecPtr
  /\ confirmed_flush (data (MyReplicationSlot w')) = confirmed_flush (data s).
Proof.
  intros s w' A N L. subst w'.
  rewrite LogicalIncreaseRestartDecodingForSlot_server. fold s. cbv zeta.
  unfold restart_immediate, restart_recorded_slot, restart_immediate.
  apply Z.leb_gt in A. pose proof L as L'. apply Z.leb_le in L'.
  rewrite A, L'. cbn [negb andb].
  assert (F : (candidate_restart_valid
                 (with_restart_candidate current_lsn restart_lsn' s)
               =? InvalidXLogRecPtr) = false)
    by (cbn; apply Z.eqb_neq, N).
  rewrite F.
  rewrite LogicalConfirmReceivedLocation_server.
  cbn [MyReplicationSlot on_disk].
  rewrite (restart_adopted_candidate _ _ _ _ N L). rewrite orb_true_r. cbn.
  rewrite (restart_adopted_candidate _ _ _ _ N L). repeat split.
Qed.

Lemma restart_proposal_adopted_at_once_witness :
  let w' := execState (LogicalIncreaseRestartDecodingForSlot 100 97)
              server_pending in
  restart_lsn (data (MyReplicationSlot w')) = 97
  /\ restart_lsn (on_disk w') = 97.
Proof.
  destruct (restart_proposal_adopted_at_once 100 97 server_pending)
    as (C & D & _).
  - vm_compute. reflexivity.
  - discriminate.
  - vm_compute. discriminate.
  - split; assumption.
Defined.

Lemma confirm_each_keeps_xmin_track (lsns : list XLogRecPtr) (w : Server) :
  let s := MyReplicationSlot w in
  let s' := slot_after (confirm_each lsns) w in
  Forall (fun lsn => lsn < candidate_xmin_lsn s) lsns ->
  catalog_xmin (data s') = catalog_xmin (data s)
  /\ effective_catalog_xmin s' = effective_catalog_xmin s
  /\ candidate_catalog_xmin s' = candidate_catalog_xmin s
  /\ candidate_xmin_lsn s' = candidate_xmin_lsn s.
Proof.
  cbv zeta. unfold slot_after. revert w.
  induction lsns as [|lsn rest IH]; intros w F.
  - cbn. auto.
  - rewrite confirm_each_cons. inversion F as [|? ? Hlt Frest]; subst.
    set (w1 := execState (LogicalConfirmReceivedLocation lsn) w).
    assert (S1 : MyReplicationSlot w1 = confirmed_slot lsn (MyReplicationSlot w))
      by apply LogicalConfirmReceivedLocation_slot.
    pose proof (xmin_not_adopted_below _ _ Hlt) as N.
    specialize (IH w1). rewrite S1 in IH. cbn in IH. rewrite N in IH.
    apply IH, Frest.
Qed.

Lemma confirm_each_keeps_restart_track (lsns : list XLogRecPtr) (w : Server) :
  let s := MyReplicationSlot w in
  let s' := slot_after (confirm_each lsns) w in
  Forall (fun lsn => lsn < candidate_restart_valid s) lsns ->
  restart_lsn (data s') = restart_lsn (data s)
  /\ candidate_restart_lsn s' = candidate_restart_lsn s
  /\ candidate_restart_valid s' = candidate_restart_valid s.
Proof.
  cbv zeta. unfold slot_after. revert w.
  induction lsns as [|lsn rest IH]; intros w F.
  - cbn. auto.
  - rewrite confirm_each_cons. inversion F as [|? ? Hlt Frest]; subst.
    set (w1 := execState (LogicalConfirmReceivedLocation lsn) w).
    assert (S1 : MyReplicationSlot w1 = confirmed_slot lsn (MyReplicationSlot w))
      by apply LogicalConfirmReceivedLocation_slot.
    pose proof (restart_not_adopted_below _ _ Hlt) as N.
    specialize (IH w1). rewrite S1 in IH. cbn in IH. rewrite N in IH.
    apply IH, Frest.
Qed.

(** X6. Deferred adoption on the xmin track: when no xmin candidate is
    pending, a proposal that advances [catalog_xmin] and lies ahead of
    [confirmed_flush] is recorded, survives every acknowledgement below its
    position, and is adopted by the first acknowledgement at or past it:
    then [catalog_xmin] and [effective_catalog_xmin] are the proposed
    xmin, the state file carries it and the candidate is consumed. *)
Theorem xmin_proposal_adopted_at_trigger (current_lsn : XLogRecPtr)
    (xmin : TransactionId) (lsns : list XLogRecPtr) (p : XLogRecPtr)
    (w : Server) :
  let s := MyReplicationSlot w in
  let w' := execState (LogicalIncreaseXminForSlot current_lsn xmin ;;
                       confirm_each lsns ;;
                       LogicalConfirmReceivedLocation p) w in
  candidate_xmin_lsn s = InvalidXLogRecPtr ->
  TransactionIdPrecedesOrEquals xmin (catalog_xmin (data s)) = false ->
  TransactionIdIsValid xmin = true ->
  current_lsn <> InvalidXLogRecPtr ->
  confirmed_flush (data s) < current_lsn ->
  Forall (fun lsn => lsn < current_lsn) lsns ->
  current_lsn <= p ->
  catalog_xmin (data (MyReplicationSlot w')) = xmin
  /\ effective_catalog_xmin (MyReplicationSlot w') = xmin
  /\ catalog_xmin (on_disk w') = xmin
  /\ candidate_xmin_lsn (MyReplicationSlot w') = InvalidXLogRecPtr
  /\ confirmed_flush (data (MyReplicationSlot w')) = p.
Proof.
  intros s w' Free P V N A F L. subst w'.
  rewrite !execState_seq.
  rewrite LogicalIncreaseXminForSlot_server. fold s. cbv zeta.
  unfold xmin_immediate, xmin_recorded_slot. rewrite P.
  apply Z.leb_gt in A. rewrite A. cbn [negb andb].
  apply Z.eqb_eq in Free. rewrite Free.
  set (w1 := mkServer (with_xmin_candidate current_lsn xmin s) false (dirty w)
               (on_disk w) (history w ++ [EvSpinLockAcquire; EvSpinLockRelease])).
  destruct (confirm_each_keeps_xmin_track lsns w1 F) as (K1 & K2 & K3 & K4).
  unfold slot_after in K1, K2, K3, K4.
  set (w2 := execState (confirm_each lsns) w1) in *.
  cbn in K1, K3, K4.
  assert (Ad : xmin_adopted p (MyReplicationSlot w2) = true).
  { unfold xmin_adopted, xlog_valid. rewrite K1, K3, K4.
    apply Z.eqb_neq in N. apply Z.leb_le in L. rewrite N, L, V. cbn.
    destruct (Z.eqb_spec (catalog_xmin (data s)) xmin) as [E|]; [|reflexivity].
    rewrite <- E, TransactionIdPrecedesOrEquals_refl in P. discriminate P. }
  rewrite LogicalConfirmReceivedLocation_server. cbn. rewrite Ad. cbn.
  rewrite ?Ad, K3. repeat split.
Qed.

Lemma xmin_proposal_adopted_at_trigger_witness :
  let w' := execState (LogicalIncreaseXminForSlot 150 50 ;;
                       confirm_each [125; 140] ;;
                       LogicalConfirmReceivedLocation 150) server_idle in
  effective_catalog_xmin (MyReplicationSlot w') = 50
  /\ catalog_xmin (on_disk w') = 50.
Proof.
  destruct (xmin_proposal_adopted_at_trigger 150 50 [125; 140] 150 server_idle)
    as (_ & E & D & _).
  - reflexivity.
  - vm_compute. reflexivity.
  - vm_compute. reflexivity.
  - discriminate.
  - vm_compute. reflexivity.
  - repeat constructor.
  - vm_compute. discriminate.
  - split; assumption.
Defined.

(** X7. Deferred adoption on the restart track: when no restart candidate
    is pending, a proposal above [restart_lsn] that lies ahead of
    [confirmed_flush] is recorded, survives every acknowledgement below its
    position, and is adopted by the first acknowledgement at or past it:
    then [restart_lsn] is the proposed position, in memory and in the
    state file, and the candidate is consumed. *)
Theorem restart_proposal_adopted_at_trigger (current_lsn restart_lsn' : XLogRecPtr)
    (lsns : list XLogRecPtr) (p : XLogRecPtr) (w : Server) :
  let s := MyReplicationSlot w in
  let w' := execState
              (LogicalIncreaseRestartDecodingForSlot current_lsn restart_lsn' ;;
               confirm_each lsns ;;
               LogicalConfirmReceivedLocation p) w in
  candidate_restart_valid s = InvalidXLogRecPtr ->
  restart_lsn (data s) < restart_lsn' ->
  current_lsn <> InvalidXLogRecPtr ->
  confirmed_flush (data s) < current_lsn ->
  Forall (fun lsn => lsn < current_lsn) lsns ->
  current_lsn <= p ->
  restart_lsn (data (MyReplicationSlot w')) = restart_lsn'
  /\ restart_lsn (on_disk w') = restart_lsn'
  /\ candidate_restart_valid (MyReplicationSlot w') = InvalidXLogRecPtr
  /\ confirmed_flush (data (MyReplicationSlot w')) = p.
Proof.
  intros s w' Free A N B F L. subst w'.
  rewrite !execState_seq.
  rewrite LogicalIncreaseRestartDecodingForSlot_server. fold s. cbv zeta.
  unfold restart_recorded_slot, restart_immediate.
  apply Z.leb_gt in B. rewrite B, andb_false_r.
  apply Z.eqb_eq in Free. rewrite Free.
  set (w1 := mkServer (with_restart_candidate current_lsn restart_lsn' s) _ _ _ _).
  destruct (confirm_each_keeps_restart_track lsns w1 F) as (K1 & K2 & K3).
  unfold slot_after in K1, K2, K3.
  set (w2 := execState (confirm_each lsns) w1) in *.
  cbn in K1, K2, K3.
  assert (Ad : restart_adopted p (MyReplicationSlot w2) = true).
  { unfold restart_adopted, xlog_valid. rewrite K3.
    apply Z.eqb_neq in N. apply Z.leb_le in L. rewrite N, L. reflexivity. }
  rewrite LogicalConfirmReceivedLocation_server. cbn. rewrite Ad.
  rewrite ?orb_true_r. cbn. rewrite ?Ad, K2. repeat split.
Qed.

Lemma restart_proposal_adopted_at_trigger_witness :
  let w' := execState (LogicalIncreaseRestartDecodingForSlot 150 110 ;;
                       confirm_each [125; 140] ;;
                       LogicalConfirmReceivedLocation 160) server_idle in
  restart_lsn (data (MyReplicationSlot w')) = 110
  /\ restart_lsn (on_disk w') = 110.
Proof.
  destruct (restart_proposal_adopted_at_trigger 150 110 [125; 140] 160
              server_idle) as (R & D & _).
  - reflexivity.
  - vm_compute. reflexivity.
  - discriminate.
  - vm_compute. reflexivity.
  - repeat constructor.
  - vm_compute. discriminate.
  - split; assumption.
Defined.



(** ** The restart position *)

Lemma restart_candidate_ahead_confirmed (lsn : XLogRecPtr) (s : ReplicationSlot) :
  restart_candidate_ahead s ->
  restart_candidate_ahead (confirmed_slot lsn s)
  /\ restart_lsn (data s) <= restart_lsn (data (confirmed_slot lsn s)).
Proof.
  unfold restart_candidate_ahead, confirmed_slot. cbn. intros A.
  destruct (restart_adopted lsn s) eqn:R.
  - apply restart_adopted_trigger in R as [V _]. specialize (A V).
    split; [intros F; exfalso; apply F; reflexivity | lia].
  - split; [exact A | lia].
Qed.

Lemma restart_candidate_ahead_perform (c : Call) (w : Server) :
  restart_candidate_ahead (MyReplicationSlot w) ->
  match c with
  | IncreaseRestart _ restart_lsn' =>
      restart_lsn (data (MyReplicationSlot w)) < restart_lsn'
      \/ candidate_restart_valid (MyReplicationSlot w) <> InvalidXLogRecPtr
  | _ => True
  end ->
  restart_candidate_ahead (slot_after (perform c) w)
  /\ restart_lsn (data (MyReplicationSlot w))
     <= restart_lsn (data (slot_after (perform c) w)).
Proof.
  intros A N. set (s := MyReplicationSlot w) in *.
  destruct c; cbn [perform].
  - rewrite LogicalConfirmReceivedLocation_slot.
    apply restart_candidate_ahead_confirmed, A.
  - rewrite LogicalIncreaseXminForSlot_slot. fold s.
    unfold xmin_proposed_slot.
    destruct (TransactionIdPrecedesOrEquals _ _); [split; [exact A | lia]|].
    destruct (current_lsn <=? _).
    + apply (restart_candidate_ahead_confirmed _
               (with_xmin_candidate current_lsn xmin s)). exact A.
    + destruct (candidate_xmin_lsn s =? _); split; try exact A; cbn; lia.
  - rewrite LogicalIncreaseRestartDecodingForSlot_slot. fold s.
    unfold restart_proposed_slot. cbv zeta.
    destruct (Z.leb_spec restart_lsn' (restart_lsn (data s))) as [St|Adv];
      cbn [negb andb].
    + (* at or below restart_lsn: a candidate is pending *)
      destruct N as [N|N]; [lia|].
      apply Z.eqb_neq in N. rewrite N. split; [exact A | lia].
    + assert (W : restart_candidate_ahead
                    (with_restart_candidate current_lsn restart_lsn' s))
        by (intros _; cbn; exact Adv).
      destruct (current_lsn <=? confirmed_flush (data s)).
      * match goal with
        | |- context [confirmed_slot ?l ?x] => set (s2 := x); set (l2 := l)
        end.
        assert (A2 : restart_candidate_ahead s2
                     /\ restart_lsn (data s2) = restart_lsn (data s))
          by (subst s2; destruct (candidate_restart_valid _ =? _);
              split; try reflexivity; intros _; cbn; exact Adv).
        destruct A2 as [A2 E2].
        destruct (restart_candidate_ahead_confirmed l2 s2 A2) as [A3 L3].
        split; [exact A3 | rewrite <- E2; exact L3].
      * destruct (candidate_restart_valid s =? _);
          split; try exact A; try exact W; cbn; lia.
Qed.

(** X9. The restart position only moves forward unless a proposal at or
    below it finds the candidate slot free: along any sequence of
    acknowledgements and proposals in which every restart proposal is
    above the slot's [restart_lsn], or meets a pending restart candidate,
    [restart_lsn] is non-decreasing from call to call.  The sequence
    starts from a slot whose pending restart candidate, if any, lies above
    [restart_lsn]. *)
Theorem restart_lsn_is_monotone (cs : list Call) (w : Server) :
  restart_candidate_ahead (MyReplicationSlot w) ->
  no_stale_restart_proposal cs w ->
  Sorted Z.le
    (map (fun s => restart_lsn (data s)) (MyReplicationSlot w :: observe cs w)).
Proof.
  revert w. induction cs as [|c rest IH]; intros w A N.
  - repeat constructor.
  - cbn [observe map]. destruct N as [N1 N2].
    destruct (restart_candidate_ahead_perform c w A N1) as [A1 L1].
    constructor.
    + apply (IH (execState (perform c) w)); assumption.
    + constructor. exact L1.
Qed.

Lemma restart_lsn_is_monotone_witness :
  Sorted Z.le
    (map (fun s => restart_lsn (data s))
       (MyReplicationSlot server_idle
        :: observe [IncreaseRestart 150 110; Confirm 130; IncreaseRestart 160 95;
                    Confirm 150; IncreaseRestart 140 120] server_idle)).
Proof.
  apply restart_lsn_is_monotone.
  - intros V. exfalso. apply V. reflexivity.
  - repeat split;
      try (left; vm_compute; reflexivity);
      try (right; vm_compute; discriminate).
Defined.

(** ** Writing from a callback *)

Ltac run_write :=
  unfold OutputPluginPrepareWrite, OutputPluginWrite, set_prepared_write in *;
  run_exec.

(** X10. The write primitives refuse to work out of turn, and then touch
    nothing: [OutputPluginPrepareWrite] while [accept_writes] is off and
    [OutputPluginWrite] without a prepared write raise an error, leave the
    backend state as it is and do not call the consumer's routine; and
    since a completed [OutputPluginWrite] clears [prepared_write], a second
    [OutputPluginWrite] right after it never returns normally. *)
Theorem write_out_of_turn (prepare_write write write' : LogicalOutputPluginWriter)
    (last_write last_write' : bool) (st : Backend) :
  (accept_writes st = false ->
   runExec (OutputPluginPrepareWrite prepare_write last_write) st
   = (Raised (mkError ERRCODE_INTERNAL_ERROR
                "writes are only accepted in commit, begin and change callbacks"
                (error_context_stack st)), st))
  /\ (prepared_write st = false ->
      runExec (OutputPluginWrite write last_write) st
      = (Raised (mkError ERRCODE_INTERNAL_ERROR
                   "OutputPluginPrepareWrite needs to be called before OutputPluginWrite"
                   (error_context_stack st)), st))
  /\ (forall r st',
        runExec (OutputPluginWrite write last_write ;;
                 OutputPluginWrite write' last_write') st
        <> (Returned r, st')).
Proof.
  repeat split.
  - intros A. run_write. rewrite A. reflexivity.
  - intros P. run_write. rewrite P. reflexivity.
  - intros r st'. run_write.
    destruct (prepared_write st); cbn; [|discriminate].
    destruct (runExec (write (write_location st) (write_xid st) last_write) st)
      as [[[]|e|] st2]; cbn; discriminate.
Qed.

Lemma write_out_of_turn_witness :
  runExec (OutputPluginPrepareWrite null_writer true) idle_backend
  = (Raised (mkError ERRCODE_INTERNAL_ERROR
               "writes are only accepted in commit, begin and change callbacks"
               []), idle_backend).
Proof.
  apply (proj1 (write_out_of_turn null_writer null_writer null_writer
                  true true idle_backend)).
  reflexivity.
Defined.

(** X11. The write protocol in turn: while [accept_writes] is on, a
    prepare followed by a write, with consumer routines that return,
    returns, and leaves no write prepared. *)
Theorem prepare_then_write (prepare_write write : LogicalOutputPluginWriter)
    (last_write : bool) (st : Backend) :
  accept_writes st = true ->
  writer_returns prepare_write ->
  writer_returns write ->
  exists st',
    runExec (OutputPluginPrepareWrite prepare_write last_write ;;
             OutputPluginWrite write last_write) st = (Returned tt, st')
    /\ prepared_write st' = false.
Proof.
  intros A P W. run_write. rewrite A. cbn.
  destruct (P (write_location st) (write_xid st) last_write st)
    as ([] & st1 & E1).
  rewrite E1. cbn.
  match goal with
  | |- context [runExec (write ?l ?x ?b) ?s] =>
      destruct (W l x b s) as ([] & st2 & E2); rewrite E2
  end.
  cbn. eexists. split; reflexivity.
Qed.

Lemma prepare_then_write_witness :
  exists st',
    runExec (OutputPluginPrepareWrite null_writer true ;;
             OutputPluginWrite null_writer true)
      (at_callback (mkFrame "begin" 1000) (Some (700, 1000)) idle_backend)
    = (Returned tt, st')
    /\ prepared_write st' = false.
Proof.
  apply prepare_then_write.
  - reflexivity.
  - intros l x b st. exists tt, st. reflexivity.
  - intros l x b st. exists tt, st. reflexivity.
Defined.

(** X12. The write window of a dispatch: a begin, change, commit or
    message callback that prepares a write is not refused, and the
    consumer's routine is called with the position and the xid of the
    dispatch: [first_lsn] for begin, the change's lsn for change,
    [end_lsn] for commit (while the error context names [final_lsn]), the
    message's lsn for message, under the transaction's xid or, for a
    message outside any transaction, [InvalidTransactionId]. *)
Theorem write_window_of_dispatch (prepare_write : LogicalOutputPluginWriter)
    (last_write : bool) (callbacks : OutputPluginCallbacks)
    (txn : ReorderBufferTXN) (relation : Relation)
    (change : ReorderBufferChange) (commit_lsn : XLogRecPtr)
    (mtxn : option ReorderBufferTXN) (message_lsn : XLogRecPtr)
    (transactional : bool) (prefix : string) (size : Z) (msg : string)
    (st : Backend) :
  let written location x :=
    prepare_write location x last_write ;;
    set_prepared_write true ;;
    set_error_context_stack (error_context_stack st) in
  (begin_cb callbacks
   = Some (fun _ => OutputPluginPrepareWrite prepare_write last_write) ->
   runExec (begin_cb_wrapper callbacks txn) st
   = runExec (written (first_lsn txn) (xid txn))
       (at_callback (mkFrame "begin" (first_lsn txn))
          (Some (xid txn, first_lsn txn)) st))
  /\ (change_cb callbacks
      = Some (fun _ _ _ => OutputPluginPrepareWrite prepare_write last_write) ->
      runExec (change_cb_wrapper callbacks txn relation change) st
      = runExec (written (change_lsn change) (xid txn))
          (at_callback (mkFrame "change" (change_lsn change))
             (Some (xid txn, change_lsn change)) st))
  /\ (commit_cb callbacks
      = Some (fun _ _ => OutputPluginPrepareWrite prepare_write last_write) ->
      runExec (commit_cb_wrapper callbacks txn commit_lsn) st
      = runExec (written (end_lsn txn) (xid txn))
          (at_callback (mkFrame "commit" (final_lsn txn))
             (Some (xid txn, end_lsn txn)) st))
  /\ (message_cb callbacks
      = Some (fun _ _ _ _ _ _ =>
                OutputPluginPrepareWrite prepare_write last_write) ->
      runExec (message_cb_wrapper callbacks mtxn message_lsn transactional
                 prefix size msg) st
      = runExec (written message_lsn (message_xid mtxn))
          (at_callback (mkFrame "message" message_lsn)
             (Some (message_xid mtxn, message_lsn)) st)).
Proof.
  intros written. subst written. unfold at_callback, message_xid.
  repeat split; intros C; run_write; rewrite C; cbn;
    match goal with
    | |- context [runExec (prepare_write ?l ?x ?b) ?s] =>
        destruct (runExec (prepare_write l x b) s) as [[[]|e|] st2]
    end; reflexivity.
Qed.

Lemma write_window_of_dispatch_witness :
  fst (runExec (commit_cb_wrapper
                  (mkCallbacks None None None
                     (Some (fun _ _ => OutputPluginPrepareWrite null_writer true))
                     None None None)
                  sample_txn 1200) idle_backend)
  = Returned tt.
Proof.
  rewrite (proj1 (proj2 (proj2
             (write_window_of_dispatch null_writer true
                (mkCallbacks None None None
                   (Some (fun _ _ => OutputPluginPrepareWrite null_writer true))
                   None None None)
                sample_txn 0 (mkChange 0) 1200 None 0 false EmptyString 0
                EmptyString idle_backend))) eq_refl).
  reflexivity.
Defined.

(** X13. No write window for startup, shutdown and filter-by-origin: a
    callback of these kinds that prepares a write is refused, whatever
    [accept_writes] was before the dispatch and whatever the callback would
    do next; the error carries the frame of the dispatch and the
    consumer's routine is not called. *)
Theorem no_write_window (prepare_write : LogicalOutputPluginWriter)
    (last_write : bool) (next : Exec unit) (next_answer : Exec bool)
    (callbacks : OutputPluginCallbacks)
    (opt : OutputPluginOptions) (is_init : bool) (origin_id : RepOriginId)
    (st : Backend) :
  (startup_cb callbacks
   = Some (fun _ _ =>
             OutputPluginPrepareWrite prepare_write last_write ;; next) ->
   runExec (startup_cb_wrapper callbacks opt is_init) st
   = write_refused (mkFrame "startup" InvalidXLogRecPtr) st)
  /\ (shutdown_cb callbacks
      = Some (OutputPluginPrepareWrite prepare_write last_write ;; next) ->
      runExec (shutdown_cb_wrapper callbacks) st
      = write_refused (mkFrame "shutdown" InvalidXLogRecPtr) st)
  /\ (filter_by_origin_cb callbacks
      = Some (fun _ =>
                OutputPluginPrepareWrite prepare_write last_write ;;
                next_answer) ->
      runExec (filter_by_origin_cb_wrapper callbacks origin_id) st
      = write_refused (mkFrame "filter_by_origin" InvalidXLogRecPtr) st).
Proof.
  unfold write_refused, at_callback.
  split; [|split]; intros C; run_write; rewrite C; reflexivity.
Qed.

Lemma no_write_window_witness :
  runExec (startup_cb_wrapper (writing_plugin null_writer null_writer) 0 false)
    (at_callback (mkFrame "begin" 1000) (Some (700, 1000)) idle_backend)
  = write_refused (mkFrame "startup" InvalidXLogRecPtr)
      (at_callback (mkFrame "begin" 1000) (Some (700, 1000)) idle_backend).
Proof.
  apply (proj1 (no_write_window null_writer true
                  (OutputPluginWrite null_writer true)
                  (OutputPluginWrite null_writer true ;; ret true)
                  (writing_plugin null_writer null_writer) 0 false 0
                  (at_callback (mkFrame "begin" 1000) (Some (700, 1000))
                     idle_backend))).
  reflexivity.
Defined.

Ltac solve_accept K :=
  let st := fresh "st" in
  let r := fresh "r" in
  let st' := fresh "st'" in
  let H := fresh "H" in
  intros st r st' H; run_exec;
  match type of H with
  | context [match ?p with Some _ => _ | None => _ end] =>
      let f := fresh "f" in
      let C := fresh "C" in
      destruct p as [f|] eqn:C; cbn in H; [|discriminate H];
      specialize (K f eq_refl)
  end;
  match type of H with
  | context [runExec ?c ?s] =>
      let E := fresh "E" in
      let a := fresh "a" in
      let st2 := fresh "st2" in
      pose proof (K s) as KS;
      destruct (runExec c s) as [[a|?|] st2] eqn:E; cbn in H, KS;
      try discriminate H; inversion H; subst; cbn; exact KS
  end.

(** X14. What a dispatch leaves behind: the wrappers set [accept_writes]
    before the callback and never reset it.  After a begin, change, commit
    or message dispatch has returned, [accept_writes] is still on, the
    write window stays open until the next startup, shutdown or
    filter-by-origin dispatch, after which it is off.  (For a plugin whose
    callbacks do not change [accept_writes] themselves.) *)
Theorem write_window_after_dispatch (callbacks : OutputPluginCallbacks)
    (opt : OutputPluginOptions) (is_init : bool) (txn : ReorderBufferTXN)
    (relation : Relation) (change : ReorderBufferChange)
    (commit_lsn : XLogRecPtr) (mtxn : option ReorderBufferTXN)
    (message_lsn : XLogRecPtr) (transactional : bool) (prefix : string)
    (size : Z) (msg : string) (origin_id : RepOriginId) :
  callbacks_keep_accept_writes callbacks ->
  leaves_accept_writes (begin_cb_wrapper callbacks txn) true
  /\ leaves_accept_writes (change_cb_wrapper callbacks txn relation change) true
  /\ leaves_accept_writes (commit_cb_wrapper callbacks txn commit_lsn) true
  /\ (message_cb callbacks <> None ->
      leaves_accept_writes
        (message_cb_wrapper callbacks mtxn message_lsn transactional prefix
           size msg) true)
  /\ leaves_accept_writes (startup_cb_wrapper callbacks opt is_init) false
  /\ leaves_accept_writes (shutdown_cb_wrapper callbacks) false
  /\ leaves_accept_writes (filter_by_origin_cb_wrapper callbacks origin_id) false.
Proof.
  intros (K1 & K2 & K3 & K4 & K5 & K6 & K7).
  split; [|split; [|split; [|split; [|split; [|split]]]]].
  - assert (K : forall f, begin_cb callbacks = Some f ->
                          keeps_accept_writes (f txn))
      by (intros f C; apply (K3 f C)).
    solve_accept K.
  - assert (K : forall f, change_cb callbacks = Some f ->
                          keeps_accept_writes (f txn relation change))
      by (intros f C; apply (K4 f C)).
    solve_accept K.
  - assert (K : forall f, commit_cb callbacks = Some f ->
                          keeps_accept_writes (f txn commit_lsn))
      by (intros f C; apply (K5 f C)).
    solve_accept K.
  - intros N.
    assert (K : forall f, message_cb callbacks = Some f ->
                          keeps_accept_writes
                            (f mtxn message_lsn transactional prefix size msg))
      by (intros f C; apply (K6 f C)).
    destruct (message_cb callbacks) as [f|] eqn:C; [|congruence].
    intros st r st' H. unfold message_cb_wrapper in H. rewrite C in H.
    run_exec. specialize (K f eq_refl).
    match type of H with
    | context [runExec ?c ?s] =>
        pose proof (K s) as KS;
        destruct (runExec c s) as [[a|?|] st2] eqn:E; cbn in H, KS;
        try discriminate H; inversion H; subst; cbn; exact KS
    end.
  - assert (K : forall f, startup_cb callbacks = Some f ->
                          keeps_accept_writes (f opt is_init))
      by (intros f C; apply (K1 f C)).
    solve_accept K.
  - solve_accept K2.
  - assert (K : forall f, filter_by_origin_cb callbacks = Some f ->
                          keeps_accept_writes (f origin_id))
      by (intros f C; apply (K7 f C)).
    solve_accept K.
Qed.

Lemma minimal_plugin_keeps_accept_writes :
  callbacks_keep_accept_writes minimal_plugin.
Proof.
  unfold callbacks_keep_accept_writes, minimal_plugin. cbn.
  repeat split; intros f C; inversion C; subst; intros; intro st; reflexivity.
Qed.

Lemma write_window_after_dispatch_witness :
  leaves_accept_writes (commit_cb_wrapper minimal_plugin sample_txn 1200) true.
Proof.
  apply (write_window_after_dispatch minimal_plugin 0 false sample_txn 0
           (mkChange 0) 1200 None 0 false EmptyString 0 EmptyString 0
           minimal_plugin_keeps_accept_writes).
Defined.

(** X15. An error reported by a callback is attributed to its dispatch:
    the error that leaves the wrapper carries, innermost, the frame of the
    dispatch, with the name of the callback and the position the wrapper
    reports for it (none for startup, shutdown and filter-by-origin), in
    front of the context that was there before. *)
Theorem callback_error_context (code : ErrCode) (text : string)
    (callbacks : OutputPluginCallbacks)
    (opt : OutputPluginOptions) (is_init : bool) (txn : ReorderBufferTXN)
    (relation : Relation) (change : ReorderBufferChange)
    (commit_lsn : XLogRecPtr) (mtxn : option ReorderBufferTXN)
    (message_lsn : XLogRecPtr) (transactional : bool) (prefix : string)
    (size : Z) (msg : string) (origin_id : RepOriginId) (st : Backend) :
  let reported (A : Type) name location : Outcome A :=
    Raised (mkError code text (mkFrame name location :: error_context_stack st)) in
  (startup_cb callbacks = Some (fun _ _ => ereport_ERROR code text) ->
   fst (runExec (startup_cb_wrapper callbacks opt is_init) st)
   = reported unit "startup"%string InvalidXLogRecPtr)
  /\ (shutdown_cb callbacks = Some (ereport_ERROR code text) ->
      fst (runExec (shutdown_cb_wrapper callbacks) st)
      = reported unit "shutdown"%string InvalidXLogRecPtr)
  /\ (begin_cb callbacks = Some (fun _ => ereport_ERROR code text) ->
      fst (runExec (begin_cb_wrapper callbacks txn) st)
      = reported unit "begin"%string (first_lsn txn))
  /\ (change_cb callbacks = Some (fun _ _ _ => ereport_ERROR code text) ->
      fst (runExec (change_cb_wrapper callbacks txn relation change) st)
      = reported unit "change"%string (change_lsn change))
  /\ (commit_cb callbacks = Some (fun _ _ => ereport_ERROR code text) ->
      fst (runExec (commit_cb_wrapper callbacks txn commit_lsn) st)
      = reported unit "commit"%string (final_lsn txn))
  /\ (message_cb callbacks
      = Some (fun _ _ _ _ _ _ => ereport_ERROR code text) ->
      fst (runExec (message_cb_wrapper callbacks mtxn message_lsn
                      transactional prefix size msg) st)
      = reported unit "message"%string message_lsn)
  /\ (filter_by_origin_cb callbacks = Some (fun _ => ereport_ERROR code text) ->
      fst (runExec (filter_by_origin_cb_wrapper callbacks origin_id) st)
      = reported bool "filter_by_origin"%string InvalidXLogRecPtr).
Proof.
  intros reported. subst reported.
  split; [|split; [|split; [|split; [|split; [|split]]]]];
    intros C; run_exec; rewrite C; reflexivity.
Qed.

Lemma callback_error_context_witness :
  fst (runExec (begin_cb_wrapper failing_plugin sample_txn) idle_backend)
  = Raised (mkError (ERRCODE_PLUGIN 1) "begin failed" [mkFrame "begin" 1000]).
Proof.
  apply (proj1 (proj2 (proj2
           (callback_error_context (ERRCODE_PLUGIN 1) "begin failed"
              failing_plugin 0 false sample_txn 0 (mkChange 0) 0 None 0 false
              EmptyString 0 EmptyString 0 idle_backend)))).
  reflexivity.
Defined.

(** ** Refusals of [CreateDecodingContext] *)



(** ** Resuming and recovery conflicts *)

Lemma int32_diff_neg (a b : TransactionId) :
  int32_diff a b <> - 2 ^ 31 -> int32_diff b a = - int32_diff a b.
Proof.
  unfold int32_diff. intros H.
  assert (P : 0 < 2 ^ 32) by reflexivity.
  assert (P2 : 2 ^ 32 = 2 * 2 ^ 31) by reflexivity.
  pose proof (Z.div_mod (a - b + 2 ^ 31) (2 ^ 32) ltac:(lia)) as D.
  pose proof (Z.mod_pos_bound (a - b + 2 ^ 31) (2 ^ 32) P) as B.
  set (q := (a - b + 2 ^ 31) / 2 ^ 32) in *.
  set (r := (a - b + 2 ^ 31) mod 2 ^ 32) in *.
  assert (M : (b - a + 2 ^ 31) mod 2 ^ 32 = 2 ^ 32 - r).
  { symmetry. apply (Z.mod_unique _ _ (- q)); lia. }
  rewrite M. lia.
Qed.

(** X17. The check at resume and the conflict test of recovery agree.  If
    [EnsureActiveLogicalSlotValid] accepts a slot against the threshold
    [oldestCatalogXmin], the guard of
    [ResolveRecoveryConflictWithLogicalDecoding] finds no conflict for
    that slot and that threshold, provided the two ids are not exactly
    half the id space apart; and if it refuses an in-use, active slot
    with a valid xmin, the guard does find a conflict.  The slot enforces
    its [catalog_xmin] ([effective_catalog_xmin = catalog_xmin]). *)
Theorem resume_check_agrees_with_conflict (inst : Installation)
    (slot : ReplicationSlot) (in_use : bool) (active_pid : Z) (st : Backend) :
  effective_catalog_xmin slot = catalog_xmin (data slot) ->
  (fst (runExec (EnsureActiveLogicalSlotValid inst slot) st) = Returned tt ->
   int32_diff (oldestCatalogXmin inst) (catalog_xmin (data slot)) <> - 2 ^ 31 ->
   recovery_conflict in_use active_pid slot (oldestCatalogXmin inst) = false)
  /\ (fst (runExec (EnsureActiveLogicalSlotValid inst slot) st) <> Returned tt ->
      in_use = true -> active_pid <> 0 ->
      TransactionIdIsValid (catalog_xmin (data slot)) = true ->
      recovery_conflict in_use active_pid slot (oldestCatalogXmin inst) = true).
Proof.
  intros E. unfold EnsureActiveLogicalSlotValid, recovery_conflict.
  rewrite E. set (T := oldestCatalogXmin inst).
  set (cx := catalog_xmin (data slot)).
  unfold TransactionIdFollows, TransactionIdPrecedes.
  rewrite (orb_comm (negb (TransactionIdIsNormal cx))).
  split.
  - destruct (TransactionIdIsValid T); cbn; [|discriminate].
    destruct (negb (TransactionIdIsNormal T) || negb (TransactionIdIsNormal cx)).
    + destruct (Z.ltb_spec cx T); cbn; [discriminate|].
      intros _ _. rewrite !andb_false_r. reflexivity.
    + destruct (Z.ltb_spec 0 (int32_diff T cx)); cbn; [discriminate|].
      intros _ N. rewrite (int32_diff_neg T cx N).
      destruct (Z.ltb_spec (- int32_diff T cx) 0); [lia|].
      rewrite !andb_false_r. reflexivity.
  - intros R U A V. rewrite U, V. apply Z.eqb_neq in A. rewrite A. cbn.
    destruct (TransactionIdIsValid T); cbn; [|reflexivity].
    cbn in R.
    destruct (negb (TransactionIdIsNormal T) || negb (TransactionIdIsNormal cx)).
    + destruct (Z.ltb_spec cx T); cbn in *; [reflexivity | congruence].
    + destruct (Z.ltb_spec 0 (int32_diff T cx)); cbn in *; [|congruence].
      apply Z.ltb_lt. apply int32_diff_antisym. assumption.
Qed.

Lemma resume_check_agrees_with_conflict_witness :
  recovery_conflict true 4711 (MyReplicationSlot server_pending) 30 = false
  /\ recovery_conflict true 4711 exhausted_slot 210 = true.
Proof.
  split.
  - apply (proj1 (resume_check_agrees_with_conflict sample_installation
                    (MyReplicationSlot server_pending) true 4711 idle_backend
                    eq_refl)).
    + reflexivity.
    + vm_compute. discriminate.
  - apply (proj2 (resume_check_agrees_with_conflict advanced_installation
                    exhausted_slot true 4711 idle_backend eq_refl)).
    + vm_compute. discriminate.
    + reflexivity.
    + discriminate.
    + reflexivity.
Defined.

(** The two checks part when the ids are half the id space apart: such a
    slot is accepted at resume and in conflict at once. *)
Example half_range_is_accepted_and_in_conflict :
  let slot := mkSlot (mkData 1 "test_decoding" 100 90 100) 100 0 0 0 0 in
  let inst := mkInstallation 1 (100 + 2 ^ 31) (fun _ => None) true false in
  fst (runExec (EnsureActiveLogicalSlotValid inst slot) idle_backend)
  = Returned tt
  /\ recovery_conflict true 4711 slot (oldestCatalogXmin inst) = true.
Proof. vm_compute. split; reflexivity. Qed.

(** ** Creating the first decoding context of a slot *)

Ltac run_run :=
  unfold on_shared, on_backend, external, fail, SpinLockAcquire,
    SpinLockRelease, ReplicationSlotMarkDirty, ReplicationSlotSave,
    ReplicationSlotsComputeRequiredXmin, emit, slot_read, slot_write in *;
  run_exec.

(** X18. [CreateInitDecodingContext] refuses, without touching the slot,
    its state file or the backend: a missing slot, a missing plugin name,
    a physical slot, a slot of another database (the message names the
    slot in double quotes, [slot_not_created_in_this_database]), and a
    transaction that has already written. *)
Theorem CreateInitDecodingContext_refusals (inst : Installation)
    (env : InitEnvironment) (plugin_name : option string) (name : string)
    (p : Process) :
  let slot := MyReplicationSlot (shared p) in
  let stack := error_context_stack (backend p) in
  runRun (CreateInitDecodingContext inst env false plugin_name) p
  = (Failed (Reported (mkError ERRCODE_INTERNAL_ERROR
               "cannot perform logical decoding without an acquired slot"
               stack)), p)
  /\ runRun (CreateInitDecodingContext inst env true None) p
     = (Failed (Reported (mkError ERRCODE_INTERNAL_ERROR
                  "cannot initialize logical decoding without a specified plugin"
                  stack)), p)
  /\ (SlotIsPhysical slot = true ->
      runRun (CreateInitDecodingContext inst env true (Some name)) p
      = (Failed (Reported (mkError ERRCODE_OBJECT_NOT_IN_PREREQUISITE_STATE
                   "cannot use physical replication slot for logical decoding"
                   stack)), p))
  /\ (SlotIsPhysical slot = false ->
      database (data slot) <> MyDatabaseId inst ->
      runRun (CreateInitDecodingContext inst env true (Some name)) p
      = (Failed (Reported (mkError ERRCODE_OBJECT_NOT_IN_PREREQUISITE_STATE
                   slot_not_created_in_this_database
                   stack)), p))
  /\ (SlotIsPhysical slot = false ->
      database (data slot) = MyDatabaseId inst ->
      IsTransactionState env = true ->
      GetTopTransactionIdIfAny env <> InvalidTransactionId ->
      runRun (CreateInitDecodingContext inst env true (Some name)) p
      = (Failed (ReportedActiveSqlTransaction
                   "cannot create logical replication slot in transaction that has performed writes"),
         p)).
Proof.
  destruct p as [w st calls]. cbv zeta. cbn [shared backend].
  split; [reflexivity|]. split; [reflexivity|].
  split; [|split].
  - intros P. unfold CreateInitDecodingContext. run_run. rewrite P.
    reflexivity.
  - intros P D. apply Z.eqb_neq in D.
    unfold CreateInitDecodingContext. run_run. rewrite P. cbn. rewrite D.
    reflexivity.
  - intros P D T X. apply Z.eqb_neq in X.
    unfold CreateInitDecodingContext. run_run. rewrite P. cbn.
    rewrite D, Z.eqb_refl. cbn. rewrite T, X. reflexivity.
Qed.

Lemma CreateInitDecodingContext_refusals_witness :
  runRun (CreateInitDecodingContext sample_installation
            (mkInitEnvironment true 812 (fun s => s) 45 false) true
            (Some "test_decoding"%string)) (idle_process server_idle)
  = (Failed (ReportedActiveSqlTransaction
               "cannot create logical replication slot in transaction that has performed writes"),
     idle_process server_idle).
Proof.
  destruct (CreateInitDecodingContext_refusals sample_installation
              (mkInitEnvironment true 812 (fun s => s) 45 false) None
              "test_decoding" (idle_process server_idle))
    as (_ & _ & _ & _ & R).
  apply R.
  - reflexivity.
  - reflexivity.
  - reflexivity.
  - discriminate.
Defined.

Ltac split_run H :=
  repeat (cbn in H;
          match type of H with
          | context [match ?o with Some _ => _ | None => _ end] =>
              destruct o eqn:?; try discriminate H
          | context [if ?b then _ else _] =>
              destruct b eqn:?; try discriminate H
          | context [runExec ?c ?s] =>
              destruct (runExec c s) as [[[]|?|] ?] eqn:?; try discriminate H
          end).

(** X19. What a created context stands on: whenever
    [CreateInitDecodingContext] returns, the slot enforces the oldest xid
    that is safe to decode from ([catalog_xmin] and
    [effective_catalog_xmin] are the answer of
    [GetOldestSafeDecodingTransactionId]), the slot has been saved with
    that xmin and with the plugin's name, cut to [NAMEDATALEN - 1]
    characters (when reserving WAL leaves the name alone), and the
    snapshot builder of the context starts from the
    same xmin horizon, at no particular position. *)
Theorem CreateInitDecodingContext_publishes (inst : Installation)
    (env : InitEnvironment) (acquired : bool) (plugin_name : option string)
    (p p' : Process) (ctx : LogicalDecodingContext) :
  runRun (CreateInitDecodingContext inst env acquired plugin_name) p
  = (Done ctx, p') ->
  let s' := MyReplicationSlot (shared p') in
  catalog_xmin (data s') = GetOldestSafeDecodingTransactionId env
  /\ effective_catalog_xmin s' = GetOldestSafeDecodingTransactionId env
  /\ on_disk (shared p') = data s'
  /\ (exists name,
        plugin_name = Some name
        /\ ((forall s, plugin (data (reserved env s)) = plugin (data s)) ->
            plugin (data s') = StrNCpy name NAMEDATALEN))
  /\ ctx_slot ctx = s'
  /\ builder_xmin_horizon (ctx_snapshot_builder ctx)
     = GetOldestSafeDecodingTransactionId env
  /\ builder_start_lsn (ctx_snapshot_builder ctx) = InvalidXLogRecPtr.
Proof.
  destruct p as [[s mx dt dk h] st calls]. intros H.
  unfold CreateInitDecodingContext, StartupDecodingContext, LoadOutputPlugin,
    startup_cb_wrapper in H.
  destruct acquired; [|discriminate H].
  destruct plugin_name as [name|]; [|discriminate H].
  run_run. split_run H;
    inversion H; subst; cbn; repeat split; try reflexivity;
    (exists name; split; [reflexivity | intros R; rewrite R; reflexivity]).
Qed.

Lemma CreateInitDecodingContext_publishes_witness :
  exists ctx p',
    runRun (CreateInitDecodingContext sample_installation sample_environment
              true (Some "test_decoding"%string)) (idle_process server_idle)
    = (Done ctx, p')
    /\ effective_catalog_xmin (MyReplicationSlot (shared p')) = 45
    /\ catalog_xmin (on_disk (shared p')) = 45.
Proof.
  destruct (runRun (CreateInitDecodingContext sample_installation
                      sample_environment true (Some "test_decoding"%string))
              (idle_process server_idle)) as [[ctx| |] p'] eqn:E;
    try (vm_compute in E; discriminate E).
  exists ctx, p'. split; [reflexivity|].
  destruct (CreateInitDecodingContext_publishes _ _ _ _ _ _ _ E)
    as (C & F & D & _).
  split; [exact F | rewrite D; exact C].
Defined.




(** ** Finding the start point *)

Lemma execState_processed_app (records : list WalRecord) (r : WalRecord)
    (w : Server) :
  execState (processed (records ++ [r])) w
  = execState (processing r) (execState (processed records) w).
Proof.
  revert w. induction records as [|x rest IH]; intros w.
  - cbn [app processed]. rewrite execState_seq. reflexivity.
  - cbn [app processed]. rewrite !execState_seq. apply IH.
Qed.

Lemma find_startpoint_loop_found (before : list WalRecord) (r : WalRecord)
    (rest : list ReadResult) (startptr : XLogRecPtr) (p : Process) :
  Forall passes before ->
  consistent_after r = true ->
  runRun (find_startpoint_loop (map read_ok before ++ read_ok r :: rest)
            startptr) p
  = (Done (Some (EndRecPtr r)),
     mkProcess (execState (processed (before ++ [r])) (shared p)) (backend p)
       (external_calls p ++ reading startptr (before ++ [r]))).
Proof.
  intros F C. revert startptr p.
  induction before as [|x before IH]; intros startptr p.
  - cbn [map app find_startpoint_loop read_ok read_err read_record].
    rewrite C. destruct p as [w st calls].
    unfold external, on_shared. cbn.
    destruct (runState (processing r) w) as [[] w'] eqn:E. cbn.
    unfold execState. cbn. rewrite E. cbn.
    destruct (runState _ w). rewrite <- app_assoc. reflexivity.
  - inversion F as [|? ? [P1 P2] F']; subst.
    cbn [map app find_startpoint_loop read_ok read_err read_record].
    rewrite P1, P2. destruct p as [w st calls].
    unfold external, on_shared. cbn.
    destruct (runState (processing x) w) as [[] w'] eqn:E. cbn.
    specialize (IH F' InvalidXLogRecPtr
                  (mkProcess w' st
                     ((calls ++ [CallXLogReadRecord startptr])
                      ++ [CallLogicalDecodingProcessRecord (EndRecPtr x)]))).
    unfold external, on_shared in IH. rewrite IH. cbn.
    unfold execState. cbn. rewrite E. cbn. rewrite <- !app_assoc.
    reflexivity.
Qed.

Lemma find_startpoint_loop_passes (before : list WalRecord)
    (tail : list ReadResult) (startptr : XLogRecPtr) (p : Process) :
  Forall passes before ->
  runRun (find_startpoint_loop (map read_ok before ++ tail) startptr) p
  = runRun (find_startpoint_loop tail (next_startptr startptr before))
      (mkProcess (execState (processed before) (shared p)) (backend p)
         (external_calls p ++ reading startptr before)).
Proof.
  intros F. revert startptr p.
  induction before as [|x before IH]; intros startptr p.
  - destruct p as [w st calls]. cbn. rewrite app_nil_r. reflexivity.
  - inversion F as [|? ? [P1 P2] F']; subst.
    cbn [map app find_startpoint_loop read_ok read_err read_record].
    rewrite P1, P2. destruct p as [w st calls].
    unfold external, on_shared. cbn.
    destruct (runState (processing x) w) as [[] w'] eqn:E. cbn.
    specialize (IH F' InvalidXLogRecPtr
                  (mkProcess w' st
                     ((calls ++ [CallXLogReadRecord startptr])
                      ++ [CallLogicalDecodingProcessRecord (EndRecPtr x)]))).
    rewrite IH. cbn [shared backend external_calls].
    assert (N : next_startptr InvalidXLogRecPtr before = InvalidXLogRecPtr)
      by (destruct before; reflexivity).
    rewrite N. unfold execState. cbn. rewrite E. cbn.
    rewrite <- !app_assoc. reflexivity.
Qed.

(** X21. [DecodingContextFindStartpoint] reads on until the snapshot
    builder is consistent: when the records [before] pass and the record
    [r] completes the snapshot, the call returns with [confirmed_flush]
    set to the position the reader stands at after [r]; the first read is
    asked at the slot's [restart_lsn], every later one at the invalid
    position, nothing after [r] is read, and [confirmed_flush] is set
    without taking the spinlock, marking the slot dirty or saving it. *)
Theorem find_startpoint_reaches_consistency (before : list WalRecord)
    (r : WalRecord) (rest : list ReadResult) (p : Process) :
  Forall passes before ->
  consistent_after r = true ->
  let run := runRun (DecodingContextFindStartpoint
                       (map read_ok before ++ read_ok r :: rest)) p in
  let w := execState (processed (before ++ [r])) (shared p) in
  fst run = Done ReachedConsistency
  /\ confirmed_flush (data (MyReplicationSlot (shared (snd run)))) = EndRecPtr r
  /\ shared (snd run)
     = mkServer (set_data_confirmed_flush (EndRecPtr r) (MyReplicationSlot w))
         (mutex w) (dirty w) (on_disk w) (history w)
  /\ external_calls (snd run)
     = external_calls p
       ++ reading (restart_lsn (data (MyReplicationSlot (shared p))))
            (before ++ [r])
  /\ backend (snd run) = searching (backend p).
Proof.
  intros F C run w. subst run w.
  destruct p as [w st calls].
  assert (E :
    runRun (DecodingContextFindStartpoint
              (map read_ok before ++ read_ok r :: rest)) (mkProcess w st calls)
    = (Done ReachedConsistency,
       mkProcess
         (mkServer
            (set_data_confirmed_flush (EndRecPtr r)
               (MyReplicationSlot (execState (processed (before ++ [r])) w)))
            (mutex (execState (processed (before ++ [r])) w))
            (dirty (execState (processed (before ++ [r])) w))
            (on_disk (execState (processed (before ++ [r])) w))
            (history (execState (processed (before ++ [r])) w)))
         (searching st)
         (calls ++ reading (restart_lsn (data (MyReplicationSlot w)))
                     (before ++ [r])))).
  { unfold DecodingContextFindStartpoint.
    cbn [bind Monad_Run runRun].
    unfold on_shared at 1. unfold slot_read. cbn [runRun runState bind ret
      Monad_state get MonadState_state shared backend external_calls].
    unfold on_backend at 1, elog. cbn [runRun runExec bind ret Monad_Exec get
      put MonadState_Exec shared backend external_calls].
    rewrite (find_startpoint_loop_found before r rest _ _ F C).
    reflexivity. }
  rewrite E. cbn. repeat split.
Qed.

Lemma find_startpoint_reaches_consistency_witness :
  let run := runRun (DecodingContextFindStartpoint
                       [read_ok (quiet_record 210 false);
                        read_ok (quiet_record 230 false);
                        read_ok (quiet_record 260 true);
                        read_ok (quiet_record 300 true)])
               (idle_process server_idle) in
  confirmed_flush (data (MyReplicationSlot (shared (snd run)))) = 260
  /\ external_calls (snd run)
     = [CallXLogReadRecord 100; CallLogicalDecodingProcessRecord 210;
        CallXLogReadRecord 0; CallLogicalDecodingProcessRecord 230;
        CallXLogReadRecord 0; CallLogicalDecodingProcessRecord 260].
Proof.
  destruct (find_startpoint_reaches_consistency
              [quiet_record 210 false; quiet_record 230 false]
              (quiet_record 260 true) [read_ok (quiet_record 300 true)]
              (idle_process server_idle)) as (_ & C & _ & X & _).
  - repeat constructor.
  - reflexivity.
  - split; [exact C | exact X].
Defined.

(** X22. How [DecodingContextFindStartpoint] ends short of consistency.
    After records that pass: a read that reports an error raises that
    error, a read that gives neither error nor record raises "no record
    found", an interrupt after a processed record ends the search, and
    when the reader has nothing more the search waits.  In each case
    [confirmed_flush] has not been assigned: the shared state is what
    processing the records left. *)
Theorem find_startpoint_stops (before : list WalRecord) (err : string)
    (absent : option WalRecord) (interrupted : WalRecord)
    (rest : list ReadResult) (p : Process) :
  Forall passes before ->
  let searched records :=
    mkProcess (execState (processed records) (shared p))
      (searching (backend p))
      (external_calls p
       ++ reading (restart_lsn (data (MyReplicationSlot (shared p)))) records) in
  let asked :=
    CallXLogReadRecord
      (next_startptr (restart_lsn (data (MyReplicationSlot (shared p))))
         before) in
  let stack := error_context_stack (backend p) in
  runRun (DecodingContextFindStartpoint
            (map read_ok before ++ mkRead (Some err) absent :: rest)) p
  = (Failed (Reported (mkError ERRCODE_INTERNAL_ERROR err stack)),
     mkProcess (shared (searched before)) (backend (searched before))
       (external_calls (searched before) ++ [asked]))
  /\ runRun (DecodingContextFindStartpoint
               (map read_ok before ++ mkRead None None :: rest)) p
     = (Failed (Reported (mkError ERRCODE_INTERNAL_ERROR "no record found"
                            stack)),
        mkProcess (shared (searched before)) (backend (searched before))
          (external_calls (searched before) ++ [asked]))
  /\ (consistent_after interrupted = false ->
      interrupt_pending interrupted = true ->
      runRun (DecodingContextFindStartpoint
                (map read_ok before ++ read_ok interrupted :: rest)) p
      = (Failed ReportedInterrupt, searched (before ++ [interrupted])))
  /\ runRun (DecodingContextFindStartpoint (map read_ok before)) p
     = (Done WaitingForWAL, searched before).
Proof.
  intros F searched asked stack. subst searched asked stack.
  destruct p as [w st calls].
  assert (S : forall tail,
    runRun (DecodingContextFindStartpoint (map read_ok before ++ tail))
      (mkProcess w st calls)
    = match runRun (find_startpoint_loop tail
                      (next_startptr (restart_lsn (data (MyReplicationSlot w)))
                         before))
              (mkProcess (execState (processed before) w) (searching st)
                 (calls ++ reading (restart_lsn (data (MyReplicationSlot w)))
                             before)) with
      | (Done (Some e), p') =>
          runRun (on_shared (slot_write (set_data_confirmed_flush e)) ;;
                  ret ReachedConsistency) p'
      | (Done None, p') => (Done WaitingForWAL, p')
      | (Failed x, p') => (Failed x, p')
      | (Crashed, p') => (Crashed, p')
      end).
  { intros tail. unfold DecodingContextFindStartpoint.
    cbn [bind Monad_Run runRun].
    unfold on_shared at 1. unfold slot_read. cbn [runRun runState bind ret
      Monad_state get MonadState_state shared backend external_calls].
    unfold on_backend at 1, elog. cbn [runRun runExec bind ret Monad_Exec get
      put MonadState_Exec shared backend external_calls].
    rewrite (find_startpoint_loop_passes before tail _ _ F).
    cbn [shared backend external_calls]. fold (searching st).
    destruct (runRun (find_startpoint_loop tail _) _) as [[[e|]|x|] p'];
      reflexivity. }
  cbn [shared backend external_calls MyReplicationSlot].
  split; [|split; [|split]].
  - rewrite S. reflexivity.
  - rewrite S. reflexivity.
  - intros C I. rewrite S.
    cbn [find_startpoint_loop read_ok read_err read_record]. rewrite C, I.
    unfold external, on_shared, fail. cbn.
    destruct (runState (processing interrupted) (execState (processed before) w))
      as [[] w'] eqn:E. cbn.
    rewrite execState_processed_app. unfold execState at 1. rewrite E. cbn.
    assert (R : forall s, reading s (before ++ [interrupted])
                          = reading s before
                            ++ [CallXLogReadRecord (next_startptr s before);
                                CallLogicalDecodingProcessRecord
                                  (EndRecPtr interrupted)]).
    { clear. induction before as [|x before IH]; intros s; [reflexivity|].
      cbn [app reading]. rewrite IH.
      destruct before; reflexivity. }
    rewrite R, <- !app_assoc. reflexivity.
  - specialize (S []). rewrite app_nil_r in S. rewrite S. reflexivity.
Qed.

Lemma find_startpoint_stops_witness :
  fst (runRun (DecodingContextFindStartpoint
                 [read_ok (quiet_record 210 false);
                  mkRead (Some "invalid record length"%string) None])
         (idle_process server_idle))
  = Failed (Reported (mkError ERRCODE_INTERNAL_ERROR "invalid record length" [])).
Proof.
  destruct (find_startpoint_stops [quiet_record 210 false]
              "invalid record length" None (quiet_record 0 false) []
              (idle_process server_idle)) as (E & _).
  - repeat constructor.
  - cbn [map app] in E. rewrite E. reflexivity.
Defined.

(** ** Freeing a decoding context *)

(** X23. [FreeDecodingContext] releases the reorder buffer, the snapshot
    builder, the reader and the memory context, in this order, after the
    shutdown callback, if there is one, has returned, and then the error
    context stack is as before.  When the shutdown callback raises an
    error the call ends there: none of the four is released by this call
    and the frame of the shutdown dispatch is still on the stack. *)
Theorem FreeDecodingContext_releases (ctx : LogicalDecodingContext)
    (p : Process) :
  let run := runRun (FreeDecodingContext ctx) p in
  (shutdown_cb (ctx_callbacks ctx) = None ->
   run = (Done tt, mkProcess (shared p) (backend p)
                     (external_calls p ++ released)))
  /\ (forall f st',
        shutdown_cb (ctx_callbacks ctx) = Some f ->
        runExec f (at_callback (mkFrame "shutdown" InvalidXLogRecPtr) None
                     (backend p)) = (Returned tt, st') ->
        fst run = Done tt
        /\ external_calls (snd run) = external_calls p ++ released
        /\ error_context_stack (backend (snd run))
           = error_context_stack (backend p))
  /\ (forall f e st',
        shutdown_cb (ctx_callbacks ctx) = Some f ->
        runExec f (at_callback (mkFrame "shutdown" InvalidXLogRecPtr) None
                     (backend p)) = (Raised e, st') ->
        run = (Failed (Reported e),
               mkProcess (shared p) st' (external_calls p))).
Proof.
  destruct p as [w st calls]. cbv zeta. unfold FreeDecodingContext, released.
  split; [|split].
  - intros N. rewrite N. cbn. rewrite <- !app_assoc. reflexivity.
  - intros f st' S E. rewrite S. unfold at_callback in E.
    unfold shutdown_cb_wrapper. rewrite S. run_run. rewrite E. cbn.
    rewrite <- !app_assoc. repeat split.
  - intros f e st' S E. rewrite S. unfold at_callback in E.
    unfold shutdown_cb_wrapper. rewrite S. run_run. rewrite E. reflexivity.
Qed.

Lemma FreeDecodingContext_releases_witness :
  runRun (FreeDecodingContext (context_of minimal_plugin))
    (idle_process server_idle)
  = (Done tt, mkProcess server_idle idle_backend released).
Proof.
  apply (proj1 (FreeDecodingContext_releases (context_of minimal_plugin)
                  (idle_process server_idle))).
  reflexivity.
Defined.

(** ** Announcing a decoding backend *)

(** X24. [StartupDecodingContext] allocates the context zeroed
    ([palloc0], logical.c line 139) before anything else, so in every
    outcome the write state of the new context is closed: [accept_writes]
    and [prepared_write] are false, [write_xid] and [write_location] are 0.
    It announces the backend as a logical decoding backend
    ([PROC_IN_LOGICAL_DECODING]) only outside a transaction and only after
    the plugin has been loaded: a plugin that does not load fails the call
    with nothing but the write state changed, while a reader that cannot be
    allocated fails the call with the flag already set.  The call returns
    exactly when the plugin loads and the reader is allocated, with the
    callbacks of the plugin and a snapshot builder for the given horizon and
    start position. *)
Theorem StartupDecodingContext_announces (inst : Installation)
    (slot : ReplicationSlot) (output_plugin_options : list string)
    (start_lsn : XLogRecPtr) (xmin_horizon : TransactionId) (st : Backend) :
  let run := runExec (StartupDecodingContext inst slot output_plugin_options
                        start_lsn xmin_horizon) st in
  let allocated :=
    mkBackend false false InvalidTransactionId InvalidXLogRecPtr
      (error_context_stack st) (in_logical_decoding st) (server_log st) in
  let announced :=
    mkBackend false false InvalidTransactionId InvalidXLogRecPtr
      (error_context_stack st)
      (in_logical_decoding st || negb (IsTransactionOrTransactionBlock inst))
      (server_log st) in
  (plugin_loads inst (plugin (data slot)) = false ->
   snd run = allocated /\ exists e, fst run = Raised e)
  /\ (plugin_loads inst (plugin (data slot)) = true ->
      reader_allocated inst = false ->
      run = (Raised (mkError ERRCODE_OUT_OF_MEMORY "out of memory"
                       (error_context_stack st)), announced))
  /\ (plugin_loads inst (plugin (data slot)) = true ->
      reader_allocated inst = true ->
      exists plugin_init,
        load_external_function inst (plugin (data slot)) = Some plugin_init
        /\ run = (Returned
                    (mkContext slot (plugin_init no_callbacks)
                       (AllocateSnapshotBuilder xmin_horizon start_lsn)
                       output_plugin_options 0),
                  announced)).
Proof.
  cbv zeta. unfold StartupDecodingContext, LoadOutputPlugin, plugin_loads,
    mandatory_callbacks_present, palloc0_LogicalDecodingContext.
  destruct st as [aw pw wx wl ecs ild sl].
  destruct (load_external_function inst (plugin (data slot))) as [init|].
  - destruct (is_null (begin_cb (init no_callbacks))),
      (is_null (change_cb (init no_callbacks))),
      (is_null (commit_cb (init no_callbacks))); cbn;
      (split; [|split]); try discriminate;
      try (intros _; split; [reflexivity | eexists; reflexivity]).
    + intros _ R. rewrite R.
      destruct (IsTransactionOrTransactionBlock inst), ild; reflexivity.
    + intros _ R. rewrite R. exists init. split; [reflexivity|].
      destruct (IsTransactionOrTransactionBlock inst), ild; reflexivity.
  - cbn. split; [|split]; try discriminate.
    intros _. split; [reflexivity | eexists; reflexivity].
Qed.

Lemma StartupDecodingContext_announces_witness :
  snd (runExec (StartupDecodingContext
                  (mkInstallation 1 30 (fun _ => Some (fun _ => minimal_plugin))
                     false false)
                  (MyReplicationSlot server_idle) [] 0 40)
         (mkBackend true true 700 1000 [] false []))
  = mkBackend false false 0 0 [] true [].
Proof.
  destruct (StartupDecodingContext_announces
              (mkInstallation 1 30 (fun _ => Some (fun _ => minimal_plugin))
                 false false)
              (MyReplicationSlot server_idle) [] 0 40
              (mkBackend true true 700 1000 [] false []))
    as (_ & O & _).
  rewrite O; reflexivity.
Defined.
